(** * flair.trainers.trainer: the training loop and the learning-rate finder

    A shallow embedding of [ModelTrainer.train], [ModelTrainer.final_test],
    [ModelTrainer.load_from_checkpoint] and
    [ModelTrainer.find_learning_rate] of [flair/trainers/trainer.py].

    Conventions of the embedding.
    - Python floats are idealised as exact rationals ([Q]); the one place
      where the code tests for NaN (the learning-rate finder) uses a value
      type with an explicit NaN.
    - The model, the optimizer's internal buffers and the evaluation metric
      are external collaborators: they appear as an opaque world [W] and as
      oracle functions over it.
    - [train_data = self.corpus.train] binds a name to what
      [self.corpus.train] gives.  For a plain [Corpus] that is the corpus's
      own list, so every in-place operation on [train_data] is an
      operation on the corpus's training split; a [MultiCorpus] builds the
      list at each access, and what is done to it stays with the caller.
      The store holds the corpus and the list [train_data] names, and an
      in-place update reaches the corpus in the first case only.
    - [self.model.state_dict()] gives the model's live parameter tensors,
      not a snapshot of them.
    - [random.shuffle] is CPython's in-place Fisher-Yates loop, driven here
      by an explicit stream of draws. *)

From Stdlib Require Import QArith Qpower.
From stdpp Require Import gmap strings list.

Set Default Proof Using "Type".
#[local] Set Warnings "-clear-no-such-hyp".

(** ** Rational comparisons as the booleans the code branches on *)

Definition Qltb (a b : Q) : bool := negb (Qle_bool b a).

(** The learning-rate floor of line 131. *)
Definition lr_floor : Q := 1 # 10000.

(** A loss as the learning-rate finder sees it: a number, or NaN (which
    [torch.isnan] detects and every comparison answers with [False]). *)
Inductive lossval :=
| Finite (q : Q)
| NaN.

Definition lossval_add (x y : lossval) : lossval :=
  match x, y with
  | Finite a, Finite b => Finite (a + b)
  | _, _ => NaN
  end.

Definition lossval_scale (c : Q) (x : lossval) : lossval :=
  match x with
  | Finite a => Finite (c * a)
  | NaN => NaN
  end.

Definition lossval_ltb (x y : lossval) : bool :=
  match x, y with
  | Finite a, Finite b => Qltb a b
  | _, _ => false
  end.

Definition isnan (x : lossval) : bool :=
  match x with NaN => true | Finite _ => false end.

(** ** Python list primitives used by the trainer *)

Section PyLists.
Context {A : Type}.

(** [x[i], x[j] = x[j], x[i]]: both reads happen before the two writes. *)
Definition swap_items (x : list A) (i j : nat) : list A :=
  match x !! i, x !! j with
  | Some a, Some b => <[j:=a]> (<[i:=b]> x)
  | _, _ => x
  end.

(** [random.shuffle(x)]:
    [for i in reversed(range(1, len(x))): j = randbelow(i + 1); swap].
    [rand c] is the [c]-th raw draw of the generator. *)
Fixpoint shuffle_down (rand : nat -> nat) (c i : nat) (x : list A) : list A :=
  match i with
  | O => x
  | S i' => shuffle_down rand (S c) i' (swap_items x i (rand c mod (i + 1))%nat)
  end.

Definition shuffle (rand : nat -> nat) (c : nat) (x : list A) : list A :=
  shuffle_down rand c (length x - 1) x.

(** [range(0, stop, step)] for a positive [step]. *)
Definition py_range_step (stop step : nat) : list nat :=
  (λ k, k * step)%nat <$> seq 0 ((stop + step - 1) / step)%nat.

(** [[train_data[x:x + mini_batch_size]
      for x in range(0, len(train_data), mini_batch_size)]] *)
Definition make_batches (train_data : list A) (mini_batch_size : nat)
  : list (list A) :=
  (λ x, take mini_batch_size (drop x train_data))
    <$> py_range_step (length train_data) mini_batch_size.
End PyLists.

(** Truth value of a list: [if self.corpus.test:]. *)
Definition truthy {A} (l : list A) : bool :=
  match l with [] => false | _ => true end.

(** [range(lo, hi)] over Python integers. *)
Definition py_range (lo hi : Z) : list Z :=
  (λ i, lo + Z.of_nat i)%Z <$> seq 0 (Z.to_nat (hi - lo)).

(** ** Data model *)

Inductive EvaluationMetric :=
| MICRO_ACCURACY | MICRO_F1_SCORE | MACRO_ACCURACY | MACRO_F1_SCORE.

(** The four aggregates of [flair.training_utils.Metric] that the trainer
    reads. *)
Record Metric := {
  macro_avg_accuracy : Q;
  micro_avg_accuracy : Q;
  macro_avg_f_score : Q;
  micro_avg_f_score : Q
}.

(** The aggregate selected by [evaluation_metric] (lines 206-213 and
    299-306: the same four-way branch). *)
Definition metric_score (m : EvaluationMetric) (x : Metric) : Q :=
  match m with
  | MACRO_ACCURACY => macro_avg_accuracy x
  | MICRO_ACCURACY => micro_avg_accuracy x
  | MACRO_F1_SCORE => macro_avg_f_score x
  | MICRO_F1_SCORE => micro_avg_f_score x
  end.

Inductive optimizer_kind := SGD | AdamW | SGDW | OtherOptimizer.

Inductive anneal_mode := ModeMin | ModeMax.

(** Modelled from the spec: the plateau scheduler ([ReduceLROnPlateau] and
    [ReduceLRWDOnPlateau], which [flair.optim] provides and this file only
    calls).  The spec gives its state as best score, bad-epoch count and the
    per-group learning rates, and its step as: a score that improves on the
    best so far becomes the new best and resets the bad-epoch counter,
    any other score increments it; once the counter exceeds the patience
    every group's rate is multiplied by the factor and the counter is
    reset.  [best = None] is the state before any score was observed. *)
Record Scheduler := {
  sch_mode : anneal_mode;
  sch_factor : Q;
  sch_patience : nat;
  sch_weight_decay_variant : bool;
  best : option Q;
  num_bad_epochs : nat
}.

Definition is_better (mode : anneal_mode) (current : Q) (b : option Q) : bool :=
  match b with
  | None => true
  | Some b =>
      match mode with
      | ModeMin => Qltb current b
      | ModeMax => Qltb b current
      end
  end.

Definition scheduler_step (sch : Scheduler) (lrs : list Q) (current : Q)
  : Scheduler * list Q :=
  let improved := is_better (sch_mode sch) current (best sch) in
  let best' := if improved then Some current else best sch in
  let bad := if improved then O else S (num_bad_epochs sch) in
  let anneal := (sch_patience sch <? bad)%nat in
  ({| sch_mode := sch_mode sch; sch_factor := sch_factor sch;
      sch_patience := sch_patience sch;
      sch_weight_decay_variant := sch_weight_decay_variant sch;
      best := best';
      num_bad_epochs := if anneal then O else bad |},
   if anneal then Qmult (sch_factor sch) <$> lrs else lrs).

(** One row of [loss.tsv] (lines 199-201); a column the code fills with a
    placeholder is [None]. *)
Record loss_row := {
  row_epoch : Z;
  row_bad_epochs : nat;
  row_learning_rate : Q;
  row_train_loss : Q;
  row_train_metric : option Metric;
  row_dev_loss : option Q;
  row_dev_metric : option Metric;
  row_test_metric : option Metric
}.

(** What a run does that an observer can see, in program order. *)
Inductive event :=
| EvEpochStart (epoch : Z) (learning_rate : Q)
| EvBatch (epoch : Z) (batch_no size : nat) (loss : Q)
| EvExtractWeights (iteration : Z)
| EvEpochDone (epoch : Z) (train_loss learning_rate : Q) (bad_epochs : nat)
| EvEvaluate (dataset_name : string)
| EvLossRow (row : loss_row)
| EvSchedulerStep (current_score : Q)
| EvCheckpoint (epoch : Z) (train_loss : Q)
| EvSave (file : string)
| EvLoad (file : string)
| EvFinalTest
| EvSweepBatch (itr size : nat) (loss : lossval)
| EvLrRow (itr : nat) (learning_rate : Q) (loss_item : lossval)
| EvInfo (msg : string).

Inductive exn := KeyboardInterrupt | ZeroDivisionError | ValueError | TypeError.

Inductive result (A : Type) :=
| Ok (a : A)
| Raise (e : exn).
Arguments Ok {A} a.
Arguments Raise {A} e.

(** Values stored in the dictionary [train] returns. *)
Inductive pyvalue :=
| VNum (q : Q)
| VList (l : list Q).

Record train_args := {
  evaluation_metric : EvaluationMetric;
  learning_rate : Q;
  mini_batch_size : nat;
  max_epochs : Z;
  anneal_factor : Q;
  patience : nat;
  anneal_against_train_loss : bool;
  train_with_dev : bool;
  monitor_train : bool;
  checkpoint : bool;
  save_final_model : bool;
  anneal_with_restarts : bool;
  test_mode : bool;
  param_selection_mode : bool
}.

(** The scalar fields of [ModelTrainer.__init__]; [self.model] and
    [self.corpus] are mutable objects and live in the store.  An optimizer
    state is reduced to what the trainer reads back from it, the learning
    rate of each parameter group. *)
Record ModelTrainer := {
  optimizer : optimizer_kind;
  epoch : Z;
  loss : Q;
  optimizer_state : option (list Q);
  scheduler_state : option Scheduler
}.

(** Names of the files the trainer touches, relative to [base_path]. *)
Definition training_log : string := "training.log".
Definition loss_tsv : string := "loss.tsv".
Definition weights_txt : string := "weights.txt".
Definition checkpoint_pt : string := "checkpoint.pt".
Definition best_model_pt : string := "best-model.pt".
Definition final_model_pt : string := "final-model.pt".
Definition test_tsv : string := "test.tsv".

(** ** Reading a run's events *)

(** The losses of the batches of epoch [e], added up in program order on
    top of [acc], as line 157 adds them. *)
Definition batch_loss_total (e : Z) (acc : Q) (evs : list event) : Q :=
  fold_left (λ acc ev,
    match ev with
    | EvBatch e' _ _ l => if (e' =? e)%Z then (acc + l)%Q else acc
    | _ => acc
    end) evs acc.

(** The same with each batch's loss multiplied by the batch's size. *)
Definition weighted_loss_total (e : Z) (acc : Q) (evs : list event) : Q :=
  fold_left (λ acc ev,
    match ev with
    | EvBatch e' _ n l =>
        if (e' =? e)%Z then (acc + inject_Z (Z.of_nat n) * l)%Q else acc
    | _ => acc
    end) evs acc.

(** The number of examples in the batches of epoch [e]. *)
Definition batch_size_total (e : Z) (evs : list event) : nat :=
  fold_right (λ ev n,
    match ev with
    | EvBatch e' _ k _ => if (e' =? e)%Z then (k + n)%nat else n
    | _ => n
    end) O evs.

(** The epochs whose loop body was entered, in order. *)
Definition epochs_started (evs : list event) : list Z :=
  omap (λ ev, match ev with EvEpochStart e _ => Some e | _ => None end) evs.

(** The number of epochs that got as far as the "EPOCH n done" line. *)
Definition epochs_done (evs : list event) : nat :=
  length (omap (λ ev, match ev with EvEpochDone e _ _ _ => Some e | _ => None end) evs).

Definition is_batch (ev : event) : bool :=
  match ev with EvBatch _ _ _ _ => true | _ => false end.
Definition is_loss_row (ev : event) : bool :=
  match ev with EvLossRow _ => true | _ => false end.
Definition is_epoch_start (ev : event) : bool :=
  match ev with EvEpochStart _ _ => true | _ => false end.

(** The epoch an event belongs to, for the events of the epoch loop that
    carry one. *)
Definition event_epoch (ev : event) : option Z :=
  match ev with
  | EvEpochStart e _ | EvBatch e _ _ _ | EvEpochDone e _ _ _ => Some e
  | _ => None
  end.

(** The keys of the dictionary [train] returns. *)
Definition result_keys : list string :=
  ["test_score"; "dev_score_history"; "train_loss_history"; "dev_loss_history"].

(** Lookup in a Python dictionary given as its item list. *)
Fixpoint dict_get (d : list (string * pyvalue)) (k : string) : option pyvalue :=
  match d with
  | [] => None
  | (k', v) :: d' => if String.eqb k' k then Some v else dict_get d' k
  end.

(** The number of mini-batches the learning-rate finder processed. *)
Definition sweep_batches (evs : list event) : nat :=
  length (omap (λ ev, match ev with EvSweepBatch i _ _ => Some i | _ => None end) evs).

(** The (smoothed) losses the learning-rate finder logged, by iteration. *)
Definition logged_losses (evs : list event) : list (nat * lossval) :=
  omap (λ ev, match ev with EvLrRow i _ l => Some (i, l) | _ => None end) evs.

Definition diverged_msg : string := "loss diverged - stopping early!".

(** The mean the spec describes for an epoch: each batch's loss weighted by
    the batch's size, over the number of examples. *)
Definition spec_weighted_mean_loss (e : Z) (evs : list event) : Q :=
  (weighted_loss_total e 0 evs
   / inject_Z (Z.of_nat (batch_size_total e evs)))%Q.

(** Membership and non-membership in an explicit list of events. *)
Ltac not_in_events :=
  let Hin := fresh "Hin" in
  intros Hin;
  repeat (apply elem_of_cons in Hin as [Hin|Hin]; [discriminate Hin|]);
  by apply elem_of_nil in Hin.

Ltac in_events :=
  repeat first [apply list_elem_of_here | apply list_elem_of_further].


(** ** More readings of a run's events *)

(** The scores the plateau scheduler was stepped with, in order. *)
Definition scheduler_scores (evs : list event) : list Q :=
  omap (λ ev, match ev with EvSchedulerStep q => Some q | _ => None end) evs.

(** The checkpoints written, each with the epoch index and the loss it
    records. *)
Definition checkpoints (evs : list event) : list (Z * Q) :=
  omap (λ ev, match ev with EvCheckpoint e l => Some (e, l) | _ => None end) evs.

(** The epochs that got to their "EPOCH n done" line, and the losses these
    lines report. *)
Definition done_epochs (evs : list event) : list Z :=
  omap (λ ev, match ev with EvEpochDone e _ _ _ => Some e | _ => None end) evs.
Definition done_losses (evs : list event) : list Q :=
  omap (λ ev, match ev with EvEpochDone _ l _ _ => Some l | _ => None end) evs.

(** The rows appended to [loss.tsv]. *)
Definition loss_rows (evs : list event) : list loss_row :=
  omap (λ ev, match ev with EvLossRow r => Some r | _ => None end) evs.

(** The files models were saved to and loaded from, and the names of the
    datasets [_calculate_evaluation_results_for] was called on. *)
Definition saved_files (evs : list event) : list string :=
  omap (λ ev, match ev with EvSave f => Some f | _ => None end) evs.
Definition loaded_files (evs : list event) : list string :=
  omap (λ ev, match ev with EvLoad f => Some f | _ => None end) evs.
Definition evaluated (evs : list event) : list string :=
  omap (λ ev, match ev with EvEvaluate n => Some n | _ => None end) evs.

(** The mini-batches of the epoch loop, as (epoch, number, size). *)
Definition batches_run (evs : list event) : list (Z * nat * nat) :=
  omap (λ ev, match ev with EvBatch e b n _ => Some (e, b, n) | _ => None end) evs.

(** The learning rates the learning-rate finder logged, by iteration. *)
Definition logged_rates (evs : list event) : list (nat * Q) :=
  omap (λ ev, match ev with EvLrRow i lr _ => Some (i, lr) | _ => None end) evs.

(** The raw losses of the mini-batches the finder processed. *)
Definition sweep_losses (evs : list event) : list lossval :=
  omap (λ ev, match ev with EvSweepBatch _ _ l => Some l | _ => None end) evs.

(** The log lines. *)
Definition info_lines (evs : list event) : list string :=
  omap (λ ev, match ev with EvInfo m => Some m | _ => None end) evs.

Definition resetting_msg : string := "resetting to best model".
Definition testing_msg : string := "Testing using best model ...".
Definition finder_done_msg : string := "learning rate finder finished".
(** ** The trainer over its external collaborators *)

Section Trainer.
Context {Sentence W : Type}.

(** Lines 149-159 for one batch: [forward_loss], [zero_grad], [backward],
    gradient clipping, [optimizer.step] and [clear_embeddings].  It reads the
    world and the current learning rates and gives [loss.item()] and the
    world after the update. *)
Variable forward_backward_step : W → list Q → list Sentence → Q * W.
(** [self.model.evaluate(dataset, ...)]: the metric and the loss. *)
Variable evaluate : W → list Sentence → Metric * Q.
(** [self.model.load(path)]: the model read back from a saved artifact. *)
Variable model_load : W → W.
(** The raw draws of Python's random generator. *)
Variable rand : nat → nat.
(** [interrupt e b]: a KeyboardInterrupt is delivered in epoch [e] when batch
    [b] is about to be processed; [b] equal to the number of batches stands
    for the point right after the batch loop. *)
Variable interrupt : Z → nat → bool.

(** [corpus_train] is what [self.corpus.train] gives.  For a plain
    [Corpus] that is an attribute, one list object which every reader
    shares; for a [MultiCorpus] it is a property that puts the parts'
    training lists together in a new list at each access, so nothing done
    to the list it gave changes what it gives next. *)
Record Corpus := {
  corpus_train : list Sentence;
  corpus_dev : list Sentence;
  corpus_test : list Sentence;
  (** [Some subs] for a [MultiCorpus]: name and test split of each part. *)
  corpora : option (list (string * list Sentence))
}.

(** The objects a call works on.  [train_data] is the list the local name
    [train_data] is bound to; [param_groups], [scheduler] and the three
    histories are created by [train] itself; [model], [corpus], [files] and
    [rng] are there before the call and outlive it. *)
Record store := {
  model : W;
  corpus : Corpus;
  train_data : list Sentence;
  param_groups : list Q;
  scheduler : Scheduler;
  files : gset string;
  rng : nat;
  dev_score_history : list Q;
  dev_loss_history : list Q;
  train_loss_history : list Q
}.

Definition set_model (w : W) (s : store) : store :=
  {| model := w; corpus := corpus s; train_data := train_data s;
     param_groups := param_groups s;
     scheduler := scheduler s; files := files s; rng := rng s;
     dev_score_history := dev_score_history s;
     dev_loss_history := dev_loss_history s;
     train_loss_history := train_loss_history s |}.

(** [train_data = self.corpus.train]. *)
Definition bind_train_data (s : store) : store :=
  {| model := model s; corpus := corpus s;
     train_data := corpus_train (corpus s);
     param_groups := param_groups s;
     scheduler := scheduler s; files := files s; rng := rng s;
     dev_score_history := dev_score_history s;
     dev_loss_history := dev_loss_history s;
     train_loss_history := train_loss_history s |}.

(** An in-place update of the list [train_data] names, which leaves it as
    [l] (and the generator at draw [k]).  For a plain corpus that list is
    the corpus's training split itself, so the corpus sees the update; for
    a [MultiCorpus] it is a list of the caller's own. *)
Definition set_train (l : list Sentence) (k : nat) (s : store) : store :=
  {| model := model s;
     corpus := match corpora (corpus s) with
               | None =>
                   {| corpus_train := l; corpus_dev := corpus_dev (corpus s);
                      corpus_test := corpus_test (corpus s);
                      corpora := None |}
               | Some _ => corpus s
               end;
     train_data := l;
     param_groups := param_groups s;
     scheduler := scheduler s; files := files s; rng := k;
     dev_score_history := dev_score_history s;
     dev_loss_history := dev_loss_history s;
     train_loss_history := train_loss_history s |}.

Definition set_optim (lrs : list Q) (sch : Scheduler) (s : store) : store :=
  {| model := model s; corpus := corpus s; train_data := train_data s;
     param_groups := lrs;
     scheduler := sch; files := files s; rng := rng s;
     dev_score_history := dev_score_history s;
     dev_loss_history := dev_loss_history s;
     train_loss_history := train_loss_history s |}.

Definition add_file (f : string) (s : store) : store :=
  {| model := model s; corpus := corpus s; train_data := train_data s;
     param_groups := param_groups s;
     scheduler := scheduler s; files := {[f]} ∪ files s; rng := rng s;
     dev_score_history := dev_score_history s;
     dev_loss_history := dev_loss_history s;
     train_loss_history := train_loss_history s |}.

Definition set_histories (ds dl tl : list Q) (s : store) : store :=
  {| model := model s; corpus := corpus s; train_data := train_data s;
     param_groups := param_groups s;
     scheduler := scheduler s; files := files s; rng := rng s;
     dev_score_history := ds; dev_loss_history := dl;
     train_loss_history := tl |}.

(** *** State, event log and exceptions *)

Definition M (A : Type) : Type := store → store * list event * result A.

Definition ret {A} (a : A) : M A := λ s, (s, [], Ok a).

Definition bind {A B} (m : M A) (f : A → M B) : M B := λ s,
  match m s with
  | (s1, e1, Ok a) => match f a s1 with (s2, e2, r) => (s2, e1 ++ e2, r) end
  | (s1, e1, Raise x) => (s1, e1, Raise x)
  end.

Definition raise {A} (x : exn) : M A := λ s, (s, [], Raise x).
Definition get : M store := λ s, (s, [], Ok s).
Definition modify (f : store → store) : M unit := λ s, (f s, [], Ok tt).
Definition tell (ev : event) : M unit := λ s, (s, [ev], Ok tt).

(** [try: body except KeyboardInterrupt: handler]; any other exception
    passes through. *)
Definition try_except_KeyboardInterrupt (body handler : M unit) : M unit := λ s,
  match body s with
  | (s1, e1, Raise KeyboardInterrupt) =>
      match handler s1 with (s2, e2, r) => (s2, e1 ++ e2, r) end
  | out => out
  end.

Notation "'let!' x := m 'in' k" := (bind m (λ x, k))
  (at level 10, x pattern, m at level 100, k at level 200).
Notation "m >> k" := (bind m (λ _, k))
  (at level 100, k at level 200, right associativity).

Definition when (b : bool) (m : M unit) : M unit := if b then m else ret tt.

Definition log_info (msg : string) : M unit := tell (EvInfo msg).

(** [init_output_file] and [open(..., 'a')]: the file exists afterwards. *)
Definition create_file (f : string) : M unit := modify (add_file f).

Definition file_exists (f : string) (s : store) : bool :=
  bool_decide (f ∈ files s).

(** [self.model.save(path)]. *)
Definition model_save (f : string) : M unit :=
  create_file f >> tell (EvSave f).

Definition check_interrupt (e : Z) (b : nat) : M unit :=
  if interrupt e b then raise KeyboardInterrupt else ret tt.

(** [_calculate_evaluation_results_for] (lines 310-330); the model writes
    its predictions to [out_path] when one is given. *)
Definition calculate_evaluation_results_for
    (dataset_name : string) (dataset : list Sentence)
    (out_path : option string) : M (Metric * Q) :=
  let! s := get in
  let '(metric, loss) := evaluate (model s) dataset in
  match out_path with Some f => create_file f | None => ret tt end >>
  tell (EvEvaluate dataset_name) >>
  ret (metric, loss).

(** *** [ModelTrainer.train] *)

(** Lines 148-166: the loop over the batches of one epoch, carrying
    [train_loss] and [seen_sentences]. *)
Fixpoint batch_loop (a : train_args) (epoch : Z) (n_batches modulo : nat)
    (batch_no : nat) (batches : list (list Sentence))
    (train_loss : Q) (seen_sentences : nat) : M (Q * nat) :=
  match batches with
  | [] => ret (train_loss, seen_sentences)
  | batch :: rest =>
      check_interrupt epoch batch_no >>
      let! s := get in
      let '(loss, w) := forward_backward_step (model s) (param_groups s) batch in
      modify (set_model w) >>
      tell (EvBatch epoch batch_no (length batch) loss) >>
      let seen_sentences := (seen_sentences + length batch)%nat in
      let train_loss := (train_loss + loss)%Q in
      when (batch_no mod modulo =? 0)%nat
        (let iteration := (epoch * Z.of_nat n_batches + Z.of_nat batch_no)%Z in
         when (negb (param_selection_mode a))
           (create_file weights_txt >> tell (EvExtractWeights iteration))) >>
      batch_loop a epoch n_batches modulo (S batch_no) rest
        train_loss seen_sentences
  end.

(** [random.shuffle(train_data)]: the list [train_data] names is
    reordered in place; [len - 1] draws are consumed. *)
Definition shuffle_train_data : M unit :=
  modify (λ s, set_train (shuffle rand (rng s) (train_data s))
                 (rng s + (length (train_data s) - 1)) s).

(** Lines 137-174 of the loop body: shuffle, cut into batches, run them and
    normalise the accumulated loss.  Gives the epoch's [train_loss]. *)
Definition train_one_epoch (a : train_args) (epoch : Z)
    (learning_rate : Q) (bad_epochs : nat) : M Q :=
  when (negb (test_mode a)) shuffle_train_data >>
  let! s := get in
  let train_data := train_data s in
  (* range(0, len(train_data), 0) is a ValueError *)
  (if (mini_batch_size a =? 0)%nat then raise ValueError else ret tt) >>
  let batches := make_batches train_data (mini_batch_size a) in
  let modulo := Nat.max 1 (length batches / 10) in
  let! (train_loss, seen_sentences) :=
    batch_loop a epoch (length batches) modulo 0 batches 0%Q 0 in
  check_interrupt epoch (length batches) >>
  (* train_loss /= len(train_data) *)
  (if (length train_data =? 0)%nat then raise ZeroDivisionError else ret tt) >>
  let train_loss := (train_loss / inject_Z (Z.of_nat (length train_data)))%Q in
  tell (EvEpochDone epoch train_loss learning_rate bad_epochs) >>
  ret train_loss.

(** Lines 176-234 of the loop body: evaluation, the [loss.tsv] row, the
    scheduler step, the histories, the checkpoint and the best model. *)
Definition evaluate_epoch (a : train_args) (epoch : Z)
    (learning_rate : Q) (bad_epochs : nat) (train_loss : Q) : M unit :=
  let! (train_metric, train_loss) :=
    (if monitor_train a then
       let! s := get in
       let! (m, l) := calculate_evaluation_results_for "TRAIN"
                         (corpus_train (corpus s)) None in
       ret (Some m, l)
     else ret (None, train_loss)) in
  let! (dev_metric, dev_loss) :=
    (if negb (train_with_dev a) then
       let! s := get in
       let! (m, l) := calculate_evaluation_results_for "DEV"
                         (corpus_dev (corpus s)) None in
       ret (Some m, Some l)
     else ret (None, None)) in
  let! s := get in
  let! test_metric :=
    (if negb (param_selection_mode a) && truthy (corpus_test (corpus s)) then
       let! (m, _) := calculate_evaluation_results_for "TEST"
                         (corpus_test (corpus s)) (Some test_tsv) in
       ret (Some m)
     else ret None) in
  when (negb (param_selection_mode a))
    (tell (EvLossRow {| row_epoch := epoch; row_bad_epochs := bad_epochs;
                        row_learning_rate := learning_rate;
                        row_train_loss := train_loss;
                        row_train_metric := train_metric;
                        row_dev_loss := dev_loss;
                        row_dev_metric := dev_metric;
                        row_test_metric := test_metric |})) >>
  (* dev_score = 0. unless the dev split is evaluated *)
  let dev_score :=
    match dev_metric with
    | Some m => metric_score (evaluation_metric a) m
    | None => 0%Q
    end in
  match dev_loss with
  | Some l =>
      modify (λ s, set_histories (dev_score_history s ++ [dev_score])
                     (dev_loss_history s ++ [l]) (train_loss_history s) s)
  | None => ret tt
  end >>
  let current_score :=
    if anneal_against_train_loss a then train_loss else dev_score in
  (* scheduler.step(current_score) *)
  modify (λ s, let stepped :=
                 scheduler_step (scheduler s) (param_groups s) current_score in
               set_optim stepped.2 stepped.1 s) >>
  tell (EvSchedulerStep current_score) >>
  modify (λ s, set_histories (dev_score_history s) (dev_loss_history s)
                 (train_loss_history s ++ [train_loss]) s) >>
  when (checkpoint a && negb (param_selection_mode a))
    (create_file checkpoint_pt >> tell (EvCheckpoint (epoch + 1) train_loss)) >>
  let! s := get in
  when (negb (train_with_dev a) && negb (param_selection_mode a)
        && match best (scheduler s) with
           | Some b => Qeq_bool current_score b
           | None => false
           end)
    (model_save best_model_pt).

(** Lines 113-234: one iteration of the epoch loop.  The result says whether
    the loop was left by [break], and gives the learning rate the next
    iteration will see as [previous_learning_rate]. *)
Definition epoch_body (a : train_args) (epoch : Z)
    (previous_learning_rate : Q) : M (bool * Q) :=
  let! s := get in
  let bad_epochs := num_bad_epochs (scheduler s) in
  (* for group in optimizer.param_groups: learning_rate = group['lr'] *)
  let learning_rate := List.last (param_groups s) previous_learning_rate in
  tell (EvEpochStart epoch learning_rate) >>
  (* the value of [self.model.load] is dropped at line 126 *)
  when (negb (Qeq_bool learning_rate previous_learning_rate)
        && anneal_with_restarts a && file_exists best_model_pt s)
    (log_info "resetting to best model" >> tell (EvLoad best_model_pt)) >>
  if Qltb learning_rate lr_floor then
    log_info "learning rate too small - quitting training!" >>
    ret (true, learning_rate)
  else
    let! train_loss := train_one_epoch a epoch learning_rate bad_epochs in
    evaluate_epoch a epoch learning_rate bad_epochs train_loss >>
    ret (false, learning_rate).

(** Line 112: [for epoch in range(...)], with [break]. *)
Fixpoint epoch_loop (a : train_args) (epochs : list Z)
    (previous_learning_rate : Q) : M unit :=
  match epochs with
  | [] => ret tt
  | epoch :: rest =>
      let! (stop, learning_rate) := epoch_body a epoch previous_learning_rate in
      if stop : bool then ret tt else epoch_loop a rest learning_rate
  end.

(** Lines 260-308. *)
Definition final_test (a : train_args) : M Q :=
  tell EvFinalTest >>
  log_info "Testing using best model ..." >>
  let! s := get in
  when (file_exists best_model_pt s)
    (modify (set_model (model_load (model s))) >> tell (EvLoad best_model_pt)) >>
  let! s := get in
  let '(test_metric, test_loss) := evaluate (model s) (corpus_test (corpus s)) in
  match corpora (corpus s) with
  | Some subs =>
      foldr (λ sub k, calculate_evaluation_results_for sub.1 sub.2 (Some test_tsv) >> k)
        (ret tt) subs
  | None => ret tt
  end >>
  ret (metric_score (evaluation_metric a) test_metric).

Definition new_scheduler (self : ModelTrainer) (a : train_args) : Scheduler :=
  {| sch_mode := if anneal_against_train_loss a then ModeMin else ModeMax;
     sch_factor := anneal_factor a;
     sch_patience := patience a;
     sch_weight_decay_variant :=
       match optimizer self with AdamW | SGDW => true | _ => false end;
     best := None;
     num_bad_epochs := 0 |}.

(** Lines 59-106: everything [train] does before the epoch loop. *)
Definition train_setup (self : ModelTrainer) (a : train_args) : M unit :=
  (* add_file_handler(log, base_path / 'training.log') *)
  create_file training_log >>
  (* init_output_file(base_path, 'loss.tsv'); WeightExtractor(base_path) *)
  when (negb (param_selection_mode a))
    (create_file loss_tsv >> create_file weights_txt) >>
  modify (λ s, set_optim
            (default [learning_rate a] (optimizer_state self))
            (default (new_scheduler self a) (scheduler_state self)) s) >>
  (* train_data = self.corpus.train *)
  modify bind_train_data >>
  (* train_data.extend(self.corpus.dev) *)
  when (train_with_dev a)
    (modify (λ s, set_train (train_data s ++ corpus_dev (corpus s))
                    (rng s) s)) >>
  modify (set_histories [] [] []).

(** Lines 249-258: the final test and the returned dictionary. *)
Definition train_finish (a : train_args) : M (list (string * pyvalue)) :=
  let! s := get in
  let! final_score :=
    (if truthy (corpus_test (corpus s)) then final_test a
     else
       log_info "Test data not provided setting final score to 0" >> ret 0%Q) in
  let! s := get in
  ret [("test_score", VNum final_score);
       ("dev_score_history", VList (dev_score_history s));
       ("train_loss_history", VList (train_loss_history s));
       ("dev_loss_history", VList (dev_loss_history s))].

(** Lines 59-258. *)
Definition train (self : ModelTrainer) (a : train_args)
  : M (list (string * pyvalue)) :=
  train_setup self a >>
  try_except_KeyboardInterrupt
    (epoch_loop a (py_range (0 + epoch self) (max_epochs a + epoch self))
       (learning_rate a) >>
     when (save_final_model a && negb (param_selection_mode a))
       (model_save final_model_pt))
    (log_info "Exiting from training early." >>
     when (negb (param_selection_mode a))
       (log_info "Saving model ..." >> model_save final_model_pt >>
        log_info "Done.")) >>
  train_finish a.

(** *** [ModelTrainer.find_learning_rate] *)

Record find_lr_args := {
  file_name : string;
  start_learning_rate : Q;
  end_learning_rate : Q;
  (** the iteration budget, a count *)
  iterations : nat;
  flr_mini_batch_size : nat;
  stop_early : bool;
  smoothing_factor : Q
}.

Context {ModelState Device : Type}.

(** [self.model.state_dict()], [load_state_dict], the device of the model's
    parameters and [self.model.to(device)].  [state_dict w] is what the
    parameters of [w] hold: the dictionary [state_dict()] returns is made
    of the parameter tensors themselves, not of copies, so reading it later
    gives what the parameters hold then. *)
Variable state_dict : W → ModelState.
Variable load_state_dict : W → ModelState → W.
Variable device : W → Device.
Variable to_device : W → Device → W.
(** Lines 373-378 for one batch; the loss may be NaN here. *)
Variable sweep_step : W → list Q → list Sentence → lossval * W.
(** [ExpAnnealLR(optimizer, end_learning_rate, iterations)]: the rate the
    scheduler reports after its [k]-th step. *)
Variable exp_anneal_lr : Q → Q → nat → nat → Q.

(** Lines 383-390: the loss that is compared and logged, the best loss and
    the moving average after iteration [itr].  Reading [best_loss] while it
    is still [None] would be a TypeError.  The power is the exact one: for
    a smoothing factor above 1 Python's float power can overflow and raise
    OverflowError, which is outside this embedding, so what is said of the
    exceptions of the sweep is said for factors up to 1. *)
Definition smooth_loss (a : find_lr_args) (itr : nat) (loss : lossval)
    (best_loss : option lossval) (moving_avg_loss : lossval)
  : M (lossval * lossval * lossval) :=
  if (itr =? 0)%nat then
    (* best_loss = loss_item *)
    ret (loss, loss, moving_avg_loss)
  else
    let! (loss_item, moving_avg_loss) :=
      (if Qltb 0 (smoothing_factor a) then
         let moving_avg_loss :=
           lossval_add (lossval_scale (smoothing_factor a) moving_avg_loss)
                       (lossval_scale (1 - smoothing_factor a) loss) in
         let d := (1 - smoothing_factor a ^ Z.of_nat (itr + 1))%Q in
         if Qeq_bool d 0 then raise ZeroDivisionError
         else ret (lossval_scale (/ d) moving_avg_loss, moving_avg_loss)
       else ret (loss, moving_avg_loss)) in
    match best_loss with
    | None => raise TypeError
    | Some b =>
        (* if loss_item < best_loss: best_loss = loss *)
        ret (loss_item, if lossval_ltb loss_item b then loss else b,
             moving_avg_loss)
    end.

(** Lines 372-398: [for itr, batch in enumerate(batches)], with [break]. *)
Fixpoint sweep (a : find_lr_args) (itr : nat) (batches : list (list Sentence))
    (best_loss : option lossval) (moving_avg_loss : lossval) : M unit :=
  match batches with
  | [] => ret tt
  | batch :: rest =>
      let! s := get in
      let '(loss, w) := sweep_step (model s) (param_groups s) batch in
      (* scheduler.step(); learning_rate = scheduler.get_lr()[0] *)
      let learning_rate :=
        exp_anneal_lr (start_learning_rate a) (end_learning_rate a)
          (iterations a) (S itr) in
      modify (λ s, set_optim [learning_rate] (scheduler s) (set_model w s)) >>
      tell (EvSweepBatch itr (length batch) loss) >>
      let! (loss_item, best_loss, moving_avg_loss) :=
        smooth_loss a itr loss best_loss moving_avg_loss in
      if stop_early a
         && (lossval_ltb (lossval_scale 4 best_loss) loss_item || isnan loss)
      then log_info diverged_msg
      else
        tell (EvLrRow itr learning_rate loss_item) >>
        sweep a (S itr) rest (Some best_loss) moving_avg_loss
  end.

(** Lines 349-407. *)
Definition find_learning_rate (a : find_lr_args) : M string :=
  create_file (file_name a) >>
  modify (λ s, set_optim [start_learning_rate a] (scheduler s) s) >>
  (* train_data = self.corpus.train; random.shuffle(train_data) *)
  modify bind_train_data >>
  shuffle_train_data >>
  let! s := get in
  (if (flr_mini_batch_size a =? 0)%nat then raise ValueError else ret tt) >>
  let batches :=
    take (iterations a)
      (make_batches (train_data s) (flr_mini_batch_size a)) in
  (* model_state = self.model.state_dict(): a dictionary of the live
     parameter tensors, which the optimizer then updates in place *)
  let model_device := device (model s) in
  sweep a 0 batches None (Finite 0) >>
  (* self.model.load_state_dict(model_state): what is loaded is what the
     parameters hold now *)
  modify (λ s,
    set_model (to_device (load_state_dict (model s) (state_dict (model s)))
                 model_device) s) >>
  log_info "learning rate finder finished" >>
  ret (file_name a).

(** *** [ModelTrainer.load_from_checkpoint] *)

(** The dictionary [self.model.load_checkpoint] gives, with the five
    entries [load_from_checkpoint] reads. *)
Record Checkpoint := {
  ck_model : W;
  ck_epoch : Z;
  ck_loss : Q;
  ck_optimizer_state_dict : list Q;
  ck_scheduler_state_dict : Scheduler
}.

(** [self.model.load_checkpoint(checkpoint_file)]. *)
Variable load_checkpoint : W → string → Checkpoint.

(** Lines 332-336.  The new trainer is a new object: its scalar fields are
    the record, its model and corpus are those of the store given back.
    [model_type] is not used. *)
Definition load_from_checkpoint (checkpoint_file model_type : string)
    (new_corpus : Corpus) (new_optimizer : optimizer_kind) (s : store)
  : ModelTrainer * store :=
  let checkpoint := load_checkpoint (model s) checkpoint_file in
  ({| optimizer := new_optimizer;
      epoch := ck_epoch checkpoint;
      loss := ck_loss checkpoint;
      optimizer_state := Some (ck_optimizer_state_dict checkpoint);
      scheduler_state := Some (ck_scheduler_state_dict checkpoint) |},
   {| model := ck_model checkpoint; corpus := new_corpus;
      train_data := train_data s;
      param_groups := param_groups s; scheduler := scheduler s;
      files := files s; rng := rng s;
      dev_score_history := dev_score_history s;
      dev_loss_history := dev_loss_history s;
      train_loss_history := train_loss_history s |}).

(** ** Relations between the store before and after a step *)

(** Only the model and the set of files may differ. *)
Definition same_but_model_files (s s' : store) : Prop :=
  corpus s' = corpus s ∧ train_data s' = train_data s ∧
  param_groups s' = param_groups s ∧
  scheduler s' = scheduler s ∧ rng s' = rng s ∧
  dev_score_history s' = dev_score_history s ∧
  dev_loss_history s' = dev_loss_history s ∧
  train_loss_history s' = train_loss_history s.

(** No file disappears and every new file is one of [X]. *)
Definition files_within (X : gset string) (s s' : store) : Prop :=
  files s ⊆ files s' ∧ files s' ⊆ X ∪ files s.

(** The training split keeps its examples (possibly in another order); the
    other splits are untouched. *)
Definition corpus_kept (s s' : store) : Prop :=
  corpus_train (corpus s') ≡ₚ corpus_train (corpus s) ∧
  corpus_dev (corpus s') = corpus_dev (corpus s) ∧
  corpus_test (corpus s') = corpus_test (corpus s) ∧
  corpora (corpus s') = corpora (corpus s).

(** For a plain corpus the list [train_data] names is the corpus's
    training split. *)
Definition aliased (s : store) : Prop :=
  corpora (corpus s) = None → corpus_train (corpus s) = train_data s.

(** What a step may do to the data: reorder the list [train_data] names,
    and with it, for a plain corpus, the corpus's training split.  The
    other splits stay, and a [MultiCorpus] stays as a whole. *)
Definition data_kept (s s' : store) : Prop :=
  train_data s' ≡ₚ train_data s ∧
  corpus_dev (corpus s') = corpus_dev (corpus s) ∧
  corpus_test (corpus s') = corpus_test (corpus s) ∧
  corpora (corpus s') = corpora (corpus s) ∧
  (aliased s → aliased s') ∧
  (corpora (corpus s) ≠ None → corpus s' = corpus s).

(** Events of the batch loop of epoch [e]. *)
Definition batch_loop_event (e : Z) (ev : event) : Prop :=
  match ev with
  | EvBatch e' _ _ _ => e' = e
  | EvExtractWeights _ => True
  | _ => False
  end.

(** The optimizer's rates, the scheduler and the histories are as before. *)
Definition optim_hist_kept (s s' : store) : Prop :=
  param_groups s' = param_groups s ∧ scheduler s' = scheduler s ∧
  dev_score_history s' = dev_score_history s ∧
  dev_loss_history s' = dev_loss_history s ∧
  train_loss_history s' = train_loss_history s.

(** Why the training phase of an epoch can fail. *)
Definition raise_reason (a : train_args) (x : exn) (s' : store) : Prop :=
  match x with
  | KeyboardInterrupt => True
  | ValueError => mini_batch_size a = O
  | ZeroDivisionError => train_data s' = []
  | TypeError => False
  end.

(** Events of the evaluation phase of an epoch. *)
Definition eval_event (ev : event) : Prop :=
  match ev with
  | EvEvaluate _ | EvLossRow _ | EvSchedulerStep _ | EvCheckpoint _ _
  | EvSave _ => True
  | _ => False
  end.

(** Log lines and model reloads. *)
Definition info_event (ev : event) : Prop :=
  match ev with
  | EvInfo _ | EvLoad _ => True
  | _ => False
  end.

(** Log lines the claims refer to. *)
Definition no_test_msg : string :=
  "Test data not provided setting final score to 0".
Definition lr_too_small_msg : string :=
  "learning rate too small - quitting training!".
Definition interrupted_msg : string := "Exiting from training early.".

(** The files an epoch may create. *)
Definition epoch_files (a : train_args) : gset string :=
  if param_selection_mode a then ∅
  else {[weights_txt; test_tsv; checkpoint_pt; best_model_pt]}.

(** The three ways one iteration of the epoch loop can end, with the events
    it leaves behind: the learning rate is below the floor and the loop is
    left; the training phase raises; the epoch runs to its end. *)
Inductive epoch_outcome (a : train_args) (e : Z) (prev : Q) (s s' : store)
    (evs : list event) : result (bool * Q) → Prop :=
| epoch_break lr pre :
    lr = List.last (param_groups s) prev →
    Qltb lr lr_floor = true →
    Forall info_event pre →
    EvInfo lr_too_small_msg ∈ pre →
    evs = EvEpochStart e lr :: pre →
    s' = s →
    epoch_outcome a e prev s s' evs (Ok (true, lr))
| epoch_raise lr pre bevs x :
    lr = List.last (param_groups s) prev →
    Qltb lr lr_floor = false →
    Forall info_event pre →
    Forall (batch_loop_event e) bevs →
    evs = EvEpochStart e lr :: pre ++ bevs →
    raise_reason a x s' →
    optim_hist_kept s s' →
    epoch_outcome a e prev s s' evs (Raise x)
| epoch_done lr pre bevs tl eevs :
    lr = List.last (param_groups s) prev →
    Qltb lr lr_floor = false →
    Forall info_event pre →
    Forall (batch_loop_event e) bevs →
    Forall eval_event eevs →
    evs = EvEpochStart e lr :: pre ++ bevs
            ++ EvEpochDone e tl lr (num_bad_epochs (scheduler s)) :: eevs →
    tl = (batch_loss_total e 0 bevs
          / inject_Z (Z.of_nat (length (train_data s'))))%Q →
    batch_size_total e bevs = length (train_data s') →
    train_data s' ≠ [] →
    length (dev_score_history s')
    = (length (dev_score_history s) + if train_with_dev a then 0 else 1)%nat →
    length (dev_loss_history s')
    = (length (dev_loss_history s) + if train_with_dev a then 0 else 1)%nat →
    length (train_loss_history s')
    = (length (train_loss_history s) + 1)%nat →
    epoch_outcome a e prev s s' evs (Ok (false, lr)).

(** One iteration of the epoch loop with what it keeps. *)
Definition epoch_step (a : train_args) (e : Z) (prev : Q) (s s' : store)
    (evs : list event) (r : result (bool * Q)) : Prop :=
  data_kept s s' ∧
  (test_mode a = true → corpus s' = corpus s ∧ train_data s' = train_data s) ∧
  files_within (epoch_files a) s s' ∧
  epoch_outcome a e prev s s' evs r.

(** The runs of the epoch loop over the epochs still to do: the epochs are
    used up, the loop is left by [break], an epoch raises, or an epoch runs
    to its end and the loop goes on. *)
Inductive loop_run (a : train_args)
  : list Z → Q → store → store → list event → result unit → Prop :=
| loop_exhausted prev s :
    loop_run a [] prev s s [] (Ok tt)
| loop_break e es prev s s1 e1 lr :
    epoch_step a e prev s s1 e1 (Ok (true, lr)) →
    loop_run a (e :: es) prev s s1 e1 (Ok tt)
| loop_raise e es prev s s1 e1 x :
    epoch_step a e prev s s1 e1 (Raise x) →
    loop_run a (e :: es) prev s s1 e1 (Raise x)
| loop_next e es prev s s1 e1 lr s2 e2 r :
    epoch_step a e prev s s1 e1 (Ok (false, lr)) →
    loop_run a es lr s1 s2 e2 r →
    loop_run a (e :: es) prev s s2 (e1 ++ e2) r.

(** Events after the epoch loop. *)
Definition tail_event (ev : event) : Prop :=
  match ev with
  | EvSave _ | EvInfo _ | EvLoad _ | EvEvaluate _ | EvFinalTest => True
  | _ => False
  end.

(** The dictionary [train] returns, from the final score and the histories
    in the store. *)
Definition result_dict (final_score : Q) (s : store) : list (string * pyvalue) :=
  [("test_score", VNum final_score);
   ("dev_score_history", VList (dev_score_history s));
   ("train_loss_history", VList (train_loss_history s));
   ("dev_loss_history", VList (dev_loss_history s))].


(** The store when the epoch loop starts, [s0], against the store [train]
    was called in, [s]. *)
Definition setup_post (self : ModelTrainer) (a : train_args) (s s0 : store)
  : Prop :=
  train_data s0
  = corpus_train (corpus s)
    ++ (if train_with_dev a then corpus_dev (corpus s) else []) ∧
  corpus_dev (corpus s0) = corpus_dev (corpus s) ∧
  corpus_test (corpus s0) = corpus_test (corpus s) ∧
  corpora (corpus s0) = corpora (corpus s) ∧
  files s0
  = {[training_log]}
    ∪ (if param_selection_mode a then ∅ else {[loss_tsv; weights_txt]})
    ∪ files s ∧
  dev_score_history s0 = [] ∧ dev_loss_history s0 = [] ∧
  train_loss_history s0 = [] ∧
  param_groups s0 = default [learning_rate a] (optimizer_state self) ∧
  scheduler s0 = default (new_scheduler self a) (scheduler_state self) ∧
  model s0 = model s ∧
  corpus_train (corpus s0)
  = match corpora (corpus s) with
    | None => train_data s0
    | Some _ => corpus_train (corpus s)
    end.

(** The shape of every run of [train]: the setup, the epoch loop, then
    either the exception of the loop passed on, or the final model (or
    the interruption handler), the final test and the dictionary. *)
Inductive train_run (self : ModelTrainer) (a : train_args) (s s' : store)
    (evs : list event) : result (list (string * pyvalue)) → Prop :=
| train_returns s0 s1 s2 levs lr_r mid tail score :
    setup_post self a s s0 →
    loop_run a (py_range (0 + epoch self) (max_epochs a + epoch self))
      (learning_rate a) s0 s1 levs lr_r →
    lr_r = Ok tt ∨ lr_r = Raise KeyboardInterrupt →
    (lr_r = Raise KeyboardInterrupt → EvInfo interrupted_msg ∈ mid) →
    Forall tail_event mid → EvFinalTest ∉ mid →
    corpus s2 = corpus s1 → optim_hist_kept s1 s2 →
    files_within (if param_selection_mode a then ∅ else {[final_model_pt]})
      s1 s2 →
    corpus s' = corpus s2 → optim_hist_kept s2 s' →
    files_within {[test_tsv]} s2 s' →
    Forall tail_event tail →
    (if truthy (corpus_test (corpus s2)) then EvFinalTest ∈ tail
     else score = 0%Q ∧ tail = [EvInfo no_test_msg]) →
    evs = levs ++ mid ++ tail →
    train_run self a s s' evs (Ok (result_dict score s'))
| train_raises s0 levs x :
    setup_post self a s s0 →
    loop_run a (py_range (0 + epoch self) (max_epochs a + epoch self))
      (learning_rate a) s0 s' levs (Raise x) →
    x ≠ KeyboardInterrupt →
    evs = levs →
    train_run self a s s' evs (Raise x).

(** Events the epoch loop can emit. *)
Definition loop_event (ev : event) : Prop :=
  match ev with
  | EvFinalTest | EvSweepBatch _ _ _ | EvLrRow _ _ _ => False
  | _ => True
  end.

(** Events that are neither a batch, nor a [loss.tsv] row, nor the start of
    an epoch. *)
Definition quiet_event (ev : event) : Prop :=
  is_batch ev = false ∧ is_loss_row ev = false ∧ is_epoch_start ev = false.

(** The epochs [range(0 + self.epoch, max_epochs + self.epoch)] runs
    through, written out: [max_epochs] epochs from the session's epoch on. *)
Definition planned_epochs (self : ModelTrainer) (a : train_args) : list Z :=
  (λ i, epoch self + Z.of_nat i)%Z <$> seq 0 (Z.to_nat (max_epochs a)).

(** Every batch among the events belongs to an epoch in [P]. *)
Definition batches_of (P : Z → Prop) (evs : list event) : Prop :=
  Forall (λ ev, match ev with EvBatch e _ _ _ => P e | _ => True end) evs.

(** The bias correction of the moving average never divides by zero. *)
Definition smoothing_ok (a : find_lr_args) : Prop :=
  ∀ itr, Qltb 0 (smoothing_factor a) = true →
         Qeq_bool (1 - smoothing_factor a ^ Z.of_nat (itr + 1)) 0 = false.

(** The epochs the spec describes for a session at epoch [e]: from [e] up
    to the configured maximum, [range(e, max_epochs)]. *)
Definition spec_epochs (self : ModelTrainer) (a : train_args) : list Z :=
  py_range (epoch self) (max_epochs a).

(** ** The parts of a run of [train] *)

(** The store the epoch loop starts in and the run of the loop from it. *)
Definition loop_store (self : ModelTrainer) (a : train_args) (s : store)
  : store :=
  (train_setup self a s).1.1.

Definition loop_of (self : ModelTrainer) (a : train_args) (s : store)
  : store * list event * result unit :=
  epoch_loop a (py_range (0 + epoch self) (max_epochs a + epoch self))
    (learning_rate a) (loop_store self a s).

(** Lines 237-246: whether [final-model.pt] is written once the loop is
    over, by the last statement of the [try] block or by the handler. *)
Definition saves_final (a : train_args) (r : result unit) : bool :=
  match r with
  | Ok _ => save_final_model a && negb (param_selection_mode a)
  | Raise KeyboardInterrupt => negb (param_selection_mode a)
  | Raise _ => false
  end.

Definition after_loop_events (a : train_args) (r : result unit)
  : list event :=
  match r with
  | Ok _ =>
      if save_final_model a && negb (param_selection_mode a)
      then [EvSave final_model_pt] else []
  | Raise KeyboardInterrupt =>
      EvInfo interrupted_msg
        :: (if negb (param_selection_mode a)
            then [EvInfo "Saving model ..."; EvSave final_model_pt;
                  EvInfo "Done."]
            else [])
  | Raise _ => []
  end.

Definition after_loop_store (a : train_args) (r : result unit) (s : store)
  : store :=
  if saves_final a r then add_file final_model_pt s else s.

(** The learning rate the first epoch reads from the optimizer: the last
    parameter group's, after a restored optimizer state has replaced the
    [learning_rate] argument. *)
Definition initial_learning_rate (self : ModelTrainer) (a : train_args) : Q :=
  List.last (default [learning_rate a] (optimizer_state self))
    (learning_rate a).

(** Events of the epoch loop, with the files and messages they carry. *)
Definition loop_event_of (a : train_args) (ev : event) : Prop :=
  match ev with
  | EvInfo m => m = resetting_msg ∨ m = lr_too_small_msg
  | EvSave f => f = best_model_pt ∧ train_with_dev a = false
                ∧ param_selection_mode a = false
  | EvLoad f => f = best_model_pt ∧ anneal_with_restarts a = true
  | EvEvaluate n =>
      (n = "TRAIN" ∧ monitor_train a = true)
      ∨ (n = "DEV" ∧ train_with_dev a = false)
      ∨ (n = "TEST" ∧ param_selection_mode a = false)
  | EvLossRow _ | EvExtractWeights _ => param_selection_mode a = false
  | EvCheckpoint _ _ => checkpoint a = true ∧ param_selection_mode a = false
  | EvBatch _ _ n _ => (1 ≤ n ≤ mini_batch_size a)%nat
  | EvEpochStart _ _ | EvEpochDone _ _ _ _ | EvSchedulerStep _ => True
  | EvFinalTest | EvSweepBatch _ _ _ | EvLrRow _ _ _ => False
  end.

(** Events of the final test and of the branch that stands in for it. *)
Definition finish_event (ev : event) : Prop :=
  match ev with
  | EvFinalTest | EvEvaluate _ => True
  | EvLoad f => f = best_model_pt
  | EvInfo m => m = testing_msg ∨ m = no_test_msg
  | _ => False
  end.

(** Every event of every run of [m] satisfies [P]. *)
Definition emits {A} (P : event → Prop) (m : M A) : Prop :=
  ∀ s, Forall P (m s).1.2.

(** What the evaluation phase of an epoch computes, read from the store it
    leaves: the training loss it goes on with (line 182 rebinds
    [train_loss] when [monitor_train] is set), the dev score and the score
    the scheduler is stepped with. *)
Definition eval_train_loss (a : train_args) (train_loss : Q) (s : store) : Q :=
  if monitor_train a
  then (evaluate (model s) (corpus_train (corpus s))).2
  else train_loss.

Definition eval_dev_score (a : train_args) (s : store) : Q :=
  if train_with_dev a then 0%Q
  else metric_score (evaluation_metric a)
         (evaluate (model s) (corpus_dev (corpus s))).1.

Definition eval_current_score (a : train_args) (train_loss : Q) (s : store)
  : Q :=
  if anneal_against_train_loss a then eval_train_loss a train_loss s
  else eval_dev_score a s.

(** The books of the epoch loop: what the histories gain between two
    stores against what the events in between show. *)
Definition loop_books (a : train_args) (s s' : store) (evs : list event)
  : Prop :=
  files s ⊆ files s' ∧
  (checkpoints evs ≠ [] → checkpoint_pt ∈ files s') ∧
  length (scheduler_scores evs) = length (done_epochs evs) ∧
  length (loss_rows evs)
  = (if param_selection_mode a then O else length (done_epochs evs)) ∧
  (∃ new, train_loss_history s' = train_loss_history s ++ new ∧
          length new = length (done_epochs evs) ∧
          checkpoints evs
          = (if checkpoint a && negb (param_selection_mode a)
             then zip (Z.succ <$> done_epochs evs) new else []) ∧
          (monitor_train a = false → new = done_losses evs) ∧
          (anneal_against_train_loss a = true → new = scheduler_scores evs) ∧
          (param_selection_mode a = false →
           row_train_loss <$> loss_rows evs = new ∧
           row_epoch <$> loss_rows evs = done_epochs evs)) ∧
  (∃ new, dev_score_history s' = dev_score_history s ++ new ∧
          length new
          = (if train_with_dev a then O else length (done_epochs evs)) ∧
          (anneal_against_train_loss a = false →
           if train_with_dev a
           then Forall (λ q, q = 0%Q) (scheduler_scores evs)
           else new = scheduler_scores evs)) ∧
  (∃ new, dev_loss_history s' = dev_loss_history s ++ new ∧
          length new
          = (if train_with_dev a then O else length (done_epochs evs))).

(** Events that leave the books alone. *)
Definition books_quiet (ev : event) : Prop :=
  match ev with
  | EvEpochDone _ _ _ _ | EvSchedulerStep _ | EvCheckpoint _ _
  | EvLossRow _ => False
  | _ => True
  end.

(** What the evaluation phase of an epoch (lines 176-234), entered with
    the training loss [tl] in the store [s], leaves behind. *)
Definition eval_phase (a : train_args) (e : Z) (tl : Q) (s s' : store)
    (evs : list event) (r : result unit) : Prop :=
  r = Ok tt ∧ model s' = model s ∧ corpus s' = corpus s ∧
  files s ⊆ files s' ∧
  train_loss_history s'
  = train_loss_history s ++ [eval_train_loss a tl s] ∧
  dev_score_history s'
  = dev_score_history s
    ++ (if train_with_dev a then [] else [eval_dev_score a s]) ∧
  (∃ new, dev_loss_history s' = dev_loss_history s ++ new ∧
          length new = if train_with_dev a then O else 1%nat) ∧
  scheduler_scores evs = [eval_current_score a tl s] ∧
  checkpoints evs
  = (if checkpoint a && negb (param_selection_mode a)
     then [(Z.succ e, eval_train_loss a tl s)] else []) ∧
  (checkpoint a && negb (param_selection_mode a) = true →
   checkpoint_pt ∈ files s') ∧
  done_epochs evs = [] ∧ done_losses evs = [] ∧
  length (loss_rows evs) = (if param_selection_mode a then O else 1%nat) ∧
  (param_selection_mode a = false →
   row_train_loss <$> loss_rows evs = [eval_train_loss a tl s] ∧
   row_epoch <$> loss_rows evs = [e]) ∧
  scheduler s'
  = (scheduler_step (scheduler s) (param_groups s)
       (eval_current_score a tl s)).1 ∧
  param_groups s'
  = (scheduler_step (scheduler s) (param_groups s)
       (eval_current_score a tl s)).2.

(** Events of an epoch loop that trains nothing. *)
Definition idle_event (ev : event) : Prop :=
  match ev with
  | EvEpochStart _ _ | EvInfo _ | EvLoad _ => True
  | _ => False
  end.

(** The same arguments with [anneal_with_restarts] off. *)
Definition without_restarts (a : train_args) : train_args :=
  {| evaluation_metric := evaluation_metric a;
     learning_rate := learning_rate a;
     mini_batch_size := mini_batch_size a;
     max_epochs := max_epochs a;
     anneal_factor := anneal_factor a;
     patience := patience a;
     anneal_against_train_loss := anneal_against_train_loss a;
     train_with_dev := train_with_dev a;
     monitor_train := monitor_train a;
     checkpoint := checkpoint a;
     save_final_model := save_final_model a;
     anneal_with_restarts := false;
     test_mode := test_mode a;
     param_selection_mode := param_selection_mode a |}.

(** A run's events other than log lines and model loads. *)
Definition steady (evs : list event) : list event :=
  omap (λ ev, match ev with EvInfo _ | EvLoad _ => None | _ => Some ev end) evs.

(** Two procedures that do the same from every store, and two that do the
    same up to log lines and model loads. *)
Definition same_run {A} (m m' : M A) : Prop := ∀ s, m s = m' s.

Definition same_steady {A} (m m' : M A) : Prop :=
  ∀ s, (m s).1.1 = (m' s).1.1 ∧ (m s).2 = (m' s).2
       ∧ steady (m s).1.2 = steady (m' s).1.2.

(** The same trainer with another [loss]. *)
Definition with_loss (l : Q) (self : ModelTrainer) : ModelTrainer :=
  {| optimizer := optimizer self; epoch := epoch self; loss := l;
     optimizer_state := optimizer_state self;
     scheduler_state := scheduler_state self |}.

(** Events of the learning-rate finder. *)
Definition finder_event (ev : event) : Prop :=
  match ev with
  | EvSweepBatch _ _ _ | EvLrRow _ _ _ => True
  | EvInfo m => m = diverged_msg ∨ m = finder_done_msg
  | _ => False
  end.

(** What the sweep shows of itself, for a sweep entered at iteration
    [itr]: the rows are numbered from [itr] on without a gap, each carries
    the rate the scheduler reports after the step of its iteration, and
    every processed batch but possibly the last has its row. *)
Definition sweep_rows (a : find_lr_args) (itr : nat) (evs : list event)
    (r : result unit) : Prop :=
  (logged_losses evs).*1 = seq itr (length (logged_losses evs)) ∧
  logged_rates evs
  = (λ i, (i, exp_anneal_lr (start_learning_rate a) (end_learning_rate a)
                (iterations a) (S i)))
      <$> seq itr (length (logged_losses evs)) ∧
  (sweep_batches evs = length (logged_losses evs)
   ∨ sweep_batches evs = S (length (logged_losses evs))) ∧
  (r = Ok tt →
   (EvInfo diverged_msg ∈ evs
    ↔ sweep_batches evs = S (length (logged_losses evs)))) ∧
  (EvInfo diverged_msg ∈ evs → stop_early a = true) ∧
  (r ≠ Ok tt → sweep_batches evs = S (length (logged_losses evs))) ∧
  (itr = O → ∀ l0 ls row rows,
     sweep_losses evs = l0 :: ls → logged_losses evs = row :: rows →
     row = (O, l0)).

(** A file [f] that exists after a run of [m] was there before, or a model
    was saved to it during the run. *)
Definition tracks {A} (f : string) (m : M A) : Prop :=
  ∀ s, f ∈ files (m s).1.1 → f ∈ files s ∨ EvSave f ∈ (m s).1.2.

(** The model after lines 149-155 have run on each of [batches] in turn,
    from the model [w] and with the optimizer's rates [lrs]. *)
Definition step_batches (lrs : list Q) (batches : list (list Sentence))
    (w : W) : W :=
  fold_left (λ w batch, (forward_backward_step w lrs batch).2) batches w.

(** ** Facts about the list primitives *)

Lemma Qltb_lt a b : Qltb a b = true <-> (a < b)%Q.
Proof.
  unfold Qltb. rewrite negb_true_iff. split.
  - intros H. apply Qnot_le_lt. intros Hle.
    apply Qle_bool_iff in Hle. congruence.
  - intros H. destruct (Qle_bool b a) eqn:E; [|done].
    apply Qle_bool_iff in E. exfalso. exact (Qlt_not_le _ _ H E).
Qed.


Section PyListFacts.
Context {A : Type}.

Lemma swap_items_perm (x : list A) i j : swap_items x i j ≡ₚ x.
Proof.
  unfold swap_items.
  destruct (x !! i) as [a|] eqn:Hi; [|done].
  destruct (x !! j) as [b|] eqn:Hj; [|done].
  destruct (decide (i = j)) as [->|Hne].
  - assert (a = b) by congruence. subst b.
    rewrite list_insert_insert_eq. by rewrite list_insert_id.
  - assert (Hi' : <[i:=b]> x !! i = Some b).
    { apply list_lookup_insert_eq. by eapply lookup_lt_Some. }
    assert (Hj' : <[i:=b]> x !! j = Some b).
    { rewrite list_lookup_insert_ne; done. }
    (* both x and the result are b :: a :: (x without positions i, j) *)
    pose proof (delete_Permutation _ _ _ Hi) as P1.
    pose proof (delete_Permutation _ _ _ Hi') as P2.
    assert (Hjj : <[j:=a]> (<[i:=b]> x) !! j = Some a).
    { apply list_lookup_insert_eq. rewrite length_insert.
      by eapply lookup_lt_Some. }
    pose proof (delete_Permutation _ _ _ Hjj) as P3.
    pose proof (delete_Permutation _ _ _ Hj') as P4.
    rewrite P3.
    assert (E : delete j (<[j:=a]> (<[i:=b]> x)) = delete j (<[i:=b]> x)).
    { apply list_eq. intros k.
      destruct (decide (k < j)%nat).
      - rewrite !list_lookup_delete_lt by done.
        rewrite list_lookup_insert_ne by lia. done.
      - rewrite !list_lookup_delete_ge by lia.
        rewrite list_lookup_insert_ne by lia. done. }
    rewrite E.
    assert (E2 : delete i (<[i:=b]> x) = delete i x).
    { apply list_eq. intros k.
      destruct (decide (k < i)%nat).
      - rewrite !list_lookup_delete_lt by done.
        rewrite list_lookup_insert_ne by lia. done.
      - rewrite !list_lookup_delete_ge by lia.
        rewrite list_lookup_insert_ne by lia. done. }
    rewrite E2 in P2.
    (* <[i:=b]> x ≡ b :: delete i x and x ≡ a :: delete i x *)
    assert (P5 : a :: <[i:=b]> x ≡ₚ b :: x).
    { rewrite P2. rewrite P1 at 2. apply Permutation_swap. }
    rewrite P4 in P5.
    apply (Permutation_cons_inv (a := b)).
    rewrite <- P5. apply Permutation_swap.
Qed.

Lemma shuffle_down_perm (rnd : nat → nat) i :
  ∀ c (x : list A), shuffle_down rnd c i x ≡ₚ x.
Proof.
  induction i as [|i IH]; intros c x; simpl; [done|].
  rewrite IH. apply swap_items_perm.
Qed.

Lemma shuffle_perm (rnd : nat → nat) c (x : list A) : shuffle rnd c x ≡ₚ x.
Proof. apply shuffle_down_perm. Qed.

Lemma concat_slices (l : list A) m c :
  concat ((λ x, take m (drop x l)) <$> ((λ k, k * m)%nat <$> seq 0 c))
  = take (c * m) l.
Proof.
  induction c as [|c IH].
  - simpl. by rewrite take_0.
  - rewrite seq_S, !fmap_app, concat_app, IH. simpl.
    rewrite app_nil_r, take_take_drop. f_equal. lia.
Qed.

(** The batches partition the training list: nothing lost, nothing
    repeated, order kept. *)
Lemma make_batches_concat (l : list A) m :
  (0 < m)%nat → concat (make_batches l m) = l.
Proof.
  intros Hm. unfold make_batches, py_range_step.
  rewrite concat_slices. apply take_ge.
  pose proof (Nat.div_mod_eq (length l + m - 1) m) as E.
  pose proof (Nat.mod_upper_bound (length l + m - 1) m ltac:(lia)).
  nia.
Qed.

Lemma make_batches_length (l : list A) m :
  length (make_batches l m) = ((length l + m - 1) / m)%nat.
Proof.
  unfold make_batches, py_range_step. by rewrite !length_fmap, length_seq.
Qed.
End PyListFacts.

(** ** Reasoning about runs *)

Arguments scheduler_step : simpl never.

(** The three components of a run. *)
Definition store_of {A} (out : store * list event * result A) : store := out.1.1.
Definition events_of {A} (out : store * list event * result A) : list event := out.1.2.
Definition result_of {A} (out : store * list event * result A) : result A := out.2.

(** [wp m s Φ]: running [m] from [s] ends in a store, an event list and a
    result that satisfy [Φ]. *)
Definition wp {A} (m : M A) (s : store)
    (Φ : store → list event → result A → Prop) : Prop :=
  Φ (store_of (m s)) (events_of (m s)) (result_of (m s)).

Lemma wp_ret {A} (a : A) s Φ : Φ s [] (Ok a) → wp (ret a) s Φ.
Proof. done. Qed.

Lemma wp_raise {A} x s (Φ : store → list event → result A → Prop) :
  Φ s [] (Raise x) → wp (raise x) s Φ.
Proof. done. Qed.

Lemma wp_get s Φ : Φ s [] (Ok s) → wp get s Φ.
Proof. done. Qed.

Lemma wp_modify f s Φ : Φ (f s) [] (Ok tt) → wp (modify f) s Φ.
Proof. done. Qed.

Lemma wp_tell ev s Φ : Φ s [ev] (Ok tt) → wp (tell ev) s Φ.
Proof. done. Qed.

Lemma wp_bind {A B} (m : M A) (f : A → M B) s Φ :
  wp m s (λ s1 e1 r1,
    match r1 with
    | Ok a => wp (f a) s1 (λ s2 e2 r2, Φ s2 (e1 ++ e2) r2)
    | Raise x => Φ s1 e1 (Raise x)
    end) →
  wp (bind m f) s Φ.
Proof.
  unfold wp, bind, store_of, events_of, result_of.
  destruct (m s) as [[s1 e1] [a|x]]; simpl; [|done].
  by destruct (f a s1) as [[s2 e2] r2].
Qed.

Lemma wp_try body handler s Φ :
  wp body s (λ s1 e1 r1,
    match r1 with
    | Raise KeyboardInterrupt =>
        wp handler s1 (λ s2 e2 r2, Φ s2 (e1 ++ e2) r2)
    | _ => Φ s1 e1 r1
    end) →
  wp (try_except_KeyboardInterrupt body handler) s Φ.
Proof.
  unfold wp, try_except_KeyboardInterrupt, store_of, events_of, result_of.
  destruct (body s) as [[s1 e1] [a|[]]]; simpl; try done.
  by destruct (handler s1) as [[s2 e2] r2].
Qed.

Lemma wp_mono {A} (m : M A) s (Φ Ψ : store → list event → result A → Prop) :
  wp m s Φ → (∀ s' evs r, Φ s' evs r → Ψ s' evs r) → wp m s Ψ.
Proof. unfold wp. auto. Qed.

(** A proved fact about every run of [m] from [s] can stand for the run. *)
Lemma wp_use {A} (m : M A) s (R Φ : store → list event → result A → Prop) :
  R (store_of (m s)) (events_of (m s)) (result_of (m s)) →
  (∀ s' evs r, R s' evs r → Φ s' evs r) → wp m s Φ.
Proof. unfold wp. auto. Qed.

(** Name the store a run starts from. *)
Lemma wp_at {A} (m : M A) s Φ : (∀ s1, s1 = s → wp m s1 Φ) → wp m s Φ.
Proof. auto. Qed.

Lemma wp_elim {A} (m : M A) s Φ :
  wp m s Φ → Φ (store_of (m s)) (events_of (m s)) (result_of (m s)).
Proof. done. Qed.

(** One step of symbolic execution through the straight-line operations. *)
Ltac wp_step :=
  lazymatch goal with
  | |- wp (bind _ _) _ _ => apply wp_bind
  | |- wp (ret _) _ _ => apply wp_ret
  | |- wp (raise _) _ _ => apply wp_raise
  | |- wp get _ _ => apply wp_get
  | |- wp (modify _) _ _ => apply wp_modify
  | |- wp (tell _) _ _ => apply wp_tell
  | |- wp (log_info _) _ _ => apply wp_tell
  | |- wp (create_file _) _ _ => apply wp_modify
  | |- wp (model_save _) _ _ => unfold model_save
  | |- wp (when ?b _) _ _ => unfold when
  | |- wp (check_interrupt _ _) _ _ => unfold check_interrupt
  | |- wp (calculate_evaluation_results_for _ _ _) _ _ =>
      unfold calculate_evaluation_results_for
  | |- wp (if ?b then _ else _) _ _ => destruct b eqn:?; try discriminate
  | |- wp (match ?x with Some _ => _ | None => _ end) _ _ => destruct x eqn:?
  | |- wp (let '(_, _) := ?x in _) _ _ => destruct x eqn:?
  | |- wp _ _ _ => progress cbv zeta
  end; cbn beta iota zeta.

Ltac wp_run := repeat wp_step.

(** Goals about sets of files, from the hypotheses about sets alone. *)
Ltac sets :=
  unfold files_within in *;
  repeat match goal with
  | H : _ ∧ _ |- _ => destruct H as [? ?]
  end;
  simpl in *;
  repeat match goal with
  | H : ?P |- _ =>
      lazymatch P with
      | _ ⊆ _ => revert H
      | _ ∈ _ => revert H
      | @eq (gset string) _ _ => revert H
      end
  end;
  repeat match goal with H : _ |- _ => clear H end;
  intros; try split; set_solver.

(** Event lists as symbolic execution leaves them, tidied. *)
Ltac evs_norm := cbn [app]; rewrite ?app_nil_r.

(** Conjunctions of flags left by the case analysis, split or refuted. *)
Ltac bool_tidy :=
  repeat match goal with
  | H : _ && _ = true |- _ => apply andb_true_iff in H; destruct H
  | H : negb _ = true |- _ => apply negb_true_iff in H
  | H : negb _ = false |- _ => apply negb_false_iff in H
  | H : false = true |- _ => discriminate H
  | H : true = false |- _ => discriminate H
  end.

(** Boolean tests on naturals left by the case analysis, as propositions. *)
Ltac nat_eqb :=
  repeat match goal with
  | H : (_ =? _)%nat = true |- _ => apply Nat.eqb_eq in H
  | H : (_ =? _)%nat = false |- _ => apply Nat.eqb_neq in H
  end.

Lemma same_but_model_files_refl s : same_but_model_files s s.
Proof. by repeat split. Qed.

Lemma files_within_refl X s : files_within X s s.
Proof. sets. Qed.

Lemma files_within_trans X s1 s2 s3 :
  files_within X s1 s2 → files_within X s2 s3 → files_within X s1 s3.
Proof. intros ? ?. sets. Qed.

Lemma files_within_mono X Y s1 s2 :
  X ⊆ Y → files_within X s1 s2 → files_within Y s1 s2.
Proof. intros ? ?. sets. Qed.

Lemma data_kept_refl s : data_kept s s.
Proof. by repeat split. Qed.

Lemma data_kept_trans s1 s2 s3 :
  data_kept s1 s2 → data_kept s2 s3 → data_kept s1 s3.
Proof.
  intros (P1 & D1 & T1 & C1 & A1 & M1) (P2 & D2 & T2 & C2 & A2 & M2).
  split_and!; try congruence; [by rewrite P2|by auto|].
  intros Hm. rewrite M2, M1; [done..|]. by rewrite C1.
Qed.

(** An in-place update that only reorders the list. *)
Lemma set_train_kept l k s :
  l ≡ₚ train_data s → data_kept s (set_train l k s).
Proof.
  intros Hp. unfold data_kept, aliased, set_train. simpl.
  destruct (corpora (corpus s)) eqn:E; simpl; split_and!; try done;
    intros; congruence.
Qed.

Lemma same_files_data_kept s s' : same_but_model_files s s' → data_kept s s'.
Proof.
  intros (Hc & Ht & _). unfold data_kept, aliased. by rewrite Hc, Ht.
Qed.

(** *** The batch loop *)

Lemma batch_loss_total_app e acc l1 l2 :
  batch_loss_total e acc (l1 ++ l2)
  = batch_loss_total e (batch_loss_total e acc l1) l2.
Proof. apply fold_left_app. Qed.

Lemma batch_size_total_app e l1 l2 :
  batch_size_total e (l1 ++ l2)
  = (batch_size_total e l1 + batch_size_total e l2)%nat.
Proof.
  induction l1 as [|ev l1 IH]; [done|]. simpl.
  destruct ev; try done. case_match; lia.
Qed.

Lemma batch_loop_spec a e n modulo batches : ∀ b0 tl0 seen0 s,
  wp (batch_loop a e n modulo b0 batches tl0 seen0) s (λ s' evs r,
    same_but_model_files s s' ∧
    files_within (if param_selection_mode a then ∅ else {[weights_txt]}) s s' ∧
    Forall (batch_loop_event e) evs ∧
    match r with
    | Ok (tl, seen) =>
        tl = batch_loss_total e tl0 evs ∧
        seen = (seen0 + batch_size_total e evs)%nat ∧
        batch_size_total e evs = length (concat batches)
    | Raise x => x = KeyboardInterrupt
    end).
Proof.
  induction batches as [|batch rest IH]; intros b0 tl0 seen0 s; simpl.
  - wp_run. split_and!; auto using same_but_model_files_refl, files_within_refl.
  - destruct (param_selection_mode a) eqn:Hpsm; wp_run;
      try (split_and!; by auto using same_but_model_files_refl, files_within_refl);
      (eapply wp_mono; [apply IH|]); cbn beta;
      intros s' evs r (Hs & Hf & Hev & Hr); simpl;
      (split_and!;
       [ destruct Hs as (?&?&?&?&?&?&?&?); by repeat split
       | sets
       | repeat constructor; done
       | destruct r as [[tl seen]|x]; [|done];
         destruct Hr as (-> & -> & Hn); rewrite Z.eqb_refl;
         rewrite length_app, <- Hn; split_and!; try done; lia ]).
Qed.

Lemma optim_hist_kept_refl s : optim_hist_kept s s.
Proof. by repeat split. Qed.

Lemma optim_hist_kept_trans s1 s2 s3 :
  optim_hist_kept s1 s2 → optim_hist_kept s2 s3 → optim_hist_kept s1 s3.
Proof.
  intros (?&?&?&?&?) (?&?&?&?&?). repeat split; congruence.
Qed.

Lemma batch_size_total_batch_loop e evs :
  Forall (batch_loop_event e) evs → ∀ e', e' ≠ e → batch_size_total e' evs = O.
Proof.
  induction 1 as [|ev evs Hev _ IH]; intros e' Hne; [done|]. simpl.
  destruct ev; simpl in Hev; try done; auto.
  subst. destruct (Z.eqb_spec e e'); [congruence|auto].
Qed.

(** *** The training phase of an epoch *)

Lemma train_one_epoch_spec a e lr bad s :
  wp (train_one_epoch a e lr bad) s (λ s' evs r,
    data_kept s s' ∧
    (test_mode a = true → corpus s' = corpus s ∧ train_data s' = train_data s) ∧
    optim_hist_kept s s' ∧
    files_within (if param_selection_mode a then ∅ else {[weights_txt]}) s s' ∧
    ∃ bevs, Forall (batch_loop_event e) bevs ∧
      match r with
      | Ok tl =>
          evs = bevs ++ [EvEpochDone e tl lr bad] ∧
          tl = (batch_loss_total e 0 bevs
                / inject_Z (Z.of_nat (length (train_data s'))))%Q ∧
          batch_size_total e bevs = length (train_data s') ∧
          train_data s' ≠ []
      | Raise x => evs = bevs ∧ raise_reason a x s'
      end).
Proof.
  unfold train_one_epoch, shuffle_train_data.
  set (X := if param_selection_mode a then ∅ else {[weights_txt]} : gset string).
  apply wp_bind. unfold when.
  destruct (negb (test_mode a)) eqn:Htm; [apply wp_modify|apply wp_ret];
    cbn beta iota; apply wp_at; intros s1 Heq;
    assert (Hc : data_kept s s1)
      by (rewrite Heq;
          first [ apply set_train_kept, shuffle_perm | apply data_kept_refl ]);
    assert (Ht : test_mode a = true →
                 corpus s1 = corpus s ∧ train_data s1 = train_data s)
      by (intros Ht; rewrite Ht in Htm; rewrite Heq; done);
    assert (Ho : optim_hist_kept s s1) by (by rewrite Heq);
    assert (Hf : files s1 = files s) by (by rewrite Heq);
    clear Heq; wp_run; nat_eqb; evs_norm.
  all: lazymatch goal with
       | |- wp _ _ _ => idtac
       | _ => split_and!; auto;
              [ sets
              | exists []; by split ]
       end.
  all: eapply wp_mono; [apply batch_loop_spec|]; cbn beta;
    intros s2 bevs r (Hs & Hfw & Hev & Hr);
    assert (Hc2 : data_kept s s2)
      by (eapply data_kept_trans; [exact Hc|by apply same_files_data_kept]);
    destruct Hs as (Hcs & Htd & Hpg & Hsch & Hrng & H1 & H2 & H3);
    assert (Ho2 : optim_hist_kept s s2)
      by (destruct Ho as (?&?&?&?&?); repeat split; congruence);
    assert (Hf2 : files_within X s s2)
      by (destruct Hfw as [? ?]; unfold files_within; rewrite <- Hf; done);
    assert (Ht2 : test_mode a = true →
                  corpus s2 = corpus s ∧ train_data s2 = train_data s)
      by (intros ?; rewrite Hcs, Htd; auto);
    destruct r as [[tl seen]|x]; cbn beta iota;
    [ destruct Hr as (Htl & Hseen & Hsize);
      rewrite make_batches_concat in Hsize by lia;
      wp_run; nat_eqb; evs_norm;
      [ split_and!; auto; by exists bevs
      | split_and!; auto; exists bevs;
        split_and!; try done; simpl; rewrite Htd; by apply nil_length_inv
      | split_and!; auto; exists bevs; rewrite Htd;
        split_and!; try done; [by subst|];
        intros Hnil; rewrite Hnil in *; done ]
    | subst x; evs_norm; split_and!; auto; by exists bevs ].
Qed.

(** *** The evaluation phase of an epoch *)

Lemma evaluate_epoch_spec a e lr bad tl s :
  wp (evaluate_epoch a e lr bad tl) s (λ s' evs r,
    r = Ok tt ∧ corpus s' = corpus s ∧ train_data s' = train_data s ∧
    files_within
      (if param_selection_mode a then ∅
       else {[test_tsv; checkpoint_pt; best_model_pt]}) s s' ∧
    Forall eval_event evs ∧
    length (dev_score_history s')
    = (length (dev_score_history s) + if train_with_dev a then 0 else 1)%nat ∧
    length (dev_loss_history s')
    = (length (dev_loss_history s) + if train_with_dev a then 0 else 1)%nat ∧
    length (train_loss_history s')
    = (length (train_loss_history s) + 1)%nat).
Proof.
  unfold evaluate_epoch.
  destruct (param_selection_mode a), (train_with_dev a);
    wp_run; evs_norm; bool_tidy; simpl in *; simplify_eq;
    (split_and!;
     [ done | done | done | sets
     | repeat constructor
     | rewrite ?length_app; simpl; lia
     | rewrite ?length_app; simpl; lia
     | rewrite ?length_app; simpl; lia ]).
Qed.

(** *** One iteration of the epoch loop *)

Lemma epoch_body_spec a e prev s :
  wp (epoch_body a e prev) s (λ s' evs r,
    data_kept s s' ∧
    (test_mode a = true → corpus s' = corpus s ∧ train_data s' = train_data s) ∧
    files_within (epoch_files a) s s' ∧
    epoch_outcome a e prev s s' evs r).
Proof.
  unfold epoch_body.
  set (lr := List.last (param_groups s) prev).
  assert (Hsub : (if param_selection_mode a then ∅ else {[weights_txt]})
                 ⊆ epoch_files a).
  { unfold epoch_files. destruct (param_selection_mode a); sets. }
  assert (Hsub2 : (if param_selection_mode a then ∅
                   else {[test_tsv; checkpoint_pt; best_model_pt]})
                  ⊆ epoch_files a).
  { unfold epoch_files. destruct (param_selection_mode a); sets. }
  wp_run; evs_norm.
  all: try (split_and!;
    [ apply data_kept_refl | done | apply files_within_refl
    | eapply epoch_break; [done|done| | |reflexivity|done];
      [ by repeat constructor
      | first [ apply list_elem_of_here
              | do 2 apply list_elem_of_further; apply list_elem_of_here ] ] ]).
  all: eapply wp_mono; [apply train_one_epoch_spec|]; cbn beta;
    intros s1 evs1 r1 (Hc & Ht & Ho & Hf & bevs & Hb & Hr);
    destruct r1 as [tl|x].
  all: lazymatch goal with
       | |- wp _ _ _ =>
           destruct Hr as (-> & Htl & Hsz & Hne);
           apply wp_bind; eapply wp_mono; [apply evaluate_epoch_spec|];
           cbn beta;
           intros s2 eevs r2 (-> & Hc2 & Htd2 & Hf2 & He & Hd1 & Hd2 & Hd3);
           wp_run; evs_norm;
           destruct Ho as (Hpg & Hsch & Ho1 & Ho2 & Ho3);
           split_and!
       | _ => destruct Hr as (-> & Hrr); split_and!
       end.
  all: lazymatch goal with
       | |- data_kept _ _ =>
           try done; unfold data_kept, aliased in *; rewrite ?Hc2, ?Htd2; done
       | |- _ → _ => try done; intros ?; rewrite ?Hc2, ?Htd2; auto
       | |- files_within _ _ _ =>
           first
             [ eapply files_within_mono; [apply Hsub|]; done
             | eapply files_within_trans;
               [ eapply files_within_mono; [apply Hsub|]; done
               | eapply files_within_mono; [apply Hsub2|]; done ] ]
       | |- epoch_outcome _ _ _ _ _ (_ :: ?i1 :: ?i2 :: (?b ++ [?d]) ++ ?ee) _ =>
           apply (epoch_done _ _ _ _ _ _ _ [i1; i2] b tl ee)
       | |- epoch_outcome _ _ _ _ _ (_ :: (?b ++ [?d]) ++ ?ee) _ =>
           apply (epoch_done _ _ _ _ _ _ _ [] b tl ee)
       | |- epoch_outcome _ _ _ _ _ (_ :: ?i1 :: ?i2 :: ?b) _ =>
           apply (epoch_raise _ _ _ _ _ _ lr [i1; i2] b)
       | |- epoch_outcome _ _ _ _ _ (_ :: ?b) _ =>
           apply (epoch_raise _ _ _ _ _ _ lr [] b)
       end.
  all: try done.
  all: try by repeat constructor.
  all: try (simpl; rewrite <- app_assoc; reflexivity).
  all: try by rewrite ?Hc2, ?Htd2.
  all: congruence.
Qed.

(** *** The epoch loop *)

Lemma epoch_loop_run a es : ∀ prev s,
  wp (epoch_loop a es prev) s (λ s' evs r, loop_run a es prev s s' evs r).
Proof.
  induction es as [|e es IH]; intros prev s; simpl.
  - wp_run. constructor.
  - apply wp_bind. eapply wp_mono; [apply epoch_body_spec|]. cbn beta.
    intros s1 e1 r1 Hstep.
    assert (Hstep' : epoch_step a e prev s s1 e1 r1) by exact Hstep.
    destruct r1 as [[[] lr]|x]; cbn beta iota.
    + wp_run. evs_norm. by eapply loop_break.
    + eapply wp_mono; [apply IH|]. cbn beta. intros s2 e2 r2 Hrest.
      by eapply loop_next.
    + by eapply loop_raise.
Qed.

(** *** The final test and the returned dictionary *)

Lemma eval_subcorpora_spec (subs : list (string * list Sentence)) : ∀ s,
  wp (foldr (λ sub k,
        calculate_evaluation_results_for sub.1 sub.2 (Some test_tsv) >> k)
        (ret tt) subs) s
    (λ s' evs r,
      r = Ok tt ∧ corpus s' = corpus s ∧ optim_hist_kept s s' ∧
      files_within {[test_tsv]} s s' ∧ Forall tail_event evs).
Proof.
  induction subs as [|sub subs IH]; intros s; simpl.
  - wp_run. split_and!; auto using optim_hist_kept_refl, files_within_refl.
  - wp_run. eapply wp_mono; [apply IH|]. cbn beta.
    intros s' evs r (-> & Hc & Ho & [Hf1 Hf2] & Hev). evs_norm.
    split_and!; try done.
    + sets.
    + by repeat constructor.
Qed.

Lemma final_test_spec a s :
  wp (final_test a) s (λ s' evs r,
    corpus s' = corpus s ∧ optim_hist_kept s s' ∧
    files_within {[test_tsv]} s s' ∧ Forall tail_event evs ∧
    EvFinalTest ∈ evs ∧ ∃ q, r = Ok q).
Proof.
  unfold final_test. wp_run; evs_norm.
  all: try (eapply wp_mono; [apply eval_subcorpora_spec|]; cbn beta;
            intros s' evs r (-> & Hc & Ho & [Hf1 Hf2] & Hev); wp_run; evs_norm).
  all: split_and!.
  all: lazymatch goal with
       | |- corpus _ = _ => simpl in *; congruence
       | |- optim_hist_kept _ _ =>
           try (destruct Ho as (?&?&?&?&?)); repeat split; simpl in *; congruence
       | |- files_within _ _ _ => sets
       | |- Forall _ _ =>
           repeat (constructor; [exact I|]); first [constructor | done]
       | |- _ ∈ _ => apply list_elem_of_here
       | |- ∃ _, _ => eauto
       end.
Qed.

Lemma train_finish_spec a s :
  wp (train_finish a) s (λ s' evs r,
    corpus s' = corpus s ∧ optim_hist_kept s s' ∧
    files_within {[test_tsv]} s s' ∧ Forall tail_event evs ∧
    ∃ score, r = Ok (result_dict score s') ∧
      if truthy (corpus_test (corpus s)) then EvFinalTest ∈ evs
      else score = 0%Q ∧ evs = [EvInfo no_test_msg]).
Proof.
  unfold train_finish. apply wp_bind, wp_get. cbn beta iota.
  destruct (truthy (corpus_test (corpus s))) eqn:Htest; wp_run; evs_norm.
  - eapply wp_mono; [apply final_test_spec|]. cbn beta.
    intros s' evs r (Hc & Ho & Hf & Hev & Hin & q & ->). wp_run. evs_norm.
    split_and!; try done. by exists q.
  - split_and!; auto using optim_hist_kept_refl, files_within_refl.
    + by repeat constructor.
    + by exists 0%Q.
Qed.

(** *** The whole of [train] *)

Lemma train_setup_spec self a s :
  wp (train_setup self a) s (λ s0 evs r,
    r = Ok tt ∧ evs = [] ∧ setup_post self a s s0).
Proof.
  unfold train_setup, setup_post, bind_train_data, set_train.
  destruct (param_selection_mode a), (train_with_dev a),
    (corpora (corpus s)) eqn:E;
    wp_run; evs_norm; simpl; rewrite ?E; simpl;
    (split_and!; try done; rewrite ?app_nil_r; try done; sets).
Qed.

(** The events before the variable tail of a list [x1 :: ... :: tail]. *)
Ltac events_before_tail l :=
  lazymatch l with
  | ?x :: ?r => let m := events_before_tail r in constr:(x :: m)
  | _ => constr:(@nil event)
  end.

Lemma train_spec self a s :
  wp (train self a) s (train_run self a s).
Proof.
  unfold train.
  apply wp_bind. eapply wp_mono; [apply train_setup_spec|]. cbn beta.
  intros s0 ? ? (-> & -> & Hsetup).
  apply wp_bind, wp_try, wp_bind.
  eapply wp_mono; [apply epoch_loop_run|]. cbn beta.
  intros s1 levs lr_r Hloop.
  destruct lr_r as [[]|[]]; cbn beta iota;
    try (evs_norm; by eapply train_raises).
  all: destruct (param_selection_mode a) eqn:Hpsm;
    wp_run; evs_norm; bool_tidy;
    apply wp_at; intros s2 Hs2;
    (eapply wp_mono; [apply train_finish_spec|]); cbn beta;
    intros s' tail r (Hc & Ho & Hf & Hev & score & -> & Htest);
    rewrite <- ?app_assoc; cbn [app];
    lazymatch goal with
    | |- train_run _ _ _ _ (_ ++ ?rest) (Ok _) =>
        let mid := events_before_tail rest in
        lazymatch type of Hloop with
        | loop_run _ _ _ _ _ _ ?lr_r =>
            apply (train_returns _ _ _ _ _ s0 s1 s2 levs lr_r mid tail score)
        end
    end.
  all: lazymatch goal with
       | |- setup_post _ _ _ _ => exact Hsetup
       | |- loop_run _ _ _ _ _ _ _ => exact Hloop
       | |- _ ∨ _ => by auto
       | |- _ = _ → _ ∈ _ =>
           first [ intros ?; discriminate | intros _; apply list_elem_of_here ]
       | |- Forall _ _ =>
           first [ exact Hev | repeat (constructor; [exact I|]); constructor ]
       | |- _ ∉ _ =>
           intros Hin;
           repeat (apply elem_of_cons in Hin as [Hin|Hin]; [discriminate Hin|]);
           by apply elem_of_nil in Hin
       | |- corpus _ = corpus _ => first [ exact Hc | by rewrite Hs2 ]
       | |- optim_hist_kept _ _ =>
           first [ exact Ho | rewrite Hs2; by repeat split ]
       | |- files_within _ _ _ =>
           first [ exact Hf | rewrite Hs2, ?Hpsm; sets ]
       | |- if _ then _ else _ => exact Htest
       | |- _ = _ => reflexivity
       end.
Qed.

(** ** Facts about the epoch loop, by induction on its runs *)

Lemma loop_run_kept a es prev s s' evs r :
  loop_run a es prev s s' evs r →
  data_kept s s' ∧
  (test_mode a = true → corpus s' = corpus s ∧ train_data s' = train_data s) ∧
  files_within (epoch_files a) s s'.
Proof.
  induction 1 as [prev s|e es prev s s1 e1 lr Hstep|e es prev s s1 e1 x Hstep
                 |e es prev s s1 e1 lr s2 e2 r Hstep Hrest IH].
  - split_and!; auto using data_kept_refl, files_within_refl.
  - destruct Hstep as (?&?&?&?). done.
  - destruct Hstep as (?&?&?&?). done.
  - destruct Hstep as (Hc & Ht & Hf & _). destruct IH as (Hc' & Ht' & Hf').
    split_and!.
    + by eapply data_kept_trans.
    + intros Htm. destruct (Ht Htm) as [<- <-]. by apply Ht'.
    + by eapply files_within_trans.
Qed.

Lemma loop_run_raise a es prev s s' evs x :
  loop_run a es prev s s' evs (Raise x) → raise_reason a x s'.
Proof.
  remember (Raise x) as r eqn:Hr.
  induction 1 as [| |e es prev s s1 e1 y Hstep|? ? ? ? ? ? ? ? ? ? _ _ IH];
    [done|done| |by apply IH].
  injection Hr as ->. destruct Hstep as (_&_&_&Hout). by inversion Hout.
Qed.

Lemma epoch_outcome_events a e prev s s' evs r :
  epoch_outcome a e prev s s' evs r → Forall loop_event evs.
Proof.
  assert (Hi : ∀ l, Forall info_event l → Forall loop_event l).
  { intros l H. eapply Forall_impl; [exact H|]. by intros []. }
  assert (Hb : ∀ l, Forall (batch_loop_event e) l → Forall loop_event l).
  { intros l H. eapply Forall_impl; [exact H|]. by intros []. }
  assert (He : ∀ l, Forall eval_event l → Forall loop_event l).
  { intros l H. eapply Forall_impl; [exact H|]. by intros []. }
  destruct 1; subst evs.
  - constructor; [done|]. auto.
  - constructor; [done|]. apply Forall_app; auto.
  - constructor; [done|]. apply Forall_app. split; [auto|].
    apply Forall_app. split; [auto|]. constructor; [done|]. auto.
Qed.

Lemma loop_run_events a es prev s s' evs r :
  loop_run a es prev s s' evs r → Forall loop_event evs.
Proof.
  induction 1 as [|? ? ? ? ? ? ? Hstep|? ? ? ? ? ? ? Hstep
                 |? ? ? ? ? ? ? ? ? ? Hstep ? IH].
  - constructor.
  - destruct Hstep as (_&_&_&Hout). by eapply epoch_outcome_events.
  - destruct Hstep as (_&_&_&Hout). by eapply epoch_outcome_events.
  - destruct Hstep as (_&_&_&Hout). apply Forall_app. split; [|done].
    by eapply epoch_outcome_events.
Qed.

(** ** Facts about whole runs of [train] *)

Lemma train_run_of self a s :
  train_run self a s (store_of (train self a s)) (events_of (train self a s))
    (result_of (train self a s)).
Proof. exact (wp_elim _ _ _ (train_spec self a s)). Qed.

(** What [train] can end with. *)
Lemma train_result_cases self a s :
  match result_of (train self a s) with
  | Ok d => ∃ score, d = result_dict score (store_of (train self a s))
  | Raise KeyboardInterrupt | Raise TypeError => False
  | Raise ValueError => mini_batch_size a = O
  | Raise ZeroDivisionError =>
      corpus_train (corpus s) = [] ∧
      (train_with_dev a = true → corpus_dev (corpus s) = [])
  end.
Proof.
  destruct (train_run_of self a s) as [|s0 levs x Hsetup Hloop Hx Hevs];
    [by eexists|].
  apply loop_run_raise in Hloop as Hreason.
  apply loop_run_kept in Hloop as ((Hperm & _) & _).
  destruct x; try done. simpl in Hreason.
  rewrite Hreason in Hperm. symmetry in Hperm.
  apply Permutation_nil_r in Hperm.
  destruct Hsetup as (Htrain & _). rewrite Htrain in Hperm.
  apply app_eq_nil in Hperm as [-> Hdev]. split; [done|].
  intros Htwd. by rewrite Htwd in Hdev.
Qed.

Lemma train_returns_when self a s :
  mini_batch_size a ≠ O → corpus_train (corpus s) ≠ [] →
  ∃ d, result_of (train self a s) = Ok d.
Proof.
  intros Hmbs Htrain. pose proof (train_result_cases self a s) as H.
  destruct (result_of (train self a s)) as [d|[]]; try done; [by eexists|].
  by destruct H.
Qed.

Lemma not_elem_of_Forall (P : event → Prop) ev l :
  Forall P l → ¬ P ev → ev ∉ l.
Proof. intros HF HP Hin. by eapply HP, Forall_forall. Qed.

(** ** The claims about [train] *)

(** C10: every call to [train] that ends returns a dictionary with exactly
    the four keys ['test_score'], ['dev_score_history'],
    ['train_loss_history'] and ['dev_loss_history']; a KeyboardInterrupt
    raised in the epoch loop never reaches the caller.  The only calls that
    do not return are the ValueError of a zero batch size and the
    ZeroDivisionError of an empty training list. *)
Theorem train_returns_four_keys self a s :
  match result_of (train self a s) with
  | Ok d => d.*1 = result_keys
  | Raise KeyboardInterrupt | Raise TypeError => False
  | Raise ValueError => mini_batch_size a = O
  | Raise ZeroDivisionError =>
      corpus_train (corpus s) = [] ∧
      (train_with_dev a = true → corpus_dev (corpus s) = [])
  end.
Proof.
  pose proof (train_result_cases self a s) as H.
  destruct (result_of (train self a s)) as [d|x]; [|done].
  by destruct H as [score ->].
Qed.

(** C8: with an empty test split [train] never calls [final_test], the
    returned ['test_score'] is exactly 0, and the run logs the condition
    as an info line; the missing split is no reason not to return. *)
Theorem train_without_test_split self a s :
  corpus_test (corpus s) = [] →
  (EvFinalTest ∉ events_of (train self a s)) ∧
  (∀ d, result_of (train self a s) = Ok d →
        dict_get d "test_score" = Some (VNum 0) ∧
        EvInfo no_test_msg ∈ events_of (train self a s)) ∧
  (mini_batch_size a ≠ O → corpus_train (corpus s) ≠ [] →
   ∃ d, result_of (train self a s) = Ok d).
Proof.
  intros Htest. split_and!; [| |apply train_returns_when].
  - destruct (train_run_of self a s)
      as [s0 s1 s2 levs lr_r mid tail score Hsetup Hloop _ _ Hmid Hnomid
            Hc2 _ _ _ _ _ _ Hfin ->|s0 levs x Hsetup Hloop Hx ->].
    + apply loop_run_events in Hloop as Hlev.
      apply loop_run_kept in Hloop as ((_ & _ & Hkt & _) & _).
      destruct Hsetup as (_ & _ & Hst & _).
      rewrite Hc2, Hkt, Hst, Htest in Hfin. simpl in Hfin.
      destruct Hfin as [_ ->].
      rewrite !elem_of_app. intros [Hin|[Hin|Hin]].
      * exact (not_elem_of_Forall loop_event EvFinalTest _ Hlev (λ H, H) Hin).
      * done.
      * apply list_elem_of_singleton in Hin. done.
    + apply loop_run_events in Hloop as Hlev.
      exact (not_elem_of_Forall loop_event EvFinalTest _ Hlev (λ H, H)).
  - intros d Hd.
    destruct (train_run_of self a s)
      as [s0 s1 s2 levs lr_r mid tail score Hsetup Hloop _ _ Hmid Hnomid
            Hc2 _ _ _ _ _ _ Hfin ->|s0 levs x Hsetup Hloop Hx ->]; [|done].
    apply loop_run_kept in Hloop as ((_ & _ & Hkt & _) & _).
    destruct Hsetup as (_ & _ & Hst & _).
    rewrite Hc2, Hkt, Hst, Htest in Hfin. simpl in Hfin.
    destruct Hfin as [-> ->]. injection Hd as <-. split; [done|].
    rewrite !elem_of_app. right. right. apply list_elem_of_here.
Qed.

(** ** Which epochs run *)

Lemma app_eq_split {A} (l1 l2 pre post : list A) x :
  l1 ++ l2 = pre ++ x :: post →
  (∃ post1, l1 = pre ++ x :: post1 ∧ post = post1 ++ l2) ∨
  (∃ pre2, pre = l1 ++ pre2 ∧ l2 = pre2 ++ x :: post).
Proof.
  revert pre. induction l1 as [|y l1 IH]; intros pre Heq; simpl in *.
  - right. by exists pre.
  - destruct pre as [|z pre]; simpl in *.
    + injection Heq as Hy Hl. subst. left. by exists l1.
    + injection Heq as Hy Hl. subst z.
      destruct (IH _ Hl) as [(p & H1 & H2)|(p & H1 & H2)]; subst.
      * left. by exists p.
      * right. by exists p.
Qed.

Lemma epochs_started_app l1 l2 :
  epochs_started (l1 ++ l2) = epochs_started l1 ++ epochs_started l2.
Proof. apply omap_app. Qed.

Lemma epochs_started_none l :
  Forall (λ ev, is_epoch_start ev = false) l → epochs_started l = [].
Proof.
  induction 1 as [|ev l Hev _ IH]; [done|].
  destruct ev; try done; exact IH.
Qed.



Lemma info_no_start l :
  Forall info_event l → Forall (λ ev, is_epoch_start ev = false) l.
Proof. intros H. eapply Forall_impl; [exact H|]. by intros []. Qed.

Lemma batch_no_start e l :
  Forall (batch_loop_event e) l → Forall (λ ev, is_epoch_start ev = false) l.
Proof. intros H. eapply Forall_impl; [exact H|]. by intros []. Qed.

Lemma eval_no_start l :
  Forall eval_event l → Forall (λ ev, is_epoch_start ev = false) l.
Proof. intros H. eapply Forall_impl; [exact H|]. by intros []. Qed.

Lemma tail_no_start l :
  Forall tail_event l → Forall (λ ev, is_epoch_start ev = false) l.
Proof. intros H. eapply Forall_impl; [exact H|]. by intros []. Qed.

Lemma info_quiet l : Forall info_event l → Forall quiet_event l.
Proof. intros H. eapply Forall_impl; [exact H|]. by intros []. Qed.

Lemma tail_quiet l : Forall tail_event l → Forall quiet_event l.
Proof. intros H. eapply Forall_impl; [exact H|]. by intros []. Qed.

(** An epoch's events start exactly one epoch. *)
Lemma epoch_outcome_started a e prev s s' evs r :
  epoch_outcome a e prev s s' evs r → epochs_started evs = [e].
Proof.
  destruct 1; subst evs; unfold epochs_started; simpl; f_equal;
    fold (epochs_started).
  - by apply epochs_started_none, info_no_start.
  - rewrite epochs_started_app.
    rewrite (epochs_started_none pre) by by apply info_no_start.
    by rewrite (epochs_started_none bevs) by by eapply batch_no_start.
  - rewrite !epochs_started_app.
    rewrite (epochs_started_none pre) by by apply info_no_start.
    rewrite (epochs_started_none bevs) by by eapply batch_no_start.
    simpl. unfold epochs_started at 1. simpl. fold epochs_started.
    by apply epochs_started_none, eval_no_start.
Qed.

Lemma py_range_planned self a :
  py_range (0 + epoch self) (max_epochs a + epoch self) = planned_epochs self a.
Proof.
  unfold py_range, planned_epochs.
  replace (max_epochs a + epoch self - (0 + epoch self))%Z
    with (max_epochs a) by lia.
  apply list_fmap_ext. intros _ i _. lia.
Qed.

(** The loop starts the epochs in order; it gets through all of them when
    it neither raises nor logs that the learning rate is too small. *)
Lemma loop_run_started a es prev s s' evs r :
  loop_run a es prev s s' evs r →
  (∃ k, epochs_started evs = take k es) ∧
  (r = Ok tt → EvInfo lr_too_small_msg ∉ evs → epochs_started evs = es).
Proof.
  induction 1 as [prev s|e es prev s s1 e1 lr Hstep|e es prev s s1 e1 x Hstep
                 |e es prev s s1 e1 lr s2 e2 r Hstep Hrest IH].
  - split; [by exists O|done].
  - destruct Hstep as (_&_&_&Hout).
    rewrite (epoch_outcome_started _ _ _ _ _ _ _ Hout).
    split; [by exists 1%nat|].
    intros _ Hno. exfalso. apply Hno.
    inversion Hout; subst. by apply list_elem_of_further.
  - destruct Hstep as (_&_&_&Hout).
    rewrite (epoch_outcome_started _ _ _ _ _ _ _ Hout).
    split; [by exists 1%nat|done].
  - destruct Hstep as (_&_&_&Hout).
    rewrite epochs_started_app, (epoch_outcome_started _ _ _ _ _ _ _ Hout).
    destruct IH as [[k Hk] Hall]. split.
    + exists (S k). simpl. by rewrite Hk.
    + intros Hr Hno. simpl. f_equal. apply Hall; [done|].
      intros Hin. apply Hno. apply elem_of_app. by right.
Qed.

(** C3: the epoch loop of [train] runs [max_epochs] epochs counted from the
    session's epoch index [e], that is the epochs [e], [e + 1], ...,
    [e + max_epochs - 1]; it starts them in this order, and absent a
    terminal condition (it returns, and neither the learning-rate floor nor
    an interruption was logged) it starts every one of them. *)
Theorem train_runs_max_epochs_from_session_epoch self a s :
  (∃ k, epochs_started (events_of (train self a s))
        = take k (planned_epochs self a)) ∧
  ((∃ d, result_of (train self a s) = Ok d) →
   EvInfo lr_too_small_msg ∉ events_of (train self a s) →
   EvInfo interrupted_msg ∉ events_of (train self a s) →
   epochs_started (events_of (train self a s)) = planned_epochs self a).
Proof.
  destruct (train_run_of self a s)
    as [s0 s1 s2 levs lr_r mid tail score Hsetup Hloop Hlr Hki Hmid _
          _ _ _ _ _ _ Htail _ ->|s0 levs x Hsetup Hloop Hx ->];
    rewrite py_range_planned in Hloop;
    apply loop_run_started in Hloop as [Hk Hall].
  - rewrite !epochs_started_app.
    rewrite (epochs_started_none mid) by by apply tail_no_start.
    rewrite (epochs_started_none tail) by by apply tail_no_start.
    rewrite !app_nil_r. split; [done|].
    intros _ Hsmall Hint. apply Hall.
    + destruct Hlr as [->| ->]; [done|]. exfalso. apply Hint.
      rewrite !elem_of_app. right. left. by apply Hki.
    + intros Hin. apply Hsmall. rewrite elem_of_app. by left.
  - split; [done|]. by intros [d Hd].
Qed.

(** ** The learning-rate floor *)

Lemma start_not_in (P : event → Prop) l pre e lr post :
  Forall P l → ¬ P (EvEpochStart e lr) → l ≠ pre ++ EvEpochStart e lr :: post.
Proof.
  intros HF HP ->. apply Forall_app in HF as [_ HF].
  by apply Forall_cons in HF as [? _].
Qed.

(** Where an epoch's events hold an epoch start, it is their first event. *)
Lemma epoch_outcome_split a e0 prev s s' evs r pre e lr post :
  epoch_outcome a e0 prev s s' evs r →
  evs = pre ++ EvEpochStart e lr :: post →
  pre = [] ∧ lr = List.last (param_groups s) prev.
Proof.
  intros Hout Heq.
  assert (Hrest : ∀ lr0 rest, evs = EvEpochStart e0 lr0 :: rest →
            Forall (λ ev, is_epoch_start ev = false) rest →
            pre = [] ∧ lr = lr0).
  { intros lr0 rest -> Hrest. destruct pre as [|ev pre]; simpl in Heq.
    - by injection Heq as _ ->.
    - injection Heq as _ ->. exfalso.
      by eapply (start_not_in (λ ev, is_epoch_start ev = false)). }
  destruct Hout as [lr0 p0 -> ? Hp ? Hevs ?|lr0 p0 b0 x -> ? Hp Hb Hevs ? ?
                   |lr0 p0 b0 tl ee -> ? Hp Hb He Hevs ? ? ? ? ? ?].
  - eapply Hrest; [exact Hevs|]. by apply info_no_start.
  - eapply Hrest; [exact Hevs|]. apply Forall_app. split.
    + by apply info_no_start.
    + by eapply batch_no_start.
  - eapply Hrest; [exact Hevs|]. apply Forall_app. split.
    + by apply info_no_start.
    + apply Forall_app. split; [by eapply batch_no_start|].
      constructor; [done|]. by apply eval_no_start.
Qed.

(** Once an epoch reads a learning rate below the floor, the loop is left:
    nothing but log lines follows. *)
Lemma loop_run_floor a es prev s s' evs r :
  loop_run a es prev s s' evs r →
  ∀ pre e lr post, evs = pre ++ EvEpochStart e lr :: post →
  Qltb lr lr_floor = true → Forall info_event post ∧ r = Ok tt.
Proof.
  induction 1 as [prev s|e0 es prev s s1 e1 lr0 Hstep|e0 es prev s s1 e1 x Hstep
                 |e0 es prev s s1 e1 lr0 s2 e2 r Hstep Hrest IH];
    intros pre e lr post Heq Hlow.
  - by destruct pre.
  - destruct Hstep as (_&_&_&Hout).
    destruct (epoch_outcome_split _ _ _ _ _ _ _ _ _ _ _ Hout Heq) as [-> _].
    inversion Hout; subst. simpl in *. by simplify_eq.
  - destruct Hstep as (_&_&_&Hout).
    destruct (epoch_outcome_split _ _ _ _ _ _ _ _ _ _ _ Hout Heq) as [-> Hlr].
    inversion Hout; subst. congruence.
  - destruct Hstep as (_&_&_&Hout).
    apply app_eq_split in Heq as [(post1 & Heq & ->)|(pre2 & -> & Heq)].
    + destruct (epoch_outcome_split _ _ _ _ _ _ _ _ _ _ _ Hout Heq) as [-> Hlr].
      inversion Hout; subst. congruence.
    + by eapply IH.
Qed.

(** C4: once the learning rate read at the start of an epoch is below
    0.0001, [train] processes no batch of that epoch or of any later one,
    starts no further epoch and writes no further [loss.tsv] row. *)
Theorem train_stops_below_lr_floor self a s pre e lr post :
  events_of (train self a s) = pre ++ EvEpochStart e lr :: post →
  (lr < lr_floor)%Q →
  Forall quiet_event post.
Proof.
  intros Heq Hlow. apply Qltb_lt in Hlow.
  destruct (train_run_of self a s)
    as [s0 s1 s2 levs lr_r mid tail score Hsetup Hloop Hlr Hki Hmid _
          _ _ _ _ _ _ Htail _ Hevs|s0 levs x Hsetup Hloop Hx Hevs];
    rewrite Hevs in Heq.
  - apply app_eq_split in Heq as [(post1 & Heq & ->)|(pre2 & -> & Heq)].
    + destruct (loop_run_floor _ _ _ _ _ _ _ Hloop _ _ _ _ Heq Hlow) as [Hq _].
      apply Forall_app. split; [by apply info_quiet|].
      apply Forall_app. split; by apply tail_quiet.
    + exfalso. revert Heq. apply (start_not_in tail_event); [|by intros []].
      apply Forall_app. by split.
  - by destruct (loop_run_floor _ _ _ _ _ _ _ Hloop _ _ _ _ Heq Hlow).
Qed.

(** ** Histories and files *)










(** ** The training loss of an epoch *)

Lemma batch_totals_skip e acc l :
  batches_of (λ e', e' ≠ e) l →
  batch_loss_total e acc l = acc ∧ batch_size_total e l = O.
Proof.
  intros H. revert acc. induction H as [|ev l Hev _ IH]; intros acc; [done|].
  destruct ev; try apply IH.
  unfold batch_loss_total, batch_size_total in *. simpl.
  destruct (Z.eqb_spec epoch0 e) as [->|_]; [done|apply IH].
Qed.

Lemma batches_of_impl (P Q : Z → Prop) l :
  (∀ e, P e → Q e) → batches_of P l → batches_of Q l.
Proof.
  intros HPQ H. eapply Forall_impl; [exact H|]. intros []; simpl; auto.
Qed.

Lemma batches_of_app P l1 l2 :
  batches_of P l1 → batches_of P l2 → batches_of P (l1 ++ l2).
Proof. intros. apply Forall_app. by split. Qed.

Lemma info_batches P l : Forall info_event l → batches_of P l.
Proof. intros H. eapply Forall_impl; [exact H|]. by intros []. Qed.

Lemma eval_batches P l : Forall eval_event l → batches_of P l.
Proof. intros H. eapply Forall_impl; [exact H|]. by intros []. Qed.

Lemma tail_batches P l : Forall tail_event l → batches_of P l.
Proof. intros H. eapply Forall_impl; [exact H|]. by intros []. Qed.

Lemma batch_loop_batches e l :
  Forall (batch_loop_event e) l → batches_of (λ e', e' = e) l.
Proof. intros H. eapply Forall_impl; [exact H|]. by intros []. Qed.

(** The batches among an epoch's events are its own. *)
Lemma epoch_outcome_batches a e prev s s' evs r :
  epoch_outcome a e prev s s' evs r → batches_of (λ e', e' = e) evs.
Proof.
  destruct 1; subst evs; (constructor; [done|]).
  - by apply info_batches.
  - apply batches_of_app; [by apply info_batches|by apply batch_loop_batches].
  - apply batches_of_app; [by apply info_batches|].
    apply batches_of_app; [by apply batch_loop_batches|].
    constructor; [done|]. by apply eval_batches.
Qed.

Lemma loop_run_batches a es prev s s' evs r :
  loop_run a es prev s s' evs r → batches_of (λ e', e' ∈ es) evs.
Proof.
  induction 1 as [prev s|e es prev s s1 e1 lr Hstep|e es prev s s1 e1 x Hstep
                 |e es prev s s1 e1 lr s2 e2 r Hstep Hrest IH].
  - constructor.
  - destruct Hstep as (_&_&_&Hout). apply epoch_outcome_batches in Hout.
    eapply batches_of_impl; [|exact Hout]. intros ? ->. apply list_elem_of_here.
  - destruct Hstep as (_&_&_&Hout). apply epoch_outcome_batches in Hout.
    eapply batches_of_impl; [|exact Hout]. intros ? ->. apply list_elem_of_here.
  - destruct Hstep as (_&_&_&Hout). apply epoch_outcome_batches in Hout.
    apply batches_of_app.
    + eapply batches_of_impl; [|exact Hout]. intros ? ->. apply list_elem_of_here.
    + eapply batches_of_impl; [|exact IH]. intros ?. apply list_elem_of_further.
Qed.

(** The "done" line of an epoch carries the sum of the epoch's batch losses
    divided by the length of the training list. *)
Lemma epoch_outcome_done a e prev s s' evs r e' tl lr bad :
  epoch_outcome a e prev s s' evs r →
  EvEpochDone e' tl lr bad ∈ evs →
  e' = e ∧
  tl = (batch_loss_total e 0 evs
        / inject_Z (Z.of_nat (length (train_data s'))))%Q ∧
  batch_size_total e evs = length (train_data s').
Proof.
  assert (Hno : ∀ (P : event → Prop) l,
            (∀ ev, P ev → match ev with EvEpochDone _ _ _ _ => False | _ => True end) →
            Forall P l → EvEpochDone e' tl lr bad ∉ l).
  { intros P l HP HF Hin. eapply Forall_forall in HF; [|exact Hin].
    by apply HP in HF. }
  assert (Hi : ∀ l, Forall info_event l → EvEpochDone e' tl lr bad ∉ l).
  { intros l. apply Hno. by intros []. }
  assert (Hb : ∀ l, Forall (batch_loop_event e) l → EvEpochDone e' tl lr bad ∉ l).
  { intros l. apply Hno. by intros []. }
  assert (He : ∀ l, Forall eval_event l → EvEpochDone e' tl lr bad ∉ l).
  { intros l. apply Hno. by intros []. }
  destruct 1 as [lr0 p0 -> ? Hp ? -> ->|lr0 p0 b0 x -> ? Hp Hb0 -> ? Ho
                |lr0 p0 b0 tl0 ee -> ? Hp Hb0 He0 -> Htl Hsz ? ? ? ?];
    intros Hin.
  - apply elem_of_cons in Hin as [|Hin]; [done|]. by apply Hi in Hin.
  - apply elem_of_cons in Hin as [|Hin]; [done|].
    apply elem_of_app in Hin as [Hin|Hin]; [by apply Hi in Hin|by apply Hb in Hin].
  - apply elem_of_cons in Hin as [|Hin]; [done|].
    apply elem_of_app in Hin as [Hin|Hin]; [by apply Hi in Hin|].
    apply elem_of_app in Hin as [Hin|Hin]; [by apply Hb in Hin|].
    apply elem_of_cons in Hin as [Hin|Hin]; [|by apply He in Hin].
    injection Hin as -> -> -> ->. split; [done|].
    assert (Hskip1 : ∀ acc, batch_loss_total e acc p0 = acc
                            ∧ batch_size_total e p0 = O).
    { intros acc. apply batch_totals_skip. by apply info_batches. }
    assert (Hskip2 : ∀ acc, batch_loss_total e acc ee = acc
                            ∧ batch_size_total e ee = O).
    { intros acc. apply batch_totals_skip. by apply eval_batches. }
    change (batch_loss_total e 0 (EvEpochStart e (List.last (param_groups s) prev)
              :: p0 ++ b0 ++ EvEpochDone e tl0 (List.last (param_groups s) prev)
                                (num_bad_epochs (scheduler s)) :: ee))
      with (batch_loss_total e 0 (p0 ++ b0 ++ EvEpochDone e tl0
              (List.last (param_groups s) prev) (num_bad_epochs (scheduler s))
              :: ee)).
    change (batch_size_total e (EvEpochStart e (List.last (param_groups s) prev)
              :: p0 ++ b0 ++ EvEpochDone e tl0 (List.last (param_groups s) prev)
                                (num_bad_epochs (scheduler s)) :: ee))
      with (batch_size_total e (p0 ++ b0 ++ EvEpochDone e tl0
              (List.last (param_groups s) prev) (num_bad_epochs (scheduler s))
              :: ee)).
    rewrite !batch_loss_total_app, !batch_size_total_app.
    rewrite (proj1 (Hskip1 _)), (proj2 (Hskip1 0%Q)).
    change (batch_loss_total e (batch_loss_total e 0 b0)
              (EvEpochDone e tl0 (List.last (param_groups s) prev)
                 (num_bad_epochs (scheduler s)) :: ee))
      with (batch_loss_total e (batch_loss_total e 0 b0) ee).
    change (batch_size_total e
              (EvEpochDone e tl0 (List.last (param_groups s) prev)
                 (num_bad_epochs (scheduler s)) :: ee))
      with (batch_size_total e ee).
    rewrite (proj1 (Hskip2 _)), (proj2 (Hskip2 0%Q)).
    split; [done|]. lia.
Qed.

Lemma data_kept_length s s' :
  data_kept s s' → length (train_data s') = length (train_data s).
Proof. intros (Hp & _). by rewrite Hp. Qed.

Lemma loop_run_done a es prev s s' evs r :
  loop_run a es prev s s' evs r → NoDup es →
  ∀ e tl lr bad, EvEpochDone e tl lr bad ∈ evs →
  e ∈ es ∧
  tl = (batch_loss_total e 0 evs
        / inject_Z (Z.of_nat (length (train_data s))))%Q ∧
  batch_size_total e evs = length (train_data s).
Proof.
  induction 1 as [prev s|e0 es prev s s1 e1 lr0 Hstep|e0 es prev s s1 e1 x Hstep
                 |e0 es prev s s1 e1 lr0 s2 e2 r Hstep Hrest IH];
    intros Hnd e tl lr bad Hin.
  - by apply elem_of_nil in Hin.
  - destruct Hstep as (Hk&_&_&Hout).
    destruct (epoch_outcome_done _ _ _ _ _ _ _ _ _ _ _ Hout Hin) as (-> & Htl & Hsz).
    rewrite (data_kept_length _ _ Hk) in Htl, Hsz.
    split_and!; [apply list_elem_of_here|done|done].
  - destruct Hstep as (Hk&_&_&Hout).
    destruct (epoch_outcome_done _ _ _ _ _ _ _ _ _ _ _ Hout Hin) as (-> & Htl & Hsz).
    rewrite (data_kept_length _ _ Hk) in Htl, Hsz.
    split_and!; [apply list_elem_of_here|done|done].
  - destruct Hstep as (Hk&_&_&Hout).
    apply NoDup_cons in Hnd as [Hfresh Hnd].
    pose proof (epoch_outcome_batches _ _ _ _ _ _ _ Hout) as Hb1.
    pose proof (loop_run_batches _ _ _ _ _ _ _ Hrest) as Hb2.
    rewrite batch_loss_total_app, batch_size_total_app.
    apply elem_of_app in Hin as [Hin|Hin].
    + destruct (epoch_outcome_done _ _ _ _ _ _ _ _ _ _ _ Hout Hin)
        as (-> & Htl & Hsz).
      rewrite (data_kept_length _ _ Hk) in Htl, Hsz.
      assert (Hskip : ∀ acc, batch_loss_total e0 acc e2 = acc
                             ∧ batch_size_total e0 e2 = O).
      { intros acc. apply batch_totals_skip.
        eapply batches_of_impl; [|exact Hb2]. intros ? ? ->. done. }
      rewrite (proj1 (Hskip _)), (proj2 (Hskip 0%Q)).
      split_and!; [apply list_elem_of_here|done|lia].
    + destruct (IH Hnd _ _ _ _ Hin) as (He & Htl & Hsz).
      rewrite (data_kept_length _ _ Hk) in Htl, Hsz.
      assert (Hskip : ∀ acc, batch_loss_total e acc e1 = acc
                             ∧ batch_size_total e e1 = O).
      { intros acc. apply batch_totals_skip.
        eapply batches_of_impl; [|exact Hb1]. intros ? -> ->. done. }
      rewrite (proj1 (Hskip _)), (proj2 (Hskip 0%Q)).
      split_and!; [by apply list_elem_of_further|done|done].
Qed.

Lemma planned_epochs_NoDup self a : NoDup (planned_epochs self a).
Proof.
  unfold planned_epochs. apply NoDup_fmap_2; [|apply NoDup_seq].
  intros i j Hij. lia.
Qed.

(** C1: the mean training loss an epoch of [train] reports in its
    "EPOCH n done" line is the sum of the losses of the epoch's batches,
    each counted once whatever the size of its batch, divided by the number
    of training examples of the epoch (the batches cover the training list
    exactly once). *)
Theorem train_epoch_loss_is_plain_sum self a s e tl lr bad :
  EvEpochDone e tl lr bad ∈ events_of (train self a s) →
  tl = (batch_loss_total e 0 (events_of (train self a s))
        / inject_Z (Z.of_nat (batch_size_total e (events_of (train self a s)))))%Q ∧
  batch_size_total e (events_of (train self a s))
  = (length (corpus_train (corpus s))
     + if train_with_dev a then length (corpus_dev (corpus s)) else 0)%nat.
Proof.
  intros Hin.
  assert (Hdone : ∀ l, Forall tail_event l → EvEpochDone e tl lr bad ∉ l).
  { intros l HF Hl. eapply Forall_forall in HF; [|exact Hl]. done. }
  assert (Hlen : ∀ s0, setup_post self a s s0 →
            length (train_data s0)
            = (length (corpus_train (corpus s))
               + if train_with_dev a then length (corpus_dev (corpus s)) else 0)%nat).
  { intros s0 (-> & _). rewrite length_app. by destruct (train_with_dev a). }
  destruct (train_run_of self a s)
    as [s0 s1 s2 levs lr_r mid tail score Hsetup Hloop _ _ Hmid _
          _ _ _ _ _ _ Htail _ Hevs|s0 levs x Hsetup Hloop Hx Hevs];
    rewrite Hevs in *; rewrite py_range_planned in Hloop.
  - apply elem_of_app in Hin as [Hin|Hin].
    2:{ apply elem_of_app in Hin as [Hin|Hin]; by eapply Hdone in Hin. }
    destruct (loop_run_done _ _ _ _ _ _ _ Hloop (planned_epochs_NoDup _ _)
                _ _ _ _ Hin) as (_ & Htl & Hsz).
    assert (Hskip : ∀ acc, batch_loss_total e acc (mid ++ tail) = acc
                           ∧ batch_size_total e (mid ++ tail) = O).
    { intros acc. apply batch_totals_skip.
      apply batches_of_app; by apply tail_batches. }
    rewrite batch_loss_total_app, batch_size_total_app.
    rewrite (proj1 (Hskip _)), (proj2 (Hskip 0%Q)), Nat.add_0_r.
    rewrite Hsz, <- (Hlen _ Hsetup). by split.
  - destruct (loop_run_done _ _ _ _ _ _ _ Hloop (planned_epochs_NoDup _ _)
                _ _ _ _ Hin) as (_ & Htl & Hsz).
    rewrite Hsz, <- (Hlen _ Hsetup). by split.
Qed.

(** ** The best-model artifact *)

Lemma scheduler_step_best sch lrs score :
  best (scheduler_step sch lrs score).1
  = if is_better (sch_mode sch) score (best sch) then Some score else best sch.
Proof. done. Qed.

Lemma evaluate_epoch_best a e lr bad tl s :
  train_with_dev a = false → param_selection_mode a = false →
  wp (evaluate_epoch a e lr bad tl) s (λ s' evs r,
    ∃ score,
      EvSchedulerStep score ∈ evs ∧
      scheduler s' = (scheduler_step (scheduler s) (param_groups s) score).1 ∧
      (EvSave best_model_pt ∈ evs ↔
       match best (scheduler s') with
       | Some b => Qeq_bool score b = true
       | None => False
       end)).
Proof.
  intros Htwd Hpsm. unfold evaluate_epoch. rewrite Htwd, Hpsm.
  wp_run; evs_norm; bool_tidy; simpl in *;
    (eexists; split_and!; [in_events|reflexivity|]).
  all: split; [intros Hin|intros Hb].
  all: try by in_events.
  all: try (exfalso; revert Hin; not_in_events).
  all: repeat match goal with
       | H : match ?x with Some _ => _ | None => _ end = _ |- _ =>
           destruct x; try done; try congruence
       end.
Qed.

Lemma wp_and {A} (m : M A) s (Φ Ψ : store → list event → result A → Prop) :
  wp m s Φ → wp m s Ψ → wp m s (λ s' evs r, Φ s' evs r ∧ Ψ s' evs r).
Proof. by split. Qed.

Lemma save_not_in (P : event → Prop) l f :
  Forall P l → ¬ P (EvSave f) → EvSave f ∉ l.
Proof. intros HF HP Hin. eapply Forall_forall in HF; [|exact Hin]. done. Qed.

(** One iteration of the loop body saves the best model exactly when it
    runs to its end and the score it fed the scheduler equals the
    scheduler's best after the step. *)
Lemma epoch_body_best a e prev s :
  train_with_dev a = false → param_selection_mode a = false →
  wp (epoch_body a e prev) s (λ s' evs r,
    match r with
    | Ok (false, _) =>
        ∃ score,
          EvSchedulerStep score ∈ evs ∧
          scheduler s' = (scheduler_step (scheduler s) (param_groups s) score).1 ∧
          (EvSave best_model_pt ∈ evs ↔
           match best (scheduler s') with
           | Some b => Qeq_bool score b = true
           | None => False
           end)
    | _ => EvSave best_model_pt ∉ evs
    end).
Proof.
  intros Htwd Hpsm. unfold epoch_body. wp_run; evs_norm.
  all: try not_in_events.
  all: eapply wp_mono; [apply train_one_epoch_spec|]; cbn beta;
    intros s1 evs1 r1 (_ & _ & Ho & _ & bevs & Hb & Hr);
    destruct r1 as [tl|x]; cbn beta iota.
  all: try (destruct Hr as (-> & _);
            intros Hin; repeat (apply elem_of_cons in Hin as [Hin|Hin];
                                [discriminate Hin|]);
            revert Hin; apply (save_not_in (batch_loop_event e)); [done|];
            by intros []).
  all: destruct Hr as (-> & _); destruct Ho as (Hpg & Hsch & _);
    apply wp_bind;
    (eapply wp_mono;
     [apply (wp_and _ _ _ _ (evaluate_epoch_spec a e _ _ tl s1)
               (evaluate_epoch_best a e _ _ tl s1 Htwd Hpsm))|]);
    cbn beta;
    intros s2 eevs r2 [(-> & _ & _ & He & _) (score & Hin & Hs & Hiff)];
    wp_run; evs_norm; exists score; rewrite <- Hpg, <- Hsch;
    (split_and!; [|done|]).
  all: try (repeat (apply list_elem_of_further); apply elem_of_app; by right).
  all: rewrite <- Hiff; split; intros Hsave.
  all: try (repeat (apply list_elem_of_further); apply elem_of_app; by right).
  all: repeat (apply elem_of_cons in Hsave as [Hsave|Hsave]; [discriminate Hsave|]);
    apply elem_of_app in Hsave as [Hsave|Hsave]; [|done];
    apply elem_of_app in Hsave as [Hsave|Hsave];
    [ exfalso; revert Hsave;
      apply (save_not_in (batch_loop_event e)); [done|by intros []]
    | by apply list_elem_of_singleton in Hsave ].
Qed.

(** C2: with dev-based selection active ([train_with_dev] and
    [param_selection_mode] both false), an iteration of the epoch loop of
    [train] saves [best-model.pt] exactly when it runs to its end and the
    score it fed the scheduler equals, by value, the scheduler's best after
    the step.  In particular an epoch that sets a new best saves, and so
    does an epoch whose score ties with the best there was. *)
Theorem epoch_saves_best_on_equality a e prev s :
  train_with_dev a = false → param_selection_mode a = false →
  match result_of (epoch_body a e prev s) with
  | Ok (false, _) =>
      ∃ score,
        EvSchedulerStep score ∈ events_of (epoch_body a e prev s) ∧
        (EvSave best_model_pt ∈ events_of (epoch_body a e prev s) ↔
         ∃ b, best (scheduler (store_of (epoch_body a e prev s))) = Some b
              ∧ (score == b)%Q) ∧
        (is_better (sch_mode (scheduler s)) score (best (scheduler s)) = true →
         EvSave best_model_pt ∈ events_of (epoch_body a e prev s)) ∧
        (∀ b0, best (scheduler s) = Some b0 → (score == b0)%Q →
         EvSave best_model_pt ∈ events_of (epoch_body a e prev s))
  | _ => EvSave best_model_pt ∉ events_of (epoch_body a e prev s)
  end.
Proof.
  intros Htwd Hpsm.
  pose proof (wp_elim _ _ _ (epoch_body_best a e prev s Htwd Hpsm)) as H.
  cbn beta in H.
  destruct (result_of (epoch_body a e prev s)) as [[[] lr]|x]; try done.
  destruct H as (score & Hin & Hsch & Hiff). exists score.
  assert (Hiff' : EvSave best_model_pt ∈ events_of (epoch_body a e prev s) ↔
            ∃ b, best (scheduler (store_of (epoch_body a e prev s))) = Some b
                 ∧ (score == b)%Q).
  { rewrite Hiff. destruct (best _) as [b|].
    - rewrite Qeq_bool_iff. split; [by exists b|]. by intros (? & [= <-] & ?).
    - split; [done|]. by intros (? & ? & _). }
  split_and!; [done|done| |].
  - intros Hbetter. apply Hiff'. rewrite Hsch, scheduler_step_best, Hbetter.
    by exists score.
  - intros b0 Hb0 Heq. apply Hiff'. rewrite Hsch, scheduler_step_best.
    destruct (is_better _ _ _); [by exists score|by exists b0].
Qed.

(** ** The learning-rate finder *)

Lemma sweep_batches_app l1 l2 :
  sweep_batches (l1 ++ l2) = (sweep_batches l1 + sweep_batches l2)%nat.
Proof. unfold sweep_batches. by rewrite omap_app, length_app. Qed.

Lemma smooth_loss_spec a itr loss best_loss mov s :
  itr = O ∨ is_Some best_loss →
  wp (smooth_loss a itr loss best_loss mov) s (λ s' evs r,
    s' = s ∧ evs = [] ∧
    ((∃ v, r = Ok v) ∨ r = Raise ZeroDivisionError) ∧
    (smoothing_ok a → ∃ v, r = Ok v)).
Proof.
  intros Hbest. unfold smooth_loss.
  destruct (itr =? 0)%nat eqn:Hitr.
  { wp_run. split_and!; eauto. }
  apply Nat.eqb_neq in Hitr. destruct Hbest as [|[b ->]]; [done|].
  wp_run; evs_norm; split_and!; eauto.
  intros Hok. specialize (Hok itr). rewrite Hok in *; done.
Qed.

Lemma sweep_spec a batches : ∀ itr best_loss mov s,
  itr = O ∨ is_Some best_loss →
  wp (sweep a itr batches best_loss mov) s (λ s' evs r,
    (corpus s' = corpus s ∧ train_data s' = train_data s) ∧
    files s' = files s ∧
    (r = Ok tt ∨ r = Raise ZeroDivisionError) ∧
    (smoothing_ok a → r = Ok tt) ∧
    (sweep_batches evs ≤ length batches)%nat ∧
    (r = Ok tt → EvInfo diverged_msg ∉ evs →
     sweep_batches evs = length batches)).
Proof.
  induction batches as [|batch rest IH]; intros itr best_loss mov s Hbest;
    simpl.
  { wp_run. split_and!; auto. }
  wp_step. wp_step. cbn beta iota.
  destruct (sweep_step (model s) (param_groups s) batch) as [loss w].
  wp_step. wp_step. wp_step. wp_step. wp_step.
  eapply wp_mono; [by apply smooth_loss_spec|]. cbn beta.
  intros ? ? r (-> & -> & Hr & Hok).
  destruct r as [[[loss_item best'] mov']|x]; cbn beta iota.
  - wp_run; evs_norm.
    + (* early stop *)
      split_and!; auto.
      * unfold sweep_batches. simpl. lia.
      * intros _ Hno. exfalso. apply Hno. in_events.
    + eapply wp_mono; [apply IH; right; by eexists|]. cbn beta.
      intros s' evs r ((Hc & Htd) & Hf & Hr' & Hok' & Hle & Hall).
      split_and!; auto.
      * change (sweep_batches (EvSweepBatch itr (length batch) loss
                  :: EvLrRow itr _ loss_item :: evs))
          with (S (sweep_batches evs)). lia.
      * intros Hrr Hno.
        change (sweep_batches (EvSweepBatch itr (length batch) loss
                  :: EvLrRow itr _ loss_item :: evs))
          with (S (sweep_batches evs)).
        f_equal. apply Hall; [done|]. intros Hin. apply Hno.
        by do 2 apply list_elem_of_further.
  - evs_norm. destruct Hr as [[v Hv]|Hr]; [done|]. injection Hr as ->.
    split_and!; auto.
    + intros Hs. by destruct (Hok Hs).
    + unfold sweep_batches. simpl. lia.
    + done.
Qed.

Lemma find_learning_rate_spec a s :
  wp (find_learning_rate a) s (λ s' evs r,
    corpus_kept s s' ∧ files s' = {[file_name a]} ∪ files s ∧
    match r with
    | Ok path =>
        path = file_name a ∧
        ∃ w, model s'
             = to_device (load_state_dict w (state_dict w)) (device (model s))
    | Raise x =>
        (x = ValueError ∧ flr_mini_batch_size a = O) ∨
        (x = ZeroDivisionError ∧ ¬ smoothing_ok a)
    end ∧
    (sweep_batches evs
     ≤ iterations a
       `min` length (make_batches (corpus_train (corpus s))
                       (flr_mini_batch_size a)))%nat ∧
    (∀ path, r = Ok path → EvInfo diverged_msg ∉ evs →
     sweep_batches evs
     = iterations a
       `min` length (make_batches (corpus_train (corpus s))
                       (flr_mini_batch_size a))) ∧
    train_data s' = shuffle rand (rng s) (corpus_train (corpus s)) ∧
    corpus_train (corpus s')
    = match corpora (corpus s) with
      | None => train_data s'
      | Some _ => corpus_train (corpus s)
      end ∧
    (corpora (corpus s) ≠ None → corpus s' = corpus s)).
Proof.
  unfold find_learning_rate, shuffle_train_data, bind_train_data, set_train.
  assert (Hlen : ∀ l l' : list Sentence, l' ≡ₚ l →
            length (make_batches l' (flr_mini_batch_size a))
            = length (make_batches l (flr_mini_batch_size a))).
  { intros l l' Hp. by rewrite !make_batches_length, Hp. }
  pose proof (shuffle_perm rand (rng s) (corpus_train (corpus s))) as Hperm.
  assert (Hkept : ∀ c : Corpus,
            c = match corpora (corpus s) with
                | None => {| corpus_train :=
                               shuffle rand (rng s) (corpus_train (corpus s));
                             corpus_dev := corpus_dev (corpus s);
                             corpus_test := corpus_test (corpus s);
                             corpora := None |}
                | Some _ => corpus s
                end →
            (corpus_train c ≡ₚ corpus_train (corpus s) ∧
             corpus_dev c = corpus_dev (corpus s) ∧
             corpus_test c = corpus_test (corpus s) ∧
             corpora c = corpora (corpus s)) ∧
            corpus_train c
            = match corpora (corpus s) with
              | None => shuffle rand (rng s) (corpus_train (corpus s))
              | Some _ => corpus_train (corpus s)
              end ∧
            (corpora (corpus s) ≠ None → c = corpus s)).
  { intros c ->. destruct (corpora (corpus s)) eqn:E; simpl; by rewrite ?E. }
  wp_run; evs_norm; simpl; nat_eqb.
  - destruct (Hkept _ eq_refl) as (Hk & Ht & Hm).
    split_and!; try done.
    all: lazymatch goal with
         | |- _ ∨ _ => by left
         | |- (_ ≤ _)%nat => unfold sweep_batches; simpl; lia
         end.
  - eapply wp_mono; [apply sweep_spec; by left|]. cbn beta.
    intros s' evs r ((Hc & Htd) & Hf & Hr & Hok & Hle & Hall).
    simpl in Hc, Htd, Hf.
    destruct (Hkept _ Hc) as (Hk & Ht & Hm).
    rewrite length_take, (Hlen _ _ Hperm) in Hle, Hall.
    destruct Hr as [-> | ->]; cbn beta iota.
    + wp_run; evs_norm; simpl.
      split_and!; try done.
      * by eexists.
      * rewrite sweep_batches_app. unfold sweep_batches at 2. simpl. lia.
      * intros path _ Hno.
        rewrite sweep_batches_app. unfold sweep_batches at 2. simpl.
        rewrite Nat.add_0_r. apply Hall; [done|].
        intros Hin. apply Hno. apply elem_of_app. by left.
      * by rewrite Htd.
    + split_and!; try done.
      * right. split; [done|]. intros Hs. by specialize (Hok Hs).
      * by rewrite Htd.
Qed.

Lemma find_learning_rate_returns_when a s :
  flr_mini_batch_size a ≠ O → smoothing_ok a →
  ∃ path, result_of (find_learning_rate a s) = Ok path.
Proof.
  intros Hmbs Hs.
  pose proof (wp_elim _ _ _ (find_learning_rate_spec a s)) as (_ & _ & H & _).
  destruct (result_of (find_learning_rate a s)) as [p|x]; [by eexists|].
  by destruct H as [[_ ?]|[_ ?]].
Qed.

(** The part of the sweep's length that the code does keep to: never more
    than [min(iterations, available_batches)] mini-batches, and exactly
    that many when the sweep returns without the early stop. *)
Lemma find_learning_rate_batch_count a s :
  (sweep_batches (events_of (find_learning_rate a s))
   ≤ iterations a
     `min` length (make_batches (corpus_train (corpus s))
                     (flr_mini_batch_size a)))%nat ∧
  (∀ path, result_of (find_learning_rate a s) = Ok path →
   EvInfo diverged_msg ∉ events_of (find_learning_rate a s) →
   sweep_batches (events_of (find_learning_rate a s))
   = iterations a
     `min` length (make_batches (corpus_train (corpus s))
                     (flr_mini_batch_size a))).
Proof.
  by pose proof (wp_elim _ _ _ (find_learning_rate_spec a s))
    as (_ & _ & _ & ? & ? & _).
Qed.

(** Smoothing factors in the usual range never make the bias correction
    divide by zero. *)
Lemma smoothing_ok_below_1 a : (smoothing_factor a < 1)%Q → smoothing_ok a.
Proof.
  intros Hlt itr Hpos. apply Qltb_lt in Hpos.
  destruct (Qeq_bool _ 0) eqn:E; [|done]. exfalso.
  apply Qeq_bool_iff in E.
  set (q := smoothing_factor a) in *. set (n := Z.of_nat (itr + 1)) in *.
  assert (Hn : (0 < n)%Z) by (unfold n; lia).
  assert (Hq1 : (q ^ n == 1)%Q).
  { rewrite <- (Qplus_0_l (q ^ n)), <- E. ring. }
  assert (Hinv : (1 < / q)%Q).
  { apply (proj1 (Qinv_lt_contravar q 1 Hpos eq_refl)) in Hlt. exact Hlt. }
  pose proof (Qpower_1_lt _ _ Hinv Hn) as Hpow.
  rewrite Qinv_power, Hq1 in Hpow.
  by apply Qlt_irrefl in Hpow.
Qed.

(** ** What the two procedures leave behind *)

Lemma corpus_eq (c c' : Corpus) :
  corpus_train c' = corpus_train c → corpus_dev c' = corpus_dev c →
  corpus_test c' = corpus_test c → corpora c' = corpora c → c' = c.
Proof. destruct c, c'; simpl; congruence. Qed.

(** The store after [train] against the store the epoch loop started in
    and the one it ended in. *)
Lemma train_stores self a s :
  ∃ s0 s1, setup_post self a s s0 ∧ data_kept s0 s1 ∧
    (test_mode a = true → corpus s1 = corpus s0 ∧ train_data s1 = train_data s0) ∧
    corpus (store_of (train self a s)) = corpus s1.
Proof.
  destruct (train_run_of self a s)
    as [s0 s1 s2 levs lr_r mid tail score Hsetup Hloop _ _ _ _
          Hc2 _ _ Hc3 _ _ _ _ _|s0 levs x Hsetup Hloop Hx _];
    apply loop_run_kept in Hloop as (Hk & Htm & _).
  - exists s0, s1. split_and!; try done. by rewrite Hc3, Hc2.
  - by exists s0, (store_of (train self a s)).
Qed.

(** A plain corpus: its training list is the one [train] works on. *)
Lemma train_corpus self a s :
  corpora (corpus s) = None →
  corpus_train (corpus (store_of (train self a s)))
  ≡ₚ corpus_train (corpus s)
     ++ (if train_with_dev a then corpus_dev (corpus s) else []) ∧
  corpus_dev (corpus (store_of (train self a s))) = corpus_dev (corpus s) ∧
  corpus_test (corpus (store_of (train self a s))) = corpus_test (corpus s) ∧
  corpora (corpus (store_of (train self a s))) = corpora (corpus s) ∧
  (test_mode a = true →
   corpus_train (corpus (store_of (train self a s)))
   = corpus_train (corpus s)
     ++ (if train_with_dev a then corpus_dev (corpus s) else [])).
Proof.
  intros Hplain.
  destruct (train_stores self a s)
    as (s0 & s1 & Hsetup & (Hp & Hd & Ht & Hco & Hal & _) & Htm & ->).
  destruct Hsetup as (H1 & H2 & H3 & H4 & _ & _ & _ & _ & _ & _ & _ & H5).
  rewrite Hplain in H5.
  assert (Ha1 : corpus_train (corpus s1) = train_data s1).
  { apply Hal; [by intros _|congruence]. }
  split_and!.
  - by rewrite Ha1, Hp, H1.
  - by rewrite Hd, H2.
  - by rewrite Ht, H3.
  - by rewrite Hco, H4.
  - intros Hmode. destruct (Htm Hmode) as [-> _]. by rewrite H5, H1.
Qed.

(** A [MultiCorpus]: [self.corpus.train] is built anew on every access, so
    nothing [train] does to its list reaches the corpus. *)
Lemma train_multicorpus self a s :
  corpora (corpus s) ≠ None → corpus (store_of (train self a s)) = corpus s.
Proof.
  intros Hmulti.
  destruct (train_stores self a s)
    as (s0 & s1 & Hsetup & (_ & _ & _ & _ & _ & Hm) & _ & ->).
  destruct Hsetup as (_ & H2 & H3 & H4 & _ & _ & _ & _ & _ & _ & _ & H5).
  rewrite Hm by congruence. apply corpus_eq; try done.
  rewrite H5. by destruct (corpora (corpus s)).
Qed.

(** ** The parts of a run of [train], put together *)

Lemma omap_none {A B} (f : A → option B) (P : A → Prop) l :
  Forall P l → (∀ x, P x → f x = None) → omap f l = [].
Proof.
  intros HF Hf. induction HF as [|x l Hx _ IH]; [done|].
  simpl. by rewrite (Hf x Hx).
Qed.

Lemma run_eta {A} (out : store * list event * result A) :
  out = (store_of out, events_of out, result_of out).
Proof. by destruct out as [[? ?] ?]. Qed.

Lemma train_setup_run self a s :
  train_setup self a s = (loop_store self a s, [], Ok tt).
Proof.
  pose proof (wp_elim _ _ _ (train_setup_spec self a s)) as (Hr & He & _).
  rewrite (run_eta (train_setup self a s)). unfold loop_store.
  by rewrite Hr, He.
Qed.

Lemma loop_store_post self a s : setup_post self a s (loop_store self a s).
Proof. by pose proof (wp_elim _ _ _ (train_setup_spec self a s)) as (_ & _ & ?). Qed.

(** A run of [train] is the run of its epoch loop, then either nothing
    more (an exception other than KeyboardInterrupt) or the statements
    after the loop and the run of the final part. *)
Lemma train_decompose self a s :
  train self a s
  = match result_of (loop_of self a s) with
    | Raise ValueError =>
        (store_of (loop_of self a s), events_of (loop_of self a s),
         Raise ValueError)
    | Raise ZeroDivisionError =>
        (store_of (loop_of self a s), events_of (loop_of self a s),
         Raise ZeroDivisionError)
    | Raise TypeError =>
        (store_of (loop_of self a s), events_of (loop_of self a s),
         Raise TypeError)
    | r =>
        let fin := train_finish a
                     (after_loop_store a r (store_of (loop_of self a s))) in
        (store_of fin,
         events_of (loop_of self a s) ++ after_loop_events a r
           ++ events_of fin,
         result_of fin)
    end.
Proof.
  unfold train. unfold bind at 1. rewrite train_setup_run.
  unfold bind at 1, try_except_KeyboardInterrupt, bind at 1.
  change (epoch_loop a _ _ (loop_store self a s)) with (loop_of self a s).
  destruct (loop_of self a s) as [[s1 levs] [[]|x]];
    unfold after_loop_store, after_loop_events, saves_final,
      store_of, events_of, result_of; simpl.
  - unfold when.
    destruct (save_final_model a && negb (param_selection_mode a)); simpl.
    + unfold model_save, create_file, bind, modify, tell; simpl.
      destruct (train_finish a (add_file final_model_pt s1)) as [[s3 tl] r].
      simpl. by rewrite <- ?app_assoc, ?app_nil_r.
    + unfold ret. destruct (train_finish a s1) as [[s3 tl] r].
      simpl. by rewrite <- ?app_assoc, ?app_nil_r.
  - destruct x; try done. unfold when, log_info.
    destruct (negb (param_selection_mode a)); simpl.
    + unfold model_save, create_file, bind, modify, tell; simpl.
      destruct (train_finish a (add_file final_model_pt s1)) as [[s3 tl] r].
      simpl. by rewrite <- ?app_assoc, ?app_nil_r.
    + unfold ret, bind, tell. simpl.
      destruct (train_finish a s1) as [[s3 tl] r].
      simpl. by rewrite <- ?app_assoc, ?app_nil_r.
Qed.

(** *** Mini-batches *)

Lemma py_range_step_bound stop step k :
  step ≠ O → (k < (stop + step - 1) / step)%nat → (k * step < stop)%nat.
Proof.
  intros Hstep Hk.
  pose proof (Nat.div_mod_eq (stop + step - 1) step) as Hdm.
  pose proof (Nat.mod_upper_bound (stop + step - 1) step Hstep) as Hmod.
  nia.
Qed.

Lemma make_batches_lookup {A} (l : list A) m i :
  (i < length (make_batches l m))%nat →
  make_batches l m !! i = Some (take m (drop (i * m) l)).
Proof.
  unfold make_batches, py_range_step. rewrite !length_fmap, length_seq.
  intros Hi. rewrite !list_lookup_fmap, lookup_seq_lt by done. done.
Qed.

Lemma make_batches_bounds {A} (l : list A) m :
  m ≠ O → Forall (λ b, 1 ≤ length b ≤ m)%nat (make_batches l m).
Proof.
  intros Hm. unfold make_batches, py_range_step.
  rewrite !Forall_fmap. apply Forall_forall. intros k Hk.
  apply elem_of_seq in Hk as [_ Hk]. simpl in Hk.
  apply py_range_step_bound in Hk; [|done].
  simpl. rewrite length_take, length_drop. lia.
Qed.

(** ** What a procedure can emit *)

Lemma emits_ret {A} P (x : A) : emits P (ret x).
Proof. intros s. constructor. Qed.

Lemma emits_raise {A} P x : emits P (raise x : M A).
Proof. intros s. constructor. Qed.

Lemma emits_get P : emits P get.
Proof. intros s. constructor. Qed.

Lemma emits_modify P f : emits P (modify f).
Proof. intros s. constructor. Qed.

Lemma emits_tell (P : event → Prop) ev : P ev → emits P (tell ev).
Proof. intros H s. by repeat constructor. Qed.

Lemma emits_bind {A B} P (m : M A) (f : A → M B) :
  emits P m → (∀ x, emits P (f x)) → emits P (bind m f).
Proof.
  intros Hm Hf s. specialize (Hm s). unfold bind.
  destruct (m s) as [[s1 e1] [x|x]]; simpl in *; [|done].
  specialize (Hf x s1). destruct (f x s1) as [[s2 e2] r]. simpl in *.
  apply Forall_app. by split.
Qed.

Lemma emits_bind_raise {A B} P x (f : A → M B) : emits P (bind (raise x) f).
Proof. intros s. constructor. Qed.

Lemma emits_try P body handler :
  emits P body → emits P handler →
  emits P (try_except_KeyboardInterrupt body handler).
Proof.
  intros Hb Hh s. specialize (Hb s). unfold try_except_KeyboardInterrupt.
  destruct (body s) as [[s1 e1] [x|[]]]; simpl in *; try done.
  specialize (Hh s1). destruct (handler s1) as [[s2 e2] r]. simpl in *.
  apply Forall_app. by split.
Qed.

Lemma emits_impl {A} (P Q : event → Prop) (m : M A) :
  emits P m → (∀ ev, P ev → Q ev) → emits Q m.
Proof. intros Hm HPQ s. eapply Forall_impl; [apply Hm|done]. Qed.

Lemma emits_events {A} P (m : M A) s : emits P m → Forall P (events_of (m s)).
Proof. intros H. apply H. Qed.

Ltac emits_step :=
  lazymatch goal with
  | |- emits _ (bind _ _) => apply emits_bind; [|intros ?]
  | |- emits _ (ret _) => apply emits_ret
  | |- emits _ (raise _) => apply emits_raise
  | |- emits _ get => apply emits_get
  | |- emits _ (modify _) => apply emits_modify
  | |- emits _ (create_file _) => apply emits_modify
  | |- emits _ (tell _) => apply emits_tell
  | |- emits _ (log_info _) => apply emits_tell
  | |- emits _ (model_save _) => unfold model_save
  | |- emits _ (when _ _) => unfold when
  | |- emits _ (check_interrupt _ _) => unfold check_interrupt
  | |- emits _ (calculate_evaluation_results_for _ _ _) =>
      unfold calculate_evaluation_results_for
  | |- emits _ (if ?b then _ else _) => destruct b eqn:?
  | |- emits _ (match ?x with Some _ => _ | None => _ end) => destruct x eqn:?
  | |- emits _ (let '(_, _) := ?x in _) => destruct x eqn:?
  | |- emits _ _ => progress cbv zeta
  end; cbn beta iota zeta.

Ltac emits_run := repeat emits_step.

(** *** The events of the epoch loop *)

Lemma batch_loop_emits a e n modulo batches :
  Forall (λ b, 1 ≤ length b ≤ mini_batch_size a)%nat batches →
  ∀ b0 tl seen,
    emits (loop_event_of a) (batch_loop a e n modulo b0 batches tl seen).
Proof.
  induction 1 as [|batch rest Hb _ IH]; intros b0 tl seen; simpl.
  - apply emits_ret.
  - emits_run; bool_tidy; simpl; auto.
Qed.

Lemma train_one_epoch_emits a e lr bad :
  emits (loop_event_of a) (train_one_epoch a e lr bad).
Proof.
  unfold train_one_epoch, shuffle_train_data.
  emits_step; [emits_run|]. emits_step; [emits_run|].
  destruct (mini_batch_size a =? 0)%nat eqn:Hm.
  { apply emits_bind_raise. }
  apply Nat.eqb_neq in Hm.
  emits_step; [emits_run|]. cbv zeta.
  emits_step; [by apply batch_loop_emits, make_batches_bounds|].
  emits_run; simpl; auto.
Qed.

Lemma evaluate_epoch_emits a e lr bad tl :
  emits (loop_event_of a) (evaluate_epoch a e lr bad tl).
Proof.
  unfold evaluate_epoch. emits_run; bool_tidy; simpl; auto 10.
Qed.

Lemma epoch_body_emits a e prev :
  emits (loop_event_of a) (epoch_body a e prev).
Proof.
  unfold epoch_body. emits_run; bool_tidy; simpl; auto.
  all: first [ apply train_one_epoch_emits | apply evaluate_epoch_emits
             | by left | by right | idtac ].
Qed.

Lemma epoch_loop_emits a es :
  ∀ prev, emits (loop_event_of a) (epoch_loop a es prev).
Proof.
  induction es as [|e es IH]; intros prev; simpl.
  - apply emits_ret.
  - apply emits_bind; [apply epoch_body_emits|].
    intros [[] lr]; [apply emits_ret|apply IH].
Qed.

(** *** The events of the final part *)

Lemma eval_subcorpora_emits (subs : list (string * list Sentence)) :
  emits finish_event
    (foldr (λ sub k,
        calculate_evaluation_results_for sub.1 sub.2 (Some test_tsv) >> k)
        (ret tt) subs).
Proof.
  induction subs as [|sub subs IH]; simpl; [apply emits_ret|].
  emits_run; simpl; auto.
Qed.

Lemma final_test_emits a : emits finish_event (final_test a).
Proof.
  unfold final_test. emits_run; simpl; auto.
  all: first [ apply eval_subcorpora_emits | by left | idtac ].
Qed.

Lemma train_finish_emits a : emits finish_event (train_finish a).
Proof.
  unfold train_finish. emits_run; simpl; auto.
  all: first [ apply final_test_emits | by right | idtac ].
Qed.

(** ** The books of the epoch loop *)

Ltac observers :=
  unfold scheduler_scores, checkpoints, done_epochs, done_losses, loss_rows,
    saved_files, loaded_files, evaluated, batches_run, info_lines,
    epochs_started in *.

Lemma evaluate_epoch_books a e lr bad tl s :
  wp (evaluate_epoch a e lr bad tl) s (eval_phase a e tl s).
Proof.
  unfold evaluate_epoch, eval_phase, eval_current_score, eval_train_loss,
    eval_dev_score.
  destruct (monitor_train a), (train_with_dev a), (param_selection_mode a),
    (anneal_against_train_loss a), (checkpoint a);
    wp_run; evs_norm; bool_tidy; simpl in *;
    repeat match goal with
    | H : evaluate _ _ = (_, _) |- _ => rewrite H; clear H
    end; simpl;
    (split_and!;
     lazymatch goal with
     | |- _ ⊆ _ => sets
     | |- _ ∈ _ => sets
     | |- ∃ _, _ => first [ exists []; by rewrite app_nil_r | by eexists [_] ]
     | |- _ → _ => first [ done | intros _; sets | by intros _ ]
     | |- _ => done
     end).
Qed.

Lemma books_quiet_obs evs :
  Forall books_quiet evs →
  scheduler_scores evs = [] ∧ checkpoints evs = [] ∧ done_epochs evs = [] ∧
  done_losses evs = [] ∧ loss_rows evs = [].
Proof.
  intros H. observers.
  split_and!; (eapply omap_none; [exact H|]); by intros [].
Qed.

Lemma loop_books_quiet a s s' evs :
  files s ⊆ files s' → optim_hist_kept s s' → Forall books_quiet evs →
  loop_books a s s' evs.
Proof.
  intros Hf (_ & _ & H1 & H2 & H3) Hq.
  destruct (books_quiet_obs evs Hq) as (E1 & E2 & E3 & E4 & E5).
  unfold loop_books. rewrite E1, E2, E3, E4, E5, H1, H2, H3. simpl.
  split_and!; try done.
  - by destruct (param_selection_mode a).
  - exists []. rewrite app_nil_r. split_and!; try done.
    by destruct (checkpoint a && negb (param_selection_mode a)).
  - exists []. rewrite app_nil_r. split_and!; try done.
    + by destruct (train_with_dev a).
    + intros _. by destruct (train_with_dev a).
  - exists []. rewrite app_nil_r. split_and!; try done.
    by destruct (train_with_dev a).
Qed.

Lemma loop_books_trans a s s1 s2 e1 e2 :
  loop_books a s s1 e1 → loop_books a s1 s2 e2 → loop_books a s s2 (e1 ++ e2).
Proof.
  intros (Hf1 & Hc1 & Hs1 & Hr1 & (t1 & Ht1 & Htl1 & Hck1 & Hm1 & Ha1 & Hw1)
          & (d1 & Hd1 & Hdl1 & Hda1) & (l1 & Hl1 & Hll1))
         (Hf2 & Hc2 & Hs2 & Hr2 & (t2 & Ht2 & Htl2 & Hck2 & Hm2 & Ha2 & Hw2)
          & (d2 & Hd2 & Hdl2 & Hda2) & (l2 & Hl2 & Hll2)).
  unfold loop_books. observers. rewrite !omap_app, !length_app.
  split_and!.
  - sets.
  - intros Hne. destruct (omap _ e2) eqn:E2 in Hne.
    + rewrite app_nil_r in Hne. apply Hc1 in Hne. sets.
    + apply Hc2. by rewrite E2.
  - lia.
  - destruct (param_selection_mode a); lia.
  - exists (t1 ++ t2). rewrite Ht2, Ht1, <- app_assoc, length_app.
    split_and!; [done|lia| | | |].
    + rewrite Hck1, Hck2.
      destruct (checkpoint a && negb (param_selection_mode a)); [|done].
      rewrite fmap_app. symmetry. apply zip_with_app.
      rewrite length_fmap. lia.
    + intros Hm. by rewrite (Hm1 Hm), (Hm2 Hm).
    + intros Ha. by rewrite (Ha1 Ha), (Ha2 Ha).
    + intros Hp. destruct (Hw1 Hp) as [W1 W1'], (Hw2 Hp) as [W2 W2'].
      by rewrite !fmap_app, W1, W2, W1', W2'.
  - exists (d1 ++ d2). rewrite Hd2, Hd1, <- app_assoc, length_app.
    split_and!; [done| |].
    + destruct (train_with_dev a); lia.
    + intros Ha. specialize (Hda1 Ha). specialize (Hda2 Ha).
      destruct (train_with_dev a).
      * apply Forall_app. by split.
      * by rewrite Hda1, Hda2.
  - exists (l1 ++ l2). rewrite Hl2, Hl1, <- app_assoc, length_app.
    split; [done|]. destruct (train_with_dev a); lia.
Qed.

Lemma loop_books_refl a s : loop_books a s s [].
Proof.
  apply loop_books_quiet; [done|apply optim_hist_kept_refl|constructor].
Qed.

Lemma eval_phase_books a e tl lr bad s s' evs r :
  eval_phase a e tl s s' evs r →
  loop_books a s s' (EvEpochDone e tl lr bad :: evs).
Proof.
  intros (_ & _ & _ & Hf & Htl & Hds & (dl & Hdl & Hdll) & Hsc & Hck & Hckf
          & Hde & Hdlo & Hrows & Hrow & _ & _).
  unfold loop_books.
  change (scheduler_scores (EvEpochDone e tl lr bad :: evs))
    with (scheduler_scores evs).
  change (checkpoints (EvEpochDone e tl lr bad :: evs)) with (checkpoints evs).
  change (loss_rows (EvEpochDone e tl lr bad :: evs)) with (loss_rows evs).
  change (done_epochs (EvEpochDone e tl lr bad :: evs))
    with (e :: done_epochs evs).
  change (done_losses (EvEpochDone e tl lr bad :: evs))
    with (tl :: done_losses evs).
  rewrite Hsc, Hck, Hde, Hdlo, Hrows. simpl.
  split_and!; try done.
  - intros Hne. apply Hckf.
    by destruct (checkpoint a && negb (param_selection_mode a)).
  - exists [eval_train_loss a tl s]. split_and!; try done.
    + intros Hm. unfold eval_train_loss. by rewrite Hm.
    + intros Ha. unfold eval_current_score. by rewrite Ha.
  - eexists. split; [exact Hds|]. split.
    + by destruct (train_with_dev a).
    + intros Ha. unfold eval_current_score, eval_dev_score. rewrite Ha.
      destruct (train_with_dev a); [by repeat constructor|done].
  - exists dl. split; [done|]. by destruct (train_with_dev a).
Qed.

Lemma epoch_body_books a e prev s :
  wp (epoch_body a e prev) s (λ s' evs _, loop_books a s s' evs).
Proof.
  unfold epoch_body. wp_run; evs_norm.
  all: try (apply loop_books_quiet;
            [done|apply optim_hist_kept_refl|by repeat constructor]).
  all: eapply wp_mono; [apply train_one_epoch_spec|]; cbn beta;
    intros s1 evs1 r1 (_ & _ & Ho & [Hf _] & bevs & Hb & Hr);
    assert (Hq : Forall books_quiet bevs)
      by (eapply Forall_impl; [exact Hb|]; by intros []);
    destruct r1 as [tl|x].
  all: lazymatch goal with
       | |- wp _ _ _ =>
           destruct Hr as (-> & _);
           apply wp_bind; eapply wp_mono; [apply evaluate_epoch_books|];
           cbn beta; intros s2 eevs r2 Hev;
           assert (Hr2 : r2 = Ok tt) by apply Hev; subst r2;
           wp_run; evs_norm;
           eapply (eval_phase_books _ _ _ _ _) in Hev
       | _ => destruct Hr as (-> & _)
       end.
  all: lazymatch goal with
       | |- loop_books _ _ _ (?st :: ?i1 :: ?i2 :: (?b ++ [?d]) ++ ?ee) =>
           change (loop_books a s s2 (([st; i1; i2] ++ b ++ [d]) ++ ee));
           rewrite <- !app_assoc;
           apply (loop_books_trans a s s s2 [st; i1; i2]);
           [ apply loop_books_quiet; [done|apply optim_hist_kept_refl|by repeat constructor] |];
           apply (loop_books_trans a s s1 s2 b);
           [ by apply loop_books_quiet | exact Hev ]
       | |- loop_books _ _ _ (?st :: (?b ++ [?d]) ++ ?ee) =>
           change (loop_books a s s2 (([st] ++ b ++ [d]) ++ ee));
           rewrite <- !app_assoc;
           apply (loop_books_trans a s s s2 [st]);
           [ apply loop_books_quiet; [done|apply optim_hist_kept_refl|by repeat constructor] |];
           apply (loop_books_trans a s s1 s2 b);
           [ by apply loop_books_quiet | exact Hev ]
       | |- loop_books _ _ _ _ =>
           apply loop_books_quiet; [done|done|];
           repeat (constructor; [done|]); exact Hq
       end.
Qed.

Lemma epoch_loop_books a es :
  ∀ prev s, wp (epoch_loop a es prev) s (λ s' evs _, loop_books a s s' evs).
Proof.
  induction es as [|e es IH]; intros prev s; simpl.
  - wp_run. apply loop_books_refl.
  - apply wp_bind. eapply wp_mono; [apply epoch_body_books|]. cbn beta.
    intros s1 e1 r1 H1. destruct r1 as [[[] lr]|x]; cbn beta iota.
    + wp_run. by evs_norm.
    + eapply wp_mono; [apply IH|]. cbn beta. intros s2 e2 r2 H2.
      by eapply loop_books_trans.
    + done.
Qed.

(** ** The books of a whole run *)

Lemma finish_quiet evs : Forall finish_event evs → Forall books_quiet evs.
Proof. intros H. eapply Forall_impl; [exact H|]. by intros []. Qed.

Lemma after_loop_quiet a r : Forall books_quiet (after_loop_events a r).
Proof.
  unfold after_loop_events.
  destruct r as [|[]]; repeat case_match; by repeat constructor.
Qed.

Lemma after_loop_store_kept a r s :
  optim_hist_kept s (after_loop_store a r s) ∧
  corpus (after_loop_store a r s) = corpus s ∧
  model (after_loop_store a r s) = model s ∧
  files s ⊆ files (after_loop_store a r s).
Proof.
  unfold after_loop_store. destruct (saves_final a r); simpl.
  - split_and!; try done; sets.
  - split_and!; done.
Qed.

(** The run of the final part inside a run of [train] that returns. *)
Lemma train_returns_shape self a s d :
  result_of (train self a s) = Ok d →
  let r := result_of (loop_of self a s) in
  let fin := train_finish a
               (after_loop_store a r (store_of (loop_of self a s))) in
  (r = Ok tt ∨ r = Raise KeyboardInterrupt) ∧
  store_of (train self a s) = store_of fin ∧
  events_of (train self a s)
  = events_of (loop_of self a s) ++ after_loop_events a r ++ events_of fin ∧
  result_of fin = Ok d.
Proof.
  intros Hd. cbv zeta. rewrite (train_decompose self a s) in *.
  destruct (result_of (loop_of self a s)) as [[]|[]]; try done;
    (split_and!; [by auto|done|done|done]).
Qed.

Lemma train_books self a s d :
  result_of (train self a s) = Ok d →
  ∃ score,
    d = result_dict score (store_of (train self a s)) ∧
    loop_books a (loop_store self a s) (store_of (train self a s))
      (events_of (train self a s)).
Proof.
  intros Hd. destruct (train_returns_shape self a s d Hd) as (_ & Hs & He & Hr).
  rewrite Hs, He. clear Hs He Hd.
  pose proof (wp_elim _ _ _
    (epoch_loop_books a (py_range (0 + epoch self) (max_epochs a + epoch self))
       (learning_rate a) (loop_store self a s))) as Hloop.
  change (epoch_loop a _ _ (loop_store self a s)) with (loop_of self a s)
    in Hloop.
  set (r := result_of (loop_of self a s)) in *.
  set (s1 := store_of (loop_of self a s)) in *.
  destruct (after_loop_store_kept a r s1) as (Ho & _ & _ & Hf).
  pose proof (wp_elim _ _ _ (train_finish_spec a (after_loop_store a r s1)))
    as (_ & Ho2 & [Hf2 _] & _ & score & Hres & _).
  pose proof (emits_events _ _ (after_loop_store a r s1) (train_finish_emits a))
    as Hfin.
  rewrite Hr in Hres. injection Hres as ->.
  exists score. split; [done|].
  apply (loop_books_trans a _ s1); [exact Hloop|].
  apply loop_books_quiet.
  - sets.
  - by eapply optim_hist_kept_trans.
  - apply Forall_app. split; [apply after_loop_quiet|by apply finish_quiet].
Qed.

Lemma loop_store_histories self a s :
  train_loss_history (loop_store self a s) = [] ∧
  dev_score_history (loop_store self a s) = [] ∧
  dev_loss_history (loop_store self a s) = [].
Proof.
  by destruct (loop_store_post self a s) as (_&_&_&_&_&?&?&?&_).
Qed.

(** ** Properties of whole runs of [train]: the histories *)

(** X6: The per-epoch bookkeeping of a returning call is aligned: every epoch
    that reaches its "EPOCH n done" line steps the scheduler once and adds
    one entry to [train_loss_history]; it adds one entry to each of
    [dev_score_history] and [dev_loss_history] unless [train_with_dev] is
    set, in which case both stay empty; and it appends one row to
    [loss.tsv] unless [param_selection_mode] is set. *)
Theorem train_histories_count_epochs self a s d :
  result_of (train self a s) = Ok d →
  ∃ tl ds dl,
    dict_get d "train_loss_history" = Some (VList tl) ∧
    dict_get d "dev_score_history" = Some (VList ds) ∧
    dict_get d "dev_loss_history" = Some (VList dl) ∧
    length tl = epochs_done (events_of (train self a s)) ∧
    length ds = (if train_with_dev a then O
                 else epochs_done (events_of (train self a s))) ∧
    length dl = length ds ∧
    length (scheduler_scores (events_of (train self a s)))
    = epochs_done (events_of (train self a s)) ∧
    length (loss_rows (events_of (train self a s)))
    = (if param_selection_mode a then O
       else epochs_done (events_of (train self a s))).
Proof.
  intros Hd. destruct (train_books self a s d Hd) as (score & -> & Hb).
  destruct (loop_store_histories self a s) as (E1 & E2 & E3).
  destruct Hb as (_ & _ & Hs & Hr & (t & Ht & Htl & _)
                  & (ds & Hds & Hdsl & _) & (dl & Hdl & Hdll)).
  rewrite E1 in Ht. rewrite E2 in Hds. rewrite E3 in Hdl. simpl in *.
  exists t, ds, dl. unfold result_dict. simpl. rewrite Ht, Hds, Hdl.
  split_and!; try done. lia.
Qed.

(** X7: What the plateau scheduler is stepped with (lines 204-222): with
    [anneal_against_train_loss] the scores are exactly the returned
    [train_loss_history]; without it they are the returned
    [dev_score_history], and when the dev split is merged into the training
    data ([train_with_dev]) there is no dev score and the scheduler is
    stepped with the constant 0 in every epoch. *)
Theorem scheduler_is_stepped_with_history self a s d :
  result_of (train self a s) = Ok d →
  if anneal_against_train_loss a
  then dict_get d "train_loss_history"
       = Some (VList (scheduler_scores (events_of (train self a s))))
  else if train_with_dev a
       then Forall (λ q, q = 0%Q)
              (scheduler_scores (events_of (train self a s)))
       else dict_get d "dev_score_history"
            = Some (VList (scheduler_scores (events_of (train self a s)))).
Proof.
  intros Hd. destruct (train_books self a s d Hd) as (score & -> & Hb).
  destruct (loop_store_histories self a s) as (E1 & E2 & E3).
  destruct Hb as (_ & _ & _ & _ & (t & Ht & _ & _ & _ & Hta & _)
                  & (ds & Hds & _ & Hda) & _).
  rewrite E1 in Ht. rewrite E2 in Hds. simpl in *.
  unfold result_dict. simpl. rewrite Ht, Hds.
  destruct (anneal_against_train_loss a).
  - by rewrite Hta.
  - specialize (Hda eq_refl). destruct (train_with_dev a); [done|].
    by rewrite Hda.
Qed.




(** ** Properties of whole runs of [train]: how a run ends *)

Lemma loop_of_emits self a s :
  Forall (loop_event_of a) (events_of (loop_of self a s)).
Proof. unfold loop_of. apply emits_events, epoch_loop_emits. Qed.

Lemma finish_emits a s : Forall finish_event (events_of (train_finish a s)).
Proof. apply emits_events, train_finish_emits. Qed.

Lemma final_save_not_in_loop self a s :
  EvSave final_model_pt ∉ events_of (loop_of self a s).
Proof.
  eapply not_elem_of_Forall; [apply loop_of_emits|]. simpl. by intros [? _].
Qed.

Lemma interrupted_not_in_loop self a s :
  EvInfo interrupted_msg ∉ events_of (loop_of self a s).
Proof.
  eapply not_elem_of_Forall; [apply loop_of_emits|]. simpl. by intros [|].
Qed.

Lemma final_save_not_in_finish a s :
  EvSave final_model_pt ∉ events_of (train_finish a s).
Proof. eapply not_elem_of_Forall; [apply finish_emits|]. by intros []. Qed.

Lemma interrupted_not_in_finish a s :
  EvInfo interrupted_msg ∉ events_of (train_finish a s).
Proof.
  eapply not_elem_of_Forall; [apply finish_emits|]. simpl. by intros [|].
Qed.

(** X12: [final-model.pt] (lines 237-246): a returning call saves the final
    model exactly when it is not in [param_selection_mode] and either
    [save_final_model] is set or the epoch loop was interrupted; the
    interruption handler saves it whatever [save_final_model] says.  The
    file then exists. *)
Theorem final_model_saved_iff self a s d :
  result_of (train self a s) = Ok d →
  (EvSave final_model_pt ∈ events_of (train self a s) ↔
   param_selection_mode a = false ∧
   (save_final_model a = true
    ∨ EvInfo interrupted_msg ∈ events_of (train self a s))) ∧
  (EvSave final_model_pt ∈ events_of (train self a s) →
   final_model_pt ∈ files (store_of (train self a s))).
Proof.
  intros Hd. destruct (train_returns_shape self a s d Hd) as (Hr & Hs & He & _).
  rewrite He, Hs.
  set (r := result_of (loop_of self a s)) in *.
  set (s1 := store_of (loop_of self a s)) in *.
  pose proof (final_save_not_in_loop self a s) as N1.
  pose proof (interrupted_not_in_loop self a s) as N2.
  pose proof (final_save_not_in_finish a (after_loop_store a r s1)) as N3.
  pose proof (interrupted_not_in_finish a (after_loop_store a r s1)) as N4.
  pose proof (wp_elim _ _ _ (train_finish_spec a (after_loop_store a r s1)))
    as (_ & _ & [Hf _] & _).
  assert (Hmid : EvSave final_model_pt ∈ after_loop_events a r ↔
                 param_selection_mode a = false ∧
                 (save_final_model a = true
                  ∨ EvInfo interrupted_msg ∈ after_loop_events a r)).
  { unfold after_loop_events.
    destruct Hr as [-> | ->], (save_final_model a), (param_selection_mode a);
      simpl; split.
    all: try (intros Hin; exfalso; revert Hin; not_in_events).
    all: try (intros [? [?|Hin]]; try done; exfalso; revert Hin;
              not_in_events).
    all: try (intros _; split; [done|]; first [by left | right; in_events]).
    all: intros _; in_events. }
  assert (Hsaved : EvSave final_model_pt ∈ after_loop_events a r →
                   final_model_pt ∈ files (after_loop_store a r s1)).
  { unfold after_loop_events, after_loop_store, saves_final.
    destruct Hr as [-> | ->], (save_final_model a), (param_selection_mode a);
      simpl; intros Hin; try sets.
    all: exfalso; revert Hin; not_in_events. }
  rewrite !elem_of_app. split; [split|].
  - intros [?|[Hin|?]]; try done. apply Hmid in Hin as [? [?|?]]; auto.
  - intros [Hp [Hsv|[?|[Hin|?]]]]; try done; right; left; apply Hmid; auto.
  - intros [?|[Hin|?]]; try done. apply Hsaved in Hin. sets.
Qed.

Lemma py_range_nil lo hi : (hi ≤ lo)%Z → py_range lo hi = [].
Proof.
  intros H. unfold py_range. by replace (Z.to_nat (hi - lo)) with O by lia.
Qed.

Lemma py_range_cons lo hi :
  (lo < hi)%Z → py_range lo hi = lo :: py_range (lo + 1) hi.
Proof.
  intros H. unfold py_range.
  replace (Z.to_nat (hi - lo)) with (S (Z.to_nat (hi - (lo + 1)))) by lia.
  simpl. f_equal; [lia|]. rewrite <- fmap_S_seq, <- list_fmap_compose.
  apply list_fmap_ext. intros i x _. simpl. lia.
Qed.

Lemma loop_store_first_lr self a s :
  List.last (param_groups (loop_store self a s)) (learning_rate a)
  = initial_learning_rate self a.
Proof.
  destruct (loop_store_post self a s) as (_&_&_&_&_&_&_&_&Hpg&_).
  by rewrite Hpg.
Qed.

(** The training phase of an epoch on an empty training list. *)
Lemma train_one_epoch_empty a e lr bad s :
  train_data s = [] → mini_batch_size a ≠ O →
  interrupt e 0 = false →
  wp (train_one_epoch a e lr bad) s (λ _ evs r,
    evs = [] ∧ r = Raise ZeroDivisionError).
Proof.
  intros Hnil Hm Hi. unfold train_one_epoch, shuffle_train_data, set_train.
  assert (Hb : make_batches (@nil Sentence) (mini_batch_size a) = []).
  { unfold make_batches, py_range_step. simpl.
    rewrite Nat.div_small by lia. done. }
  assert (Hsh : ∀ c, shuffle rand c (@nil Sentence) = []) by done.
  wp_run; nat_eqb; simpl in *; try done.
  all: rewrite ?Hnil in *; simpl in *; rewrite ?Hsh, ?Hb in *; simpl in *.
  all: wp_run; nat_eqb; simpl in *; try done.
  all: rewrite ?Hi in *; try done.
Qed.

(** The training phase of an epoch with a zero batch size. *)
Lemma train_one_epoch_zero_batch a e lr bad s :
  mini_batch_size a = O →
  wp (train_one_epoch a e lr bad) s (λ _ evs r,
    evs = [] ∧ r = Raise ValueError).
Proof.
  intros Hm. unfold train_one_epoch, shuffle_train_data.
  wp_run; nat_eqb; simpl in *; done.
Qed.

(** A first epoch whose training phase raises [x] before any event. *)
Lemma first_epoch_raises self a s x :
  (0 < max_epochs a)%Z →
  ¬ (initial_learning_rate self a < lr_floor)%Q →
  (∀ lr bad s1, train_data s1 = train_data (loop_store self a s) →
     wp (train_one_epoch a (epoch self) lr bad) s1 (λ _ evs r,
       evs = [] ∧ r = Raise x)) →
  result_of (loop_of self a s) = Raise x ∧
  ∃ pre, Forall info_event pre ∧
    events_of (loop_of self a s)
    = EvEpochStart (epoch self) (initial_learning_rate self a) :: pre.
Proof.
  intros Hmax Hlr Hraise. unfold loop_of.
  rewrite py_range_cons by lia. cbn [epoch_loop].
  replace (0 + epoch self)%Z with (epoch self) by lia.
  apply (wp_elim _ _ (λ _ evs r,
           r = Raise x ∧ ∃ pre, Forall info_event pre ∧
           evs = EvEpochStart (epoch self) (initial_learning_rate self a)
                   :: pre)).
  apply wp_bind. unfold epoch_body.
  assert (Hfl : Qltb (initial_learning_rate self a) lr_floor = false).
  { destruct (Qltb _ _) eqn:E; [|done]. by apply Qltb_lt in E. }
  wp_step. wp_step. cbv zeta. rewrite loop_store_first_lr, Hfl.
  wp_run; evs_norm.
  all: eapply wp_mono; [by apply Hraise|]; cbn beta;
    intros ? ? ? [-> ->]; simpl; split; [done|];
    eexists; (split; [|reflexivity]); by repeat constructor.
Qed.

Lemma train_first_epoch_raises self a s x :
  x ≠ KeyboardInterrupt →
  (0 < max_epochs a)%Z →
  ¬ (initial_learning_rate self a < lr_floor)%Q →
  (∀ lr bad s1, train_data s1 = train_data (loop_store self a s) →
     wp (train_one_epoch a (epoch self) lr bad) s1 (λ _ evs r,
       evs = [] ∧ r = Raise x)) →
  result_of (train self a s) = Raise x ∧
  ∃ pre, Forall info_event pre ∧
    events_of (train self a s)
    = EvEpochStart (epoch self) (initial_learning_rate self a) :: pre.
Proof.
  intros Hx Hmax Hlr Hraise.
  destruct (first_epoch_raises self a s x Hmax Hlr Hraise) as (Hr & pre & Hp & He).
  rewrite (train_decompose self a s), Hr.
  destruct x; try done; simpl; (split; [done|]); by exists pre.
Qed.

(** X5: Training on no data (line 168): a call that gets to its first epoch
    (a positive [max_epochs], a learning rate not below the floor) with a
    usable batch size and an empty training list, is not interrupted
    there and raises ZeroDivisionError at [train_loss /= len(train_data)].
    Nothing is caught: the epoch has started, but no model is saved and no
    final test is run. *)
Theorem train_on_empty_training_data self a s :
  (0 < max_epochs a)%Z →
  ¬ (initial_learning_rate self a < lr_floor)%Q →
  mini_batch_size a ≠ O →
  corpus_train (corpus s) = [] →
  (train_with_dev a = true → corpus_dev (corpus s) = []) →
  interrupt (epoch self) 0 = false →
  result_of (train self a s) = Raise ZeroDivisionError ∧
  epochs_started (events_of (train self a s)) = [epoch self] ∧
  saved_files (events_of (train self a s)) = [] ∧
  EvFinalTest ∉ events_of (train self a s).
Proof.
  intros Hmax Hlr Hm Hnil Hdev Hi.
  destruct (train_first_epoch_raises self a s ZeroDivisionError)
    as (Hr & pre & Hp & He); try done.
  { intros lr bad s1 Hc. apply train_one_epoch_empty; try done.
    rewrite Hc. destruct (loop_store_post self a s) as (-> & _).
    rewrite Hnil. destruct (train_with_dev a); [by rewrite Hdev|done]. }
  rewrite He. split_and!; [done| | |].
  - observers. simpl. f_equal. eapply omap_none; [exact Hp|]. by intros [].
  - observers. simpl. eapply omap_none; [exact Hp|]. by intros [].
  - apply not_elem_of_cons. split; [done|].
    eapply not_elem_of_Forall; [exact Hp|]. by intros [].
Qed.

(** X4: A zero batch size (line 140): a call that gets to its first epoch with
    [mini_batch_size = 0] raises ValueError, from [range] with step 0, and
    nothing is caught: the epoch has started, but no batch is processed,
    no model is saved and no final test is run. *)
Theorem train_with_zero_batch_size self a s :
  (0 < max_epochs a)%Z →
  ¬ (initial_learning_rate self a < lr_floor)%Q →
  mini_batch_size a = O →
  result_of (train self a s) = Raise ValueError ∧
  epochs_started (events_of (train self a s)) = [epoch self] ∧
  batches_run (events_of (train self a s)) = [] ∧
  saved_files (events_of (train self a s)) = [] ∧
  EvFinalTest ∉ events_of (train self a s).
Proof.
  intros Hmax Hlr Hm.
  destruct (train_first_epoch_raises self a s ValueError)
    as (Hr & pre & Hp & He); try done.
  { intros lr bad s1 _. by apply train_one_epoch_zero_batch. }
  rewrite He. split_and!; [done| | | |].
  - observers. simpl. f_equal. eapply omap_none; [exact Hp|]. by intros [].
  - observers. simpl. eapply omap_none; [exact Hp|]. by intros [].
  - observers. simpl. eapply omap_none; [exact Hp|]. by intros [].
  - apply not_elem_of_cons. split; [done|].
    eapply not_elem_of_Forall; [exact Hp|]. by intros [].
Qed.

Lemma loop_of_idle self a s :
  (max_epochs a ≤ 0)%Z ∨ (initial_learning_rate self a < lr_floor)%Q →
  result_of (loop_of self a s) = Ok tt ∧
  store_of (loop_of self a s) = loop_store self a s ∧
  Forall idle_event (events_of (loop_of self a s)).
Proof.
  intros Hcond. unfold loop_of.
  destruct (Z_le_gt_dec (max_epochs a) 0) as [Hle|Hgt].
  { rewrite py_range_nil by lia. by repeat split. }
  destruct Hcond as [?|Hlr]; [lia|].
  rewrite py_range_cons by lia. cbn [epoch_loop].
  apply (wp_elim _ _ (λ s' evs r,
           r = Ok tt ∧ s' = loop_store self a s ∧ Forall idle_event evs)).
  apply wp_bind. unfold epoch_body.
  apply Qltb_lt in Hlr.
  wp_step. wp_step. cbv zeta. rewrite loop_store_first_lr, Hlr.
  wp_run; evs_norm; split_and!; try done; by repeat constructor.
Qed.

(** X3: A call that trains nothing: with [max_epochs <= 0] the epoch loop has
    no iteration, and with a first learning rate below the floor it is left
    at once.  Either way the call still returns, with three empty
    histories; no batch is processed and the scheduler is never stepped,
    but the (untrained) final model is saved as for any other run. *)
Theorem train_without_training self a s :
  (max_epochs a ≤ 0)%Z ∨ (initial_learning_rate self a < lr_floor)%Q →
  (∃ score,
     result_of (train self a s)
     = Ok [("test_score", VNum score); ("dev_score_history", VList []);
           ("train_loss_history", VList []); ("dev_loss_history", VList [])]) ∧
  batches_run (events_of (train self a s)) = [] ∧
  scheduler_scores (events_of (train self a s)) = [] ∧
  saved_files (events_of (train self a s))
  = (if save_final_model a && negb (param_selection_mode a)
     then [final_model_pt] else []).
Proof.
  intros Hcond. destruct (loop_of_idle self a s Hcond) as (Hr & Hs & Hev).
  rewrite (train_decompose self a s), Hr, Hs. cbv zeta.
  set (s2 := after_loop_store a (Ok ()) (loop_store self a s)).
  pose proof (wp_elim _ _ _ (train_finish_spec a s2))
    as (_ & (_ & _ & H1 & H2 & H3) & _ & _ & score & Hres & _).
  pose proof (finish_emits a s2) as Hfin.
  destruct (after_loop_store_kept a (Ok ()) (loop_store self a s))
    as ((_ & _ & K1 & K2 & K3) & _).
  destruct (loop_store_histories self a s) as (E1 & E2 & E3).
  fold s2 in K1, K2, K3.
  split_and!.
  - exists score. change (result_of (_, _, ?r)) with r. rewrite Hres.
    unfold result_dict. by rewrite H1, H2, H3, K1, K2, K3, E1, E2, E3.
  - change (events_of (_, ?e, _)) with e. observers. rewrite !omap_app.
    rewrite (omap_none _ _ _ Hev), (omap_none _ _ _ Hfin);
      [|by intros []..].
    unfold after_loop_events. by repeat case_match.
  - change (events_of (_, ?e, _)) with e. observers. rewrite !omap_app.
    rewrite (omap_none _ _ _ Hev), (omap_none _ _ _ Hfin);
      [|by intros []..].
    unfold after_loop_events. by repeat case_match.
  - change (events_of (_, ?e, _)) with e. observers. rewrite !omap_app.
    rewrite (omap_none _ _ _ Hev), (omap_none _ _ _ Hfin);
      [|by intros []..].
    unfold after_loop_events. by repeat case_match.
Qed.

(** ** The final test *)

Lemma eval_subcorpora_run (subs : list (string * list Sentence)) : ∀ s,
  wp (foldr (λ sub k,
        calculate_evaluation_results_for sub.1 sub.2 (Some test_tsv) >> k)
        (ret tt) subs) s
    (λ s' evs r,
      r = Ok tt ∧ model s' = model s ∧ corpus s' = corpus s ∧
      evaluated evs = subs.*1 ∧ loaded_files evs = []).
Proof.
  induction subs as [|sub subs IH]; intros s; simpl.
  - wp_run. by split_and!.
  - wp_run. eapply wp_mono; [apply IH|]. cbn beta.
    intros s' evs r (-> & Hm & Hc & He & Hl). evs_norm.
    split_and!; try done.
    observers. simpl. by f_equal.
Qed.

Lemma final_test_run a s :
  wp (final_test a) s (λ s' evs r,
    let w := if file_exists best_model_pt s
             then model_load (model s) else model s in
    r = Ok (metric_score (evaluation_metric a)
              (evaluate w (corpus_test (corpus s))).1) ∧
    model s' = w ∧ corpus s' = corpus s ∧
    loaded_files evs
    = (if file_exists best_model_pt s then [best_model_pt] else []) ∧
    evaluated evs
    = match corpora (corpus s) with Some subs => subs.*1 | None => [] end).
Proof.
  unfold final_test. wp_run; evs_norm; simpl in *.
  all: try (eapply wp_mono; [apply eval_subcorpora_run|]; cbn beta;
            intros s' evs r (-> & Hm & Hc & He & Hl); wp_run; evs_norm).
  all: repeat match goal with
       | H : evaluate _ _ = (_, _) |- _ => rewrite H; clear H
       end; simpl.
  all: split_and!; try done.
  all: observers; simpl; rewrite ?omap_app, ?He, ?Hl; simpl;
       rewrite ?app_nil_r;
       repeat match goal with
       | H : corpora _ = _ |- _ => rewrite H; clear H
       end; done.
Qed.

(** X14: [final_test] (lines 260-308): it loads [best-model.pt] when, and only
    when, a file of that name exists in [base_path], and makes the loaded
    model the trainer's model; the score it returns is the aggregate that
    [evaluation_metric] selects, of that model evaluated on the corpus's
    test split; for a MultiCorpus it then evaluates every sub-corpus, once
    each and in order.  It never raises. *)
Theorem final_test_scores_best_model a s :
  let w := if file_exists best_model_pt s
           then model_load (model s) else model s in
  result_of (final_test a s)
  = Ok (metric_score (evaluation_metric a)
          (evaluate w (corpus_test (corpus s))).1) ∧
  model (store_of (final_test a s)) = w ∧
  (EvLoad best_model_pt ∈ events_of (final_test a s)
   ↔ best_model_pt ∈ files s) ∧
  evaluated (events_of (final_test a s))
  = match corpora (corpus s) with Some subs => subs.*1 | None => [] end.
Proof.
  pose proof (wp_elim _ _ _ (final_test_run a s)) as (Hr & Hm & _ & Hl & He).
  cbv zeta in *. split_and!; try done.
  assert (Hin : ∀ evs f, EvLoad f ∈ evs ↔ f ∈ loaded_files evs).
  { intros evs f. unfold loaded_files. rewrite list_elem_of_omap. split.
    - intros Hin. by exists (EvLoad f).
    - intros (ev & Hin & Hev). destruct ev; try done. by simplify_eq. }
  rewrite Hin, Hl. unfold file_exists. case_bool_decide.
  - split; [done|]. intros _. apply list_elem_of_here.
  - split; [|done]. intros H'. by apply elem_of_nil in H'.
Qed.

Lemma train_finish_with_test a s :
  truthy (corpus_test (corpus s)) = true →
  store_of (train_finish a s) = store_of (final_test a s) ∧
  events_of (train_finish a s) = events_of (final_test a s) ∧
  result_of (train_finish a s)
  = match result_of (final_test a s) with
    | Ok q => Ok (result_dict q (store_of (final_test a s)))
    | Raise x => Raise x
    end.
Proof.
  intros Ht. unfold train_finish, bind, get. simpl. rewrite Ht.
  destruct (final_test a s) as [[s' evs] [q|x]]; simpl; [|done].
  unfold store_of, events_of, result_of, result_dict. simpl.
  by rewrite app_nil_r.
Qed.

Lemma truthy_true {A} (l : list A) : l ≠ [] → truthy l = true.
Proof. by destruct l. Qed.

Lemma loop_of_kept self a s :
  corpus_test (corpus (store_of (loop_of self a s))) = corpus_test (corpus s) ∧
  corpus_dev (corpus (store_of (loop_of self a s))) = corpus_dev (corpus s) ∧
  corpora (corpus (store_of (loop_of self a s))) = corpora (corpus s) ∧
  files (loop_store self a s) ⊆ files (store_of (loop_of self a s)).
Proof.
  pose proof (wp_elim _ _ _
    (epoch_loop_run a (py_range (0 + epoch self) (max_epochs a + epoch self))
       (learning_rate a) (loop_store self a s))) as Hloop.
  apply loop_run_kept in Hloop as ((_ & Hd & Ht & Hc & _) & _ & [Hf _]).
  destruct (loop_store_post self a s) as (_ & Hd0 & Ht0 & Hc0 & _).
  unfold loop_of. rewrite Ht, Hd, Hc. by split_and!.
Qed.

(** X15: The returned test score (lines 249-250): when the corpus has a test
    split, a returning call runs the final test, and ['test_score'] is the
    aggregate that [evaluation_metric] selects, of the model the trainer
    holds after the call (the reloaded best model if [best-model.pt]
    exists) evaluated on the corpus's test split. *)
Theorem train_test_score_is_final_test self a s d :
  result_of (train self a s) = Ok d →
  corpus_test (corpus s) ≠ [] →
  EvFinalTest ∈ events_of (train self a s) ∧
  dict_get d "test_score"
  = Some (VNum (metric_score (evaluation_metric a)
                  (evaluate (model (store_of (train self a s)))
                     (corpus_test (corpus s))).1)).
Proof.
  intros Hd Htest.
  destruct (train_returns_shape self a s d Hd) as (_ & Hs & He & Hr).
  set (r := result_of (loop_of self a s)) in *.
  set (s1 := store_of (loop_of self a s)) in *.
  destruct (after_loop_store_kept a r s1) as (_ & Hc & _).
  destruct (loop_of_kept self a s) as (Ht1 & _).
  assert (Ht2 : corpus_test (corpus (after_loop_store a r s1))
                = corpus_test (corpus s)) by (by rewrite Hc).
  destruct (train_finish_with_test a (after_loop_store a r s1))
    as (Fs & Fe & Fr); [rewrite Ht2; by apply truthy_true|].
  pose proof (wp_elim _ _ _ (final_test_run a (after_loop_store a r s1)))
    as (Hq & Hm & _). cbv zeta in Hq, Hm.
  pose proof (wp_elim _ _ _ (final_test_spec a (after_loop_store a r s1)))
    as (_ & _ & _ & _ & Hin & _).
  rewrite Fr, Hq in Hr. injection Hr as <-.
  rewrite He, Hs, Fs, Fe, Hm, Ht2. split; [|done].
  rewrite !elem_of_app. by right; right.
Qed.

(** ** The training data *)

(** X1: Mini-batches (lines 140 and 364): for a positive batch size the slices
    [train_data[x:x + mini_batch_size]] partition the training list in
    order; there are [ceil(len / mini_batch_size)] of them; none is empty
    or longer than [mini_batch_size]; and every one except the last has
    exactly [mini_batch_size] examples. *)
Theorem make_batches_partitions {A} (train_data : list A) mini_batch_size :
  mini_batch_size ≠ O →
  concat (make_batches train_data mini_batch_size) = train_data ∧
  length (make_batches train_data mini_batch_size)
  = ((length train_data + mini_batch_size - 1) / mini_batch_size)%nat ∧
  Forall (λ b, 1 ≤ length b ≤ mini_batch_size)%nat
    (make_batches train_data mini_batch_size) ∧
  (∀ i, (S i < length (make_batches train_data mini_batch_size))%nat →
        ∃ b, make_batches train_data mini_batch_size !! i = Some b ∧
             length b = mini_batch_size).
Proof.
  intros Hm. split_and!.
  - apply make_batches_concat. lia.
  - apply make_batches_length.
  - by apply make_batches_bounds.
  - intros i Hi. eexists. split; [apply make_batches_lookup; lia|].
    rewrite make_batches_length in Hi.
    apply py_range_step_bound in Hi; [|done].
    rewrite length_take, length_drop. lia.
Qed.

(** X2: [train_with_dev] on a plain corpus (lines 98-102): the training
    split of a plain [Corpus] is a list attribute, so [train_data] is the
    corpus's own training list and [train_data.extend(self.corpus.dev)]
    lengthens the corpus's training split for good, whether the call
    returns or raises; the dev split itself stays.  A second call with
    [train_with_dev] therefore trains on the dev examples twice.  (A
    [MultiCorpus] builds its [train] anew on each access and is not
    covered here.) *)
Theorem train_with_dev_extends_training_split self a s :
  corpora (corpus s) = None →
  train_with_dev a = true →
  corpus_train (corpus (store_of (train self a s)))
  ≡ₚ corpus_train (corpus s) ++ corpus_dev (corpus s) ∧
  corpus_dev (corpus (store_of (train self a s))) = corpus_dev (corpus s) ∧
  ∀ self' a', train_with_dev a' = true →
    corpus_train
      (corpus (store_of (train self' a' (store_of (train self a s)))))
    ≡ₚ corpus_train (corpus s) ++ corpus_dev (corpus s)
       ++ corpus_dev (corpus s).
Proof.
  intros Hplain Htwd.
  destruct (train_corpus self a s Hplain) as (Hp & Hd & _ & Hc & _).
  rewrite Htwd in Hp. split_and!; [done|done|].
  intros self' a' Htwd'.
  destruct (train_corpus self' a' (store_of (train self a s))) as (Hp' & _);
    [congruence|].
  rewrite Htwd' in Hp'. by rewrite Hp', Hp, Hd, <- app_assoc.
Qed.

(** ** [anneal_with_restarts] *)

Lemma same_run_bind {A B} (m m' : M A) (k k' : A → M B) :
  same_run m m' → (∀ x, same_run (k x) (k' x)) →
  same_run (bind m k) (bind m' k').
Proof.
  intros Hm Hk s. unfold bind. rewrite Hm.
  destruct (m' s) as [[s1 e1] [x|x]]; [|done]. by rewrite Hk.
Qed.

Lemma same_run_steady {A} (m m' : M A) : same_run m m' → same_steady m m'.
Proof. intros H s. by rewrite H. Qed.

Lemma steady_app l1 l2 : steady (l1 ++ l2) = steady l1 ++ steady l2.
Proof. apply omap_app. Qed.

Lemma same_steady_bind {A B} (m m' : M A) (k k' : A → M B) :
  same_steady m m' → (∀ x, same_steady (k x) (k' x)) →
  same_steady (bind m k) (bind m' k').
Proof.
  intros Hm Hk s. unfold bind. destruct (Hm s) as (Hs & Hr & He).
  destruct (m s) as [[s1 e1] r1], (m' s) as [[s1' e1'] r1']. simpl in *.
  subst s1' r1'. destruct r1 as [x|x]; [|done].
  destruct (Hk x s1) as (Hs2 & Hr2 & He2).
  destruct (k x s1) as [[s2 e2] r2], (k' x s1) as [[s2' e2'] r2']. simpl in *.
  rewrite !steady_app. by rewrite He, He2.
Qed.

Lemma same_steady_try body body' handler handler' :
  same_steady body body' → same_steady handler handler' →
  same_steady (try_except_KeyboardInterrupt body handler)
    (try_except_KeyboardInterrupt body' handler').
Proof.
  intros Hb Hh s. unfold try_except_KeyboardInterrupt.
  destruct (Hb s) as (Hs & Hr & He).
  destruct (body s) as [[s1 e1] r1], (body' s) as [[s1' e1'] r1'].
  simpl in *. subst s1' r1'. destruct r1 as [x|[]]; try done.
  destruct (Hh s1) as (Hs2 & Hr2 & He2).
  destruct (handler s1) as [[s2 e2] r2], (handler' s1) as [[s2' e2'] r2'].
  simpl in *. rewrite !steady_app. by rewrite He, He2.
Qed.

Lemma same_steady_refl {A} (m : M A) : same_steady m m.
Proof. by intros s. Qed.

Lemma batch_loop_restarts a e n modulo batches : ∀ b0 tl seen,
  same_run (batch_loop (without_restarts a) e n modulo b0 batches tl seen)
    (batch_loop a e n modulo b0 batches tl seen).
Proof.
  induction batches as [|batch rest IH]; intros b0 tl seen; [done|].
  simpl. apply same_run_bind; [done|]. intros _.
  apply same_run_bind; [done|]. intros s.
  destruct (forward_backward_step (model s) (param_groups s) batch).
  repeat (apply same_run_bind; [done|]; intros ?). apply IH.
Qed.

Lemma train_one_epoch_restarts a e lr bad :
  same_run (train_one_epoch (without_restarts a) e lr bad)
    (train_one_epoch a e lr bad).
Proof.
  unfold train_one_epoch. simpl.
  repeat (apply same_run_bind; [done|]; intros ?).
  apply same_run_bind; [apply batch_loop_restarts|]. by intros [? ?].
Qed.

Lemma epoch_body_restarts a e prev :
  same_steady (epoch_body (without_restarts a) e prev) (epoch_body a e prev).
Proof.
  unfold epoch_body.
  apply same_steady_bind; [apply same_steady_refl|]. intros s. cbv zeta.
  apply same_steady_bind; [apply same_steady_refl|]. intros _.
  apply same_steady_bind.
  { cbn [anneal_with_restarts without_restarts]. rewrite andb_false_r.
    intros s'. unfold when. simpl.
    by destruct (_ && _ && file_exists best_model_pt s). }
  intros _. case_match; [apply same_steady_refl|].
  apply same_steady_bind;
    [apply same_run_steady, train_one_epoch_restarts|].
  intros tl. apply same_steady_refl.
Qed.

Lemma epoch_loop_restarts a es : ∀ prev,
  same_steady (epoch_loop (without_restarts a) es prev) (epoch_loop a es prev).
Proof.
  induction es as [|e es IH]; intros prev; simpl; [apply same_steady_refl|].
  apply same_steady_bind; [apply epoch_body_restarts|].
  intros [[] lr]; [apply same_steady_refl|apply IH].
Qed.

(** X13: [anneal_with_restarts] (lines 123-126): the model that
    [self.model.load] reads back from [best-model.pt] is dropped (line 126
    does not assign it, unlike line 272 of [final_test]), so the flag
    changes nothing but the log.  A call with the flag and the same call
    without it end in the same store (the same model, corpus and files)
    with the same result, and apart from log lines and model loads they
    emit the same events. *)
Theorem anneal_with_restarts_only_logs self a s :
  store_of (train self (without_restarts a) s) = store_of (train self a s) ∧
  result_of (train self (without_restarts a) s) = result_of (train self a s) ∧
  steady (events_of (train self (without_restarts a) s))
  = steady (events_of (train self a s)).
Proof.
  assert (H : same_steady (train self (without_restarts a)) (train self a)).
  { unfold train.
    apply same_steady_bind; [apply same_steady_refl|]. intros _.
    apply same_steady_bind; [|intros _; apply same_steady_refl].
    apply same_steady_try; [|apply same_steady_refl].
    apply same_steady_bind; [apply epoch_loop_restarts|].
    intros _. apply same_steady_refl. }
  apply H.
Qed.

(** ** Resuming from a checkpoint *)

Lemma train_events_prefix self a s :
  ∃ rest, events_of (train self a s) = events_of (loop_of self a s) ++ rest.
Proof.
  rewrite (train_decompose self a s).
  destruct (result_of (loop_of self a s)) as [[]|[]]; simpl;
    first [ by eexists | exists []; by rewrite app_nil_r ].
Qed.

Lemma first_epoch_start self a s :
  (0 < max_epochs a)%Z →
  ∃ rest, events_of (loop_of self a s)
          = EvEpochStart (epoch self) (initial_learning_rate self a) :: rest.
Proof.
  intros Hmax. unfold loop_of. rewrite py_range_cons by lia.
  cbn [epoch_loop]. replace (0 + epoch self)%Z with (epoch self) by lia.
  apply (wp_elim _ _ (λ _ evs _, ∃ rest,
           evs = EvEpochStart (epoch self) (initial_learning_rate self a)
                   :: rest)).
  apply wp_bind. unfold epoch_body. wp_step. wp_step. cbv zeta.
  rewrite loop_store_first_lr. wp_step. wp_step.
  match goal with |- wp ?m ?s0 _ => destruct (m s0) as [[s1 e1] r1] eqn:E end.
  unfold wp. rewrite E. simpl.
  destruct r1 as [[[] lr]|x]; simpl.
  - unfold wp. simpl. by eexists.
  - unfold wp.
    match goal with |- context [events_of ?o] => destruct o as [[? ?] ?] end.
    simpl. by eexists.
  - by eexists.
Qed.

(** X16: A session restored by [load_from_checkpoint] (lines 332-336) and then
    trained: the epoch loop starts at the epoch index the checkpoint
    holds, and the first learning rate is the one of the restored optimizer
    state (its last parameter group), not the [learning_rate] argument of
    [train].  The restored [loss] is never read: [train] does the same for
    every value of it. *)
Theorem resumed_training_starts_at_checkpoint
    checkpoint_file model_type new_corpus new_optimizer s a :
  let checkpoint := load_checkpoint (model s) checkpoint_file in
  let resumed :=
    load_from_checkpoint checkpoint_file model_type new_corpus new_optimizer s in
  ((0 < max_epochs a)%Z →
   ∃ rest, events_of (train resumed.1 a resumed.2)
           = EvEpochStart (ck_epoch checkpoint)
               (List.last (ck_optimizer_state_dict checkpoint)
                  (learning_rate a)) :: rest) ∧
  (∀ l, train (with_loss l resumed.1) a resumed.2
        = train resumed.1 a resumed.2).
Proof.
  cbv zeta. split.
  - intros Hmax.
    destruct (train_events_prefix
                (load_from_checkpoint checkpoint_file model_type new_corpus
                   new_optimizer s).1 a
                (load_from_checkpoint checkpoint_file model_type new_corpus
                   new_optimizer s).2) as (rest & ->).
    destruct (first_epoch_start
                (load_from_checkpoint checkpoint_file model_type new_corpus
                   new_optimizer s).1 a
                (load_from_checkpoint checkpoint_file model_type new_corpus
                   new_optimizer s).2 Hmax) as (rest' & ->).
    by eexists.
  - done.
Qed.

(** ** More about the learning-rate finder *)

Lemma smooth_loss_first a itr loss best_loss mov s :
  itr = O ∨ is_Some best_loss →
  wp (smooth_loss a itr loss best_loss mov) s (λ s' evs r,
    s' = s ∧ evs = [] ∧
    (r = Raise ZeroDivisionError
     ∨ ∃ loss_item b m, r = Ok (loss_item, b, m)
                        ∧ (itr = O → loss_item = loss))).
Proof.
  intros Hbest. unfold smooth_loss.
  destruct (itr =? 0)%nat eqn:Hitr.
  { wp_run. split_and!; eauto 10. }
  apply Nat.eqb_neq in Hitr. destruct Hbest as [|[b ->]]; [done|].
  wp_run; evs_norm; split_and!; eauto 10.
  all: right; do 3 eexists; split; [reflexivity|done].
Qed.

Ltac finder_obs :=
  unfold logged_losses, logged_rates, sweep_batches, sweep_losses in *.

Lemma sweep_rows_spec a batches : ∀ itr best_loss mov s,
  itr = O ∨ is_Some best_loss →
  wp (sweep a itr batches best_loss mov) s (λ _ evs r, sweep_rows a itr evs r).
Proof.
  induction batches as [|batch rest IH]; intros itr best_loss mov s Hbest;
    simpl.
  { wp_run. unfold sweep_rows. finder_obs. simpl.
    split_and!; try done.
    - by left.
    - intros _. split; [|done]. intros H. by apply elem_of_nil in H.
    - intros H. by apply elem_of_nil in H. }
  wp_step. wp_step. cbn beta iota.
  destruct (sweep_step (model s) (param_groups s) batch) as [loss w].
  wp_step. wp_step. wp_step. wp_step. wp_step.
  eapply wp_mono; [by apply smooth_loss_first|]. cbn beta.
  intros ? ? r (-> & -> & Hr).
  destruct Hr as [-> | (loss_item & best' & mov' & -> & Hfirst)];
    cbn beta iota.
  - (* the bias correction divides by zero *)
    evs_norm. unfold sweep_rows. finder_obs. simpl.
    split_and!; try done; auto.
    all: intros Hin; exfalso; revert Hin; not_in_events.
  - wp_run; evs_norm.
    + (* early stop *)
      bool_tidy. unfold sweep_rows. finder_obs. simpl.
      split_and!; try done; auto.
      intros _. split; [done|]. intros _. in_events.
    + eapply wp_mono; [apply IH; right; by eexists|]. cbn beta.
      intros s' evs r (Hn & Hrates & Hcount & Hdiv & Hse & Hraise & _).
      unfold sweep_rows.
      change (logged_losses (EvSweepBatch itr (length batch) loss
                :: EvLrRow itr ?lr loss_item :: evs))
        with ((itr, loss_item) :: logged_losses evs).
      change (logged_rates (EvSweepBatch itr (length batch) loss
                :: EvLrRow itr ?lr loss_item :: evs))
        with ((itr, lr) :: logged_rates evs).
      change (sweep_batches (EvSweepBatch itr (length batch) loss
                :: EvLrRow itr ?lr loss_item :: evs))
        with (S (sweep_batches evs)).
      change (sweep_losses (EvSweepBatch itr (length batch) loss
                :: EvLrRow itr ?lr loss_item :: evs))
        with (loss :: sweep_losses evs).
      cbn [length fmap list_fmap seq]. rewrite Hrates.
      split_and!.
      * cbn [fst]. f_equal. exact Hn.
      * done.
      * lia.
      * intros Hok. rewrite !elem_of_cons, (Hdiv Hok).
        split; [intros [?|[?|?]]; try done; lia|]. intros ?. right. right. lia.
      * rewrite !elem_of_cons. intros [?|[?|?]]; try done. auto.
      * intros Hne. f_equal. auto.
      * intros Hitr l0 ls row rows [= <- _] [= <- _]. by rewrite Hfirst, Hitr.
Qed.

Lemma sweep_rows_nil a itr : sweep_rows a itr [] (Ok tt).
Proof.
  unfold sweep_rows. finder_obs. simpl. split_and!; try done.
  - by left.
  - intros _. split; [|done]. intros H. by apply elem_of_nil in H.
  - intros H. by apply elem_of_nil in H.
Qed.

(** The events of a run of the finder are those of its sweep, followed by
    the closing log line when the sweep did not raise. *)
Lemma find_learning_rate_sweep a s :
  wp (find_learning_rate a) s (λ _ evs r,
    ∃ sevs sr, sweep_rows a 0 sevs sr ∧
      (evs = sevs ∨ evs = sevs ++ [EvInfo finder_done_msg]) ∧
      (∀ p, r = Ok p → sr = Ok tt)).
Proof.
  unfold find_learning_rate, shuffle_train_data.
  wp_run; evs_norm; simpl.
  - exists [], (Ok tt). split_and!; [apply sweep_rows_nil|by left|done].
  - eapply wp_mono; [apply sweep_rows_spec; by left|]. cbn beta.
    intros s' evs r Hrows. destruct r as [[]|x]; cbn beta iota.
    + wp_run; evs_norm. exists evs, (Ok tt). split_and!; [done|by right|done].
    + exists evs, (Raise x). split_and!; [done|by left|done].
Qed.

Lemma finder_done_obs sevs :
  logged_losses (sevs ++ [EvInfo finder_done_msg]) = logged_losses sevs ∧
  logged_rates (sevs ++ [EvInfo finder_done_msg]) = logged_rates sevs ∧
  sweep_batches (sevs ++ [EvInfo finder_done_msg]) = sweep_batches sevs ∧
  sweep_losses (sevs ++ [EvInfo finder_done_msg]) = sweep_losses sevs ∧
  (EvInfo diverged_msg ∈ sevs ++ [EvInfo finder_done_msg]
   ↔ EvInfo diverged_msg ∈ sevs).
Proof.
  finder_obs. rewrite !omap_app, length_app. simpl.
  rewrite !app_nil_r, Nat.add_0_r. split_and!; try done.
  rewrite elem_of_app, list_elem_of_singleton. split; [|by left].
  by intros [?|?].
Qed.

Lemma find_learning_rate_rows_of a s :
  ∃ sr, sweep_rows a 0 (events_of (find_learning_rate a s)) sr ∧
        ∀ p, result_of (find_learning_rate a s) = Ok p → sr = Ok tt.
Proof.
  pose proof (wp_elim _ _ _ (find_learning_rate_sweep a s))
    as (sevs & sr & Hrows & [-> | ->] & Hr); [by exists sr|].
  exists sr. split; [|done].
  destruct (finder_done_obs sevs) as (E1 & E2 & E3 & E4 & E5).
  unfold sweep_rows in *. by rewrite E1, E2, E3, E4, E5.
Qed.

(** X17: The rows of the learning-rate log (lines 372-398): they are numbered
    from 0 on without a gap; row [i] carries the rate the scheduler
    reports after its step of iteration [i] (the step comes before the
    row is written), and row 0 carries the raw loss of the first batch,
    which is never smoothed.  Every processed batch has its row, except
    the last one of a sweep that is cut short; for a call that returns,
    that is exactly when the divergence was logged. *)
Theorem find_learning_rate_rows a s :
  (logged_losses (events_of (find_learning_rate a s))).*1
  = seq 0 (length (logged_losses (events_of (find_learning_rate a s)))) ∧
  logged_rates (events_of (find_learning_rate a s))
  = (λ i, (i, exp_anneal_lr (start_learning_rate a) (end_learning_rate a)
                (iterations a) (S i)))
      <$> seq 0 (length (logged_losses (events_of (find_learning_rate a s)))) ∧
  (sweep_batches (events_of (find_learning_rate a s))
   = length (logged_losses (events_of (find_learning_rate a s)))
   ∨ sweep_batches (events_of (find_learning_rate a s))
     = S (length (logged_losses (events_of (find_learning_rate a s))))) ∧
  (∀ path, result_of (find_learning_rate a s) = Ok path →
     (EvInfo diverged_msg ∈ events_of (find_learning_rate a s)
      ↔ sweep_batches (events_of (find_learning_rate a s))
        = S (length (logged_losses (events_of (find_learning_rate a s)))))) ∧
  (∀ l0 ls row rows,
     sweep_losses (events_of (find_learning_rate a s)) = l0 :: ls →
     logged_losses (events_of (find_learning_rate a s)) = row :: rows →
     row = (O, l0)).
Proof.
  destruct (find_learning_rate_rows_of a s)
    as (sr & (H1 & H2 & H3 & H4 & _ & _ & H7) & Hr).
  split_and!; try done.
  - intros path Hp. apply H4. by eapply Hr.
  - by apply H7.
Qed.

Lemma smoothing_ok_not_1 a : ¬ (smoothing_factor a == 1)%Q → smoothing_ok a.
Proof.
  intros Hne. destruct (Qlt_le_dec (smoothing_factor a) 1) as [Hlt|Hge].
  { by apply smoothing_ok_below_1. }
  assert (Hgt : (1 < smoothing_factor a)%Q).
  { apply Qle_lteq in Hge as [?|Heq]; [done|]. by symmetry in Heq. }
  intros itr _. destruct (Qeq_bool _ 0) eqn:E; [|done]. exfalso.
  apply Qeq_bool_iff in E.
  assert (Hn : (0 < Z.of_nat (itr + 1))%Z) by lia.
  pose proof (Qpower_1_lt _ _ Hgt Hn) as Hpow.
  assert (Hq1 : (smoothing_factor a ^ Z.of_nat (itr + 1) == 1)%Q).
  { rewrite <- (Qplus_0_l (_ ^ _)), <- E. ring. }
  rewrite Hq1 in Hpow. by apply Qlt_irrefl in Hpow.
Qed.

Lemma sweep_unit_smoothing a b0 b1 rest s :
  (smoothing_factor a == 1)%Q → stop_early a = false →
  wp (sweep a 0 (b0 :: b1 :: rest) None (Finite 0)) s (λ _ evs r,
    r = Raise ZeroDivisionError ∧ sweep_batches evs = 2%nat
    ∧ length (logged_losses evs) = 1%nat).
Proof.
  intros Hsf Hse.
  assert (Hpos : Qltb 0 (smoothing_factor a) = true).
  { apply Qltb_lt. by rewrite Hsf. }
  assert (Hzero : Qeq_bool (1 - smoothing_factor a * smoothing_factor a) 0
                  = true).
  { apply Qeq_bool_iff. rewrite Hsf. reflexivity. }
  simpl. unfold smooth_loss. rewrite Hse. simpl.
  wp_run; evs_norm; simpl in *; try done; congruence.
Qed.

(** X21: How the finder fails.  With [mini_batch_size = 0] it raises ValueError
    (from [range] with step 0), after the log file has been created and
    before any batch.  For a smoothing factor of at most 1 the only other
    exception is the ZeroDivisionError of the bias correction
    [1 - smoothing_factor ** (itr + 1)], which takes a smoothing factor
    equal to 1; and with such a factor a sweep that is not cut short does
    raise it, at its second batch, with one row written.  (Above 1 the
    float power can overflow, which the exact power of this development
    does not show; nothing is said of such factors.) *)
Theorem find_learning_rate_failures a s :
  (flr_mini_batch_size a = O →
   result_of (find_learning_rate a s) = Raise ValueError ∧
   events_of (find_learning_rate a s) = [] ∧
   file_name a ∈ files (store_of (find_learning_rate a s))) ∧
  ((smoothing_factor a <= 1)%Q →
   ∀ x, result_of (find_learning_rate a s) = Raise x →
     (x = ValueError ∧ flr_mini_batch_size a = O)
     ∨ (x = ZeroDivisionError ∧ (smoothing_factor a == 1)%Q)) ∧
  ((smoothing_factor a == 1)%Q → stop_early a = false →
   flr_mini_batch_size a ≠ O → (2 ≤ iterations a)%nat →
   (flr_mini_batch_size a < length (corpus_train (corpus s)))%nat →
   result_of (find_learning_rate a s) = Raise ZeroDivisionError ∧
   sweep_batches (events_of (find_learning_rate a s)) = 2%nat ∧
   length (logged_losses (events_of (find_learning_rate a s))) = 1%nat).
Proof.
  split_and!.
  - intros Hm.
    apply (wp_elim _ _ (λ s' evs r,
             r = Raise ValueError ∧ evs = [] ∧ file_name a ∈ files s')).
    unfold find_learning_rate, shuffle_train_data.
    wp_run; evs_norm; nat_eqb; simpl; try done.
    split_and!; try done. sets.
  - intros _ x Hx.
    pose proof (wp_elim _ _ _ (find_learning_rate_spec a s)) as (_ & _ & H & _).
    rewrite Hx in H. destruct H as [[-> ?]|[-> Hs]]; [by left|right].
    split; [done|].
    destruct (Qeq_dec (smoothing_factor a) 1) as [|Hne]; [done|].
    by apply smoothing_ok_not_1 in Hne.
  - intros Hsf Hse Hm Hit Hlen.
    apply (wp_elim _ _ (λ _ evs r,
             r = Raise ZeroDivisionError ∧ sweep_batches evs = 2%nat
             ∧ length (logged_losses evs) = 1%nat)).
    unfold find_learning_rate, shuffle_train_data.
    wp_run; evs_norm; nat_eqb; simpl; try done.
    pose proof (shuffle_perm rand (rng s) (corpus_train (corpus s))) as Hperm.
    apply Permutation_length in Hperm.
    set (l := shuffle rand (rng s) (corpus_train (corpus s))) in *.
    assert (Hbs : (2 ≤ length (take (iterations a)
                     (make_batches l (flr_mini_batch_size a))))%nat).
    { rewrite length_take, make_batches_length, Hperm.
      apply Nat.min_glb; [done|].
      apply Nat.div_le_lower_bound; lia. }
    destruct (take (iterations a) (make_batches l (flr_mini_batch_size a)))
      as [|b0 [|b1 rest]]; simpl in Hbs; try lia.
    eapply wp_mono; [by apply sweep_unit_smoothing|]. cbn beta.
    intros ? evs ? (-> & ? & ?). by evs_norm.
Qed.

Lemma sweep_emits a batches : ∀ itr best_loss mov,
  emits finder_event (sweep a itr batches best_loss mov).
Proof.
  induction batches as [|batch rest IH]; intros itr best_loss mov; simpl.
  - apply emits_ret.
  - emits_step; [emits_run|]. cbn beta.
    destruct (sweep_step (model x) (param_groups x) batch) as [loss w].
    emits_step; [emits_run|]. emits_step; [emits_run; done|].
    emits_step.
    + unfold smooth_loss. emits_run.
    + destruct x2 as [[loss_item best'] mov'].
      emits_run; simpl; auto.
Qed.

Lemma find_learning_rate_emits a : emits finder_event (find_learning_rate a).
Proof.
  unfold find_learning_rate, shuffle_train_data.
  emits_run; simpl; auto. apply sweep_emits.
Qed.

(** X22: What the finder leaves alone: the only file it creates is its log
    file, which exists after every call, returning or raising; it emits
    nothing but its batches, its rows and its two log lines, so it never
    saves or loads a model, never evaluates and never writes a
    checkpoint. *)
Theorem find_learning_rate_touches_only_its_log a s :
  files (store_of (find_learning_rate a s)) = {[file_name a]} ∪ files s ∧
  Forall finder_event (events_of (find_learning_rate a s)) ∧
  saved_files (events_of (find_learning_rate a s)) = [] ∧
  loaded_files (events_of (find_learning_rate a s)) = [] ∧
  evaluated (events_of (find_learning_rate a s)) = [] ∧
  checkpoints (events_of (find_learning_rate a s)) = [].
Proof.
  pose proof (wp_elim _ _ _ (find_learning_rate_spec a s)) as (_ & Hf & _).
  pose proof (emits_events _ _ s (find_learning_rate_emits a)) as Hev.
  split_and!; [done|done|..]; observers;
    (eapply omap_none; [exact Hev|]); by intros [].
Qed.

(** X19: Without [stop_early] the sweep is never cut short: for a usable batch
    size and a smoothing factor below 1 the call returns the path of its
    log, having processed exactly [min(iterations, number of batches)]
    mini-batches and written one row for each. *)
Theorem find_learning_rate_without_stop_early a s :
  stop_early a = false →
  flr_mini_batch_size a ≠ O →
  (smoothing_factor a < 1)%Q →
  result_of (find_learning_rate a s) = Ok (file_name a) ∧
  sweep_batches (events_of (find_learning_rate a s))
  = iterations a
    `min` ((length (corpus_train (corpus s)) + flr_mini_batch_size a - 1)
           / flr_mini_batch_size a)%nat ∧
  length (logged_losses (events_of (find_learning_rate a s)))
  = sweep_batches (events_of (find_learning_rate a s)).
Proof.
  intros Hse Hm Hsf.
  destruct (find_learning_rate_returns_when a s Hm (smoothing_ok_below_1 a Hsf))
    as (path & Hp).
  pose proof (wp_elim _ _ _ (find_learning_rate_spec a s))
    as (_ & _ & Hr & _ & Hcount & _).
  rewrite Hp in Hr. destruct Hr as (-> & _).
  destruct (find_learning_rate_rows_of a s)
    as (sr & (_ & _ & H3 & H4 & H5 & _) & Hsr).
  assert (Hno : EvInfo diverged_msg ∉ events_of (find_learning_rate a s)).
  { intros Hin. apply H5 in Hin. congruence. }
  split_and!; [done| |].
  - rewrite (Hcount _ Hp Hno). by rewrite make_batches_length.
  - destruct H3 as [?|H3]; [done|]. exfalso. apply Hno, H4; [|done].
    by eapply Hsr.
Qed.

(** X20: The finder on an empty training split: there is nothing to sweep, so
    for a usable batch size the call processes no batch, logs no row and
    returns the path of its log; its only event is the closing log
    line. *)
Theorem find_learning_rate_on_empty_training_data a s :
  corpus_train (corpus s) = [] →
  flr_mini_batch_size a ≠ O →
  result_of (find_learning_rate a s) = Ok (file_name a) ∧
  events_of (find_learning_rate a s) = [EvInfo finder_done_msg] ∧
  sweep_batches (events_of (find_learning_rate a s)) = 0%nat ∧
  logged_losses (events_of (find_learning_rate a s)) = [].
Proof.
  intros Hnil Hm.
  apply (wp_elim _ _ (λ _ evs r,
           r = Ok (file_name a) ∧ evs = [EvInfo finder_done_msg] ∧
           sweep_batches evs = 0%nat ∧ logged_losses evs = [])).
  unfold find_learning_rate, shuffle_train_data.
  assert (Hb : make_batches (@nil Sentence) (flr_mini_batch_size a) = []).
  { unfold make_batches, py_range_step. simpl.
    rewrite Nat.div_small by lia. done. }
  assert (Hsh : ∀ c, shuffle rand c (@nil Sentence) = []) by done.
  wp_run; nat_eqb; simpl in *; try done.
  rewrite Hnil, Hsh, Hb, take_nil. simpl. wp_run. by evs_norm.
Qed.

Lemma four_times_lt q : (4 * q < q)%Q ↔ (q < 0)%Q.
Proof.
  destruct q as [n d]. unfold Qlt. simpl.
  pose proof (Pos2Z.is_pos d). rewrite ?Pos2Z.inj_mul. nia.
Qed.

Lemma diverged_at_once l0 :
  lossval_ltb (lossval_scale 4 l0) l0 || isnan l0 = true
  ↔ l0 = NaN ∨ ∃ q, l0 = Finite q ∧ (q < 0)%Q.
Proof.
  destruct l0 as [q|]; simpl.
  - rewrite orb_false_r, Qltb_lt, four_times_lt. split.
    + intros ?. right. by exists q.
    + intros [?|(q' & [= <-] & ?)]; done.
  - split; [by left|done].
Qed.

Lemma sweep_first a batches s :
  wp (sweep a 0 batches None (Finite 0)) s (λ _ evs _,
    ∀ l0 ls, sweep_losses evs = l0 :: ls →
      (logged_losses evs = []
       ↔ stop_early a
         && (lossval_ltb (lossval_scale 4 l0) l0 || isnan l0) = true) ∧
      (logged_losses evs = [] → ls = [])).
Proof.
  destruct batches as [|batch rest]; simpl.
  { wp_run. by intros l0 ls. }
  unfold smooth_loss. simpl. wp_run; evs_norm.
  - intros l0 ls [= <- <-]. finder_obs. simpl. by split.
  - unfold wp. intros l0 ls. finder_obs.
    simpl. intros [= <- _].
    split; [|done]. split; [done|]. intros Hstop. congruence.
Qed.

(** X18: The first batch of the sweep (lines 383-395): its raw loss is both the
    loss compared and the best loss, so with [stop_early] the sweep stops
    at once, before any row is written, exactly when that loss is NaN or
    negative; without [stop_early], or with any other first loss, row 0 is
    written. *)
Theorem find_learning_rate_first_batch a s l0 ls :
  sweep_losses (events_of (find_learning_rate a s)) = l0 :: ls →
  (logged_losses (events_of (find_learning_rate a s)) = []
   ↔ stop_early a = true ∧ (l0 = NaN ∨ ∃ q, l0 = Finite q ∧ (q < 0)%Q)) ∧
  (logged_losses (events_of (find_learning_rate a s)) = [] → ls = []).
Proof.
  revert l0 ls.
  apply (wp_elim _ _ (λ _ evs _, ∀ l0 ls, sweep_losses evs = l0 :: ls →
           (logged_losses evs = []
            ↔ stop_early a = true
              ∧ (l0 = NaN ∨ ∃ q, l0 = Finite q ∧ (q < 0)%Q)) ∧
           (logged_losses evs = [] → ls = []))).
  unfold find_learning_rate, shuffle_train_data.
  wp_run; evs_norm; simpl.
  eapply wp_mono; [apply sweep_first|]. cbn beta.
  intros s' evs r Hfirst.
  assert (Hgoal : ∀ l0 ls, sweep_losses evs = l0 :: ls →
            (logged_losses evs = []
             ↔ stop_early a = true
               ∧ (l0 = NaN ∨ ∃ q, l0 = Finite q ∧ (q < 0)%Q)) ∧
            (logged_losses evs = [] → ls = [])).
  { intros l0 ls Hl. destruct (Hfirst l0 ls Hl) as [H1 H2]. split; [|done].
    by rewrite H1, andb_true_iff, diverged_at_once. }
  destruct r as [[]|x]; cbn beta iota; [|done].
  wp_run; evs_norm.
  destruct (finder_done_obs evs) as (E1 & _ & _ & E4 & _).
  unfold finder_done_msg in E1, E4.
  intros l0 ls. rewrite E1, E4. apply Hgoal.
Qed.

(** ** Where [best-model.pt] comes from *)

Lemma tracks_ret {A} f (x : A) : tracks f (ret x).
Proof. intros s. by left. Qed.

Lemma tracks_raise {A} f x : tracks f (raise x : M A).
Proof. intros s. by left. Qed.

Lemma tracks_get f : tracks f get.
Proof. intros s. by left. Qed.

Lemma tracks_tell f ev : tracks f (tell ev).
Proof. intros s. by left. Qed.

Lemma tracks_modify f g :
  (∀ s, f ∈ files (g s) → f ∈ files s) → tracks f (modify g).
Proof. intros H s Hin. left. by apply H. Qed.

Lemma tracks_create f f' : f ≠ f' → tracks f (create_file f').
Proof.
  intros Hne. apply tracks_modify. intros s. simpl.
  rewrite elem_of_union, elem_of_singleton. by intros [?|?].
Qed.

Lemma tracks_model_save f f' : tracks f (model_save f').
Proof.
  intros s. unfold model_save, create_file, bind, modify, tell. simpl.
  rewrite elem_of_union, elem_of_singleton. intros [->|?]; [right|by left].
  apply list_elem_of_here.
Qed.

Lemma tracks_bind {A B} f (m : M A) (k : A → M B) :
  tracks f m → (∀ x, tracks f (k x)) → tracks f (bind m k).
Proof.
  intros Hm Hk s. specialize (Hm s). unfold bind.
  destruct (m s) as [[s1 e1] [x|x]]; simpl in *; [|done].
  specialize (Hk x s1). destruct (k x s1) as [[s2 e2] r]. simpl in *.
  rewrite elem_of_app. intros Hin. destruct (Hk Hin) as [H1|?]; [|auto].
  destruct (Hm H1); auto.
Qed.

Lemma tracks_bind_raise {A B} f x (k : A → M B) : tracks f (bind (raise x) k).
Proof. intros s. by left. Qed.

Lemma tracks_try f body handler :
  tracks f body → tracks f handler →
  tracks f (try_except_KeyboardInterrupt body handler).
Proof.
  intros Hb Hh s. specialize (Hb s). unfold try_except_KeyboardInterrupt.
  destruct (body s) as [[s1 e1] [x|[]]]; simpl in *; try done.
  specialize (Hh s1). destruct (handler s1) as [[s2 e2] r]. simpl in *.
  rewrite elem_of_app. intros Hin. destruct (Hh Hin) as [H1|?]; [|auto].
  destruct (Hb H1); auto.
Qed.

Ltac tracks_step :=
  lazymatch goal with
  | |- tracks _ (bind _ _) => apply tracks_bind; [|intros ?]
  | |- tracks _ (ret _) => apply tracks_ret
  | |- tracks _ (raise _) => apply tracks_raise
  | |- tracks _ get => apply tracks_get
  | |- tracks _ (tell _) => apply tracks_tell
  | |- tracks _ (log_info _) => apply tracks_tell
  | |- tracks _ (model_save _) => apply tracks_model_save
  | |- tracks _ (create_file _) => apply tracks_create; [done]
  | |- tracks _ (modify _) => apply tracks_modify; [by intros ?]
  | |- tracks _ (when _ _) => unfold when
  | |- tracks _ (check_interrupt _ _) => unfold check_interrupt
  | |- tracks _ (calculate_evaluation_results_for _ _ _) =>
      unfold calculate_evaluation_results_for
  | |- tracks _ (if ?b then _ else _) => destruct b eqn:?
  | |- tracks _ (match ?x with Some _ => _ | None => _ end) => destruct x eqn:?
  | |- tracks _ (let '(_, _) := ?x in _) => destruct x eqn:?
  | |- tracks _ _ => progress cbv zeta
  end; cbn beta iota zeta.

Ltac tracks_run := repeat tracks_step.

Lemma batch_loop_tracks a e n modulo batches : ∀ b0 tl seen,
  tracks best_model_pt (batch_loop a e n modulo b0 batches tl seen).
Proof.
  induction batches as [|batch rest IH]; intros b0 tl seen; simpl.
  - apply tracks_ret.
  - tracks_run; apply IH.
Qed.

Lemma train_one_epoch_tracks a e lr bad :
  tracks best_model_pt (train_one_epoch a e lr bad).
Proof.
  unfold train_one_epoch, shuffle_train_data.
  tracks_step; [tracks_run|]. tracks_step; [tracks_run|].
  destruct (mini_batch_size a =? 0)%nat; [apply tracks_bind_raise|].
  tracks_step; [tracks_run|]. cbv zeta.
  tracks_step; [apply batch_loop_tracks|]. tracks_run.
Qed.

Lemma evaluate_epoch_tracks a e lr bad tl :
  tracks best_model_pt (evaluate_epoch a e lr bad tl).
Proof. unfold evaluate_epoch. tracks_run. Qed.

Lemma epoch_body_tracks a e prev :
  tracks best_model_pt (epoch_body a e prev).
Proof.
  unfold epoch_body. tracks_run.
  all: first [ apply train_one_epoch_tracks | apply evaluate_epoch_tracks ].
Qed.

Lemma epoch_loop_tracks a es :
  ∀ prev, tracks best_model_pt (epoch_loop a es prev).
Proof.
  induction es as [|e es IH]; intros prev; simpl.
  - apply tracks_ret.
  - apply tracks_bind; [apply epoch_body_tracks|].
    intros [[] lr]; [apply tracks_ret|apply IH].
Qed.

Lemma eval_subcorpora_tracks (subs : list (string * list Sentence)) :
  tracks best_model_pt
    (foldr (λ sub k,
        calculate_evaluation_results_for sub.1 sub.2 (Some test_tsv) >> k)
        (ret tt) subs).
Proof.
  induction subs as [|sub subs IH]; simpl; [apply tracks_ret|].
  tracks_run. apply IH.
Qed.

Lemma train_tracks self a : tracks best_model_pt (train self a).
Proof.
  unfold train, train_setup, train_finish, final_test.
  tracks_run.
  all: first [ apply epoch_loop_tracks | apply eval_subcorpora_tracks
             | apply tracks_try; tracks_run; apply epoch_loop_tracks ].
Qed.

Lemma train_files_grow self a s : files s ⊆ files (store_of (train self a s)).
Proof.
  assert (∃ s0, setup_post self a s s0 ∧
                files s0 ⊆ files (store_of (train self a s)))
    as (s0 & Hsetup & Hgrow).
  { destruct (train_run_of self a s)
      as [s0 s1 s2 levs lr_r mid tail score Hsetup Hloop _ _ _ _
            _ _ [Hmid _] _ _ [Hfin _] _ _ _|s0 levs x Hsetup Hloop Hx _];
      apply loop_run_kept in Hloop as (_ & _ & [Hl _]); exists s0;
      (split; [done|]); sets. }
  destruct Hsetup as (_ & _ & _ & _ & Hfiles & _).
  rewrite Hfiles in Hgrow. sets.
Qed.

Lemma train_saves_best self a :
  emits (λ ev, ev = EvSave best_model_pt →
               train_with_dev a = false ∧ param_selection_mode a = false)
    (train self a).
Proof.
  assert (Hloop : ∀ es prev,
    emits (λ ev, ev = EvSave best_model_pt →
                 train_with_dev a = false ∧ param_selection_mode a = false)
      (epoch_loop a es prev)).
  { intros es prev. eapply emits_impl; [apply epoch_loop_emits|].
    intros ev Hev ->. simpl in Hev. by destruct Hev as (_ & ? & ?). }
  unfold train, train_setup.
  emits_step; [emits_run|]. emits_step.
  - apply emits_try; emits_run; done.
  - eapply emits_impl; [apply train_finish_emits|]. by intros ev Hev ->.
Qed.

(** X11: [best-model.pt] is written only under dev-based selection: a call with
    [train_with_dev] or in [param_selection_mode] never saves it, so the
    file is in [base_path] after the call exactly if it was there before.
    The final test loads whatever file of that name it finds. *)
Theorem best_model_needs_dev_selection self a s :
  (EvSave best_model_pt ∈ events_of (train self a s) →
   train_with_dev a = false ∧ param_selection_mode a = false) ∧
  (train_with_dev a = true ∨ param_selection_mode a = true →
   (best_model_pt ∈ files (store_of (train self a s))
    ↔ best_model_pt ∈ files s)).
Proof.
  assert (Hsave : EvSave best_model_pt ∈ events_of (train self a s) →
            train_with_dev a = false ∧ param_selection_mode a = false).
  { intros Hin.
    pose proof (emits_events _ _ s (train_saves_best self a)) as Hall.
    rewrite Forall_forall in Hall. by apply (Hall _ Hin). }
  split; [done|]. intros Hflag. split.
  - intros Hin. destruct (train_tracks self a s Hin) as [?|Hs]; [done|].
    apply Hsave in Hs as [? ?]. destruct Hflag; congruence.
  - apply train_files_grow.
Qed.

(** ** The list the batches are cut from *)

Lemma batch_loop_model a e n modulo batches : ∀ b0 tl0 seen0 s,
  wp (batch_loop a e n modulo b0 batches tl0 seen0) s (λ s' _ r,
    ∀ v, r = Ok v →
      model s' = step_batches (param_groups s) batches (model s)).
Proof.
  induction batches as [|batch rest IH]; intros b0 tl0 seen0 s; simpl.
  - wp_run. done.
  - wp_run; try done; unfold step_batches; simpl;
      lazymatch goal with
      | H : forward_backward_step _ _ _ = _ |- _ => rewrite H
      end; apply IH.
Qed.

(** An epoch's training phase on a plain corpus whose training list is the
    one [train_data] names. *)
Lemma train_one_epoch_in_place a e lr bad s :
  corpora (corpus s) = None → train_data s = corpus_train (corpus s) →
  wp (train_one_epoch a e lr bad) s (λ s' _ r,
    corpus_train (corpus s')
    = (if test_mode a then corpus_train (corpus s)
       else shuffle rand (rng s) (corpus_train (corpus s))) ∧
    train_data s' = corpus_train (corpus s') ∧
    ∀ tl, r = Ok tl →
      model s'
      = step_batches (param_groups s)
          (make_batches (corpus_train (corpus s')) (mini_batch_size a))
          (model s)).
Proof.
  intros Hplain Hal. unfold train_one_epoch, shuffle_train_data.
  apply wp_bind. unfold when.
  destruct (test_mode a) eqn:Htm; simpl; [apply wp_ret|apply wp_modify];
    cbn beta iota; apply wp_at; intros s1 Heq;
    assert (Hc : corpus_train (corpus s1)
                 = (if test_mode a then corpus_train (corpus s)
                    else shuffle rand (rng s) (corpus_train (corpus s))))
      by (rewrite Heq, Htm; unfold set_train; simpl;
          rewrite ?Hplain, ?Hal; done);
    assert (Ha : train_data s1 = corpus_train (corpus s1))
      by (rewrite Heq; unfold set_train; simpl; rewrite ?Hplain; done);
    assert (Hm : model s1 = model s) by (by rewrite Heq);
    assert (Hpg : param_groups s1 = param_groups s) by (by rewrite Heq);
    rewrite Htm in Hc; clear Heq; wp_run; try done.
  all: eapply wp_mono;
    [ apply (wp_and _ _ _ _ (batch_loop_spec a e _ _ _ _ _ _ s1)
               (batch_loop_model a e _ _ _ _ _ _ s1)) |];
    cbn beta; intros s2 bevs r [(Hs & _) Hmod];
    destruct Hs as (Hcs & Htd & _);
    destruct r as [[tl seen]|x]; cbn beta iota; [|by rewrite Hcs, Htd];
    specialize (Hmod _ eq_refl);
    wp_run; try (by rewrite Hcs, Htd);
    (split_and!; [by rewrite Hcs|by rewrite Hcs, Htd|]);
    intros ? _; by rewrite Hmod, Hcs, <- Ha, Hm, Hpg.
Qed.

Lemma eval_subcorpora_train_data (subs : list (string * list Sentence)) : ∀ s,
  wp (foldr (λ sub k,
        calculate_evaluation_results_for sub.1 sub.2 (Some test_tsv) >> k)
        (ret tt) subs) s
    (λ s' _ _, train_data s' = train_data s).
Proof.
  induction subs as [|sub subs IH]; intros s; simpl.
  - by wp_run.
  - wp_run. eapply wp_mono; [apply IH|]. cbn beta. by intros s' evs r ->.
Qed.

Lemma train_finish_train_data a s :
  train_data (store_of (train_finish a s)) = train_data s.
Proof.
  apply (wp_elim _ _ (λ s' _ _, train_data s' = train_data s)).
  unfold train_finish, final_test. wp_run; try done.
  all: eapply wp_mono; [apply eval_subcorpora_train_data|]; cbn beta;
    intros s' evs r Heq; destruct r; wp_run; by rewrite Heq.
Qed.

(** After the epoch loop nothing touches the corpus or the list
    [train_data] names. *)
Lemma train_final_data self a s :
  train_data (store_of (train self a s))
  = train_data (store_of (loop_of self a s)) ∧
  corpus (store_of (train self a s)) = corpus (store_of (loop_of self a s)).
Proof.
  rewrite (train_decompose self a s).
  assert (Hfin : ∀ r,
            train_data (store_of (train_finish a
                          (after_loop_store a r (store_of (loop_of self a s)))))
            = train_data (store_of (loop_of self a s)) ∧
            corpus (store_of (train_finish a
                      (after_loop_store a r (store_of (loop_of self a s)))))
            = corpus (store_of (loop_of self a s))).
  { intros r. rewrite train_finish_train_data.
    pose proof (wp_elim _ _ _
      (train_finish_spec a (after_loop_store a r (store_of (loop_of self a s)))))
      as (-> & _).
    unfold after_loop_store. by destruct (saves_final a r). }
  destruct (result_of (loop_of self a s)) as [[]|[]]; try done; apply Hfin.
Qed.

(** The list [train_data] names when the epoch loop starts, and what the
    loop does to it. *)
Lemma loop_of_data self a s :
  data_kept (loop_store self a s) (store_of (loop_of self a s)).
Proof.
  pose proof (wp_elim _ _ _
    (epoch_loop_run a (py_range (0 + epoch self) (max_epochs a + epoch self))
       (learning_rate a) (loop_store self a s))) as Hloop.
  by apply loop_run_kept in Hloop as (? & _).
Qed.

Lemma train_aliased self a s :
  corpora (corpus s) = None →
  train_data (loop_store self a s)
  = corpus_train (corpus (loop_store self a s)) ∧
  train_data (store_of (train self a s))
  = corpus_train (corpus (store_of (train self a s))).
Proof.
  intros Hplain.
  destruct (loop_store_post self a s)
    as (_ & _ & _ & H4 & _ & _ & _ & _ & _ & _ & _ & H5).
  rewrite Hplain in H5.
  destruct (loop_of_data self a s) as (_ & _ & _ & Hco & Hal & _).
  destruct (train_final_data self a s) as [-> ->].
  split; [done|]. symmetry. apply Hal; [by intros _|congruence].
Qed.

(** C9: [train_data = self.corpus.train] (lines 98 and 362) copies nothing.
    For a plain corpus, whose training split is a list attribute:
    the training phase of an epoch of [train] started on the corpus's own
    list leaves that list shuffled in place (as it was in [test_mode]),
    still the list [train_data] names, and an epoch that completes has
    stepped the model on exactly the consecutive slices of the corpus's
    list as the corpus now holds it; [train] binds [train_data] to the
    corpus's list before its first epoch and after the call it is that
    list still, holding the old training examples (followed by the dev
    examples with [train_with_dev]) in some order, in exactly that order
    in [test_mode], with the dev and test splits untouched;
    [find_learning_rate] leaves the corpus's training list as
    [random.shuffle] left it, the other splits untouched.  For a
    [MultiCorpus], whose [train] is built anew on every access, both calls
    leave the corpus as it was. *)
Theorem training_split_is_shuffled_in_place :
  (∀ a e lr bad s,
     corpora (corpus s) = None → train_data s = corpus_train (corpus s) →
     corpus_train (corpus (store_of (train_one_epoch a e lr bad s)))
     = (if test_mode a then corpus_train (corpus s)
        else shuffle rand (rng s) (corpus_train (corpus s))) ∧
     train_data (store_of (train_one_epoch a e lr bad s))
     = corpus_train (corpus (store_of (train_one_epoch a e lr bad s))) ∧
     ∀ tl, result_of (train_one_epoch a e lr bad s) = Ok tl →
       model (store_of (train_one_epoch a e lr bad s))
       = step_batches (param_groups s)
           (make_batches
              (corpus_train (corpus (store_of (train_one_epoch a e lr bad s))))
              (mini_batch_size a))
           (model s)) ∧
  (∀ self a s,
     corpora (corpus s) = None →
     train_data (loop_store self a s)
     = corpus_train (corpus (loop_store self a s)) ∧
     train_data (store_of (train self a s))
     = corpus_train (corpus (store_of (train self a s))) ∧
     corpus_train (corpus (store_of (train self a s)))
     ≡ₚ corpus_train (corpus s)
        ++ (if train_with_dev a then corpus_dev (corpus s) else []) ∧
     (test_mode a = true →
      corpus_train (corpus (store_of (train self a s)))
      = corpus_train (corpus s)
        ++ (if train_with_dev a then corpus_dev (corpus s) else [])) ∧
     corpus_dev (corpus (store_of (train self a s))) = corpus_dev (corpus s) ∧
     corpus_test (corpus (store_of (train self a s)))
     = corpus_test (corpus s)) ∧
  (∀ a s,
     corpora (corpus s) = None →
     corpus_train (corpus (store_of (find_learning_rate a s)))
     = shuffle rand (rng s) (corpus_train (corpus s)) ∧
     train_data (store_of (find_learning_rate a s))
     = corpus_train (corpus (store_of (find_learning_rate a s))) ∧
     corpus_dev (corpus (store_of (find_learning_rate a s)))
     = corpus_dev (corpus s) ∧
     corpus_test (corpus (store_of (find_learning_rate a s)))
     = corpus_test (corpus s)) ∧
  (∀ self a s,
     corpora (corpus s) ≠ None →
     corpus (store_of (train self a s)) = corpus s) ∧
  (∀ a s,
     corpora (corpus s) ≠ None →
     corpus (store_of (find_learning_rate a s)) = corpus s).
Proof.
  split_and!.
  - intros a e lr bad s Hplain Hal.
    pose proof (wp_elim _ _ _ (train_one_epoch_in_place a e lr bad s Hplain Hal))
      as (H1 & H2 & H3).
    by split_and!.
  - intros self a s Hplain.
    destruct (train_aliased self a s Hplain) as [H1 H2].
    destruct (train_corpus self a s Hplain) as (Hp & Hd & Ht & _ & Hm).
    by split_and!.
  - intros a s Hplain.
    pose proof (wp_elim _ _ _ (find_learning_rate_spec a s))
      as ((_ & Hd & Ht & _) & _ & _ & _ & _ & Htd & Hc & _).
    rewrite Hplain in Hc. split_and!; try done. by rewrite Hc, Htd.
  - intros self a s Hmulti. by apply train_multicorpus.
  - intros a s Hmulti.
    pose proof (wp_elim _ _ _ (find_learning_rate_spec a s))
      as (_ & _ & _ & _ & _ & _ & _ & Hm).
    by apply Hm.
Qed.

End Trainer.

(** ** A concrete session *)

(** A small world to run the trainer in: sentences are numbers; the model
    is one integer parameter, which every optimizer step increases, and a
    flag for its device; every batch has loss 1 and every evaluation gives
    the same metric. *)
Definition demo_metric : Metric :=
  {| macro_avg_accuracy := 1 # 2; micro_avg_accuracy := 1 # 2;
     macro_avg_f_score := 1 # 2; micro_avg_f_score := 1 # 2 |}.

Definition demo_step (w : Z * bool) (lrs : list Q) (batch : list nat)
  : Q * (Z * bool) := (1%Q, ((w.1 + 1)%Z, w.2)).

Definition demo_evaluate (w : Z * bool) (dataset : list nat) : Metric * Q :=
  (demo_metric, 3%Q).

Definition demo_load (w : Z * bool) : Z * bool := w.

(** The generator always draws 0. *)
Definition demo_rand (c : nat) : nat := O.

Definition no_interrupt (e : Z) (b : nat) : bool := false.

Definition demo_corpus : Corpus :=
  {| corpus_train := [1; 2; 3; 4]; corpus_dev := [5; 6]; corpus_test := [];
     corpora := None |}.

Definition demo_self : ModelTrainer :=
  {| optimizer := SGD; epoch := 0; loss := 10000;
     optimizer_state := None; scheduler_state := None |}.

Definition demo_args : train_args :=
  {| evaluation_metric := MICRO_F1_SCORE; learning_rate := 1 # 10;
     mini_batch_size := 2; max_epochs := 3; anneal_factor := 1 # 2;
     patience := 3; anneal_against_train_loss := true;
     train_with_dev := false; monitor_train := false; checkpoint := false;
     save_final_model := true; anneal_with_restarts := false;
     test_mode := false; param_selection_mode := false |}.

Definition demo_store : store :=
  {| model := (0%Z, false); corpus := demo_corpus; train_data := [];
     param_groups := [];
     scheduler := new_scheduler demo_self demo_args; files := ∅; rng := 0;
     dev_score_history := []; dev_loss_history := [];
     train_loss_history := [] |}.

Abbreviation demo_train :=
  (train demo_step demo_evaluate demo_load demo_rand no_interrupt).

(** The model for the learning-rate finder: its state is the parameter,
    its device the flag; the loss is a function of the parameter, which
    the sweep drives up step by step. *)
Definition demo_state_dict (w : Z * bool) : Z := w.1.
Definition demo_load_state_dict (w : Z * bool) (st : Z) : Z * bool := (st, w.2).
Definition demo_device (w : Z * bool) : bool := w.2.
Definition demo_to_device (w : Z * bool) (d : bool) : Z * bool := (w.1, d).

Definition demo_loss_at (p : Z) : lossval :=
  match p with
  | 0%Z => Finite 10
  | 1%Z => Finite 1
  | 2%Z => Finite 8
  | 3%Z => Finite 9
  | _ => Finite 0
  end.

Definition demo_sweep_step (w : Z * bool) (lrs : list Q) (batch : list nat)
  : lossval * (Z * bool) := (demo_loss_at w.1, ((w.1 + 1)%Z, w.2)).

(** A stand-in for the schedule of [ExpAnnealLR]: the rates only label the
    rows of the log. *)
Definition demo_anneal (start_lr end_lr : Q) (iterations k : nat) : Q :=
  (start_lr + (end_lr - start_lr) * inject_Z (Z.of_nat k)
              / inject_Z (Z.of_nat iterations))%Q.

Definition demo_find_lr_args : find_lr_args :=
  {| file_name := "learning_rate.tsv"; start_learning_rate := 1 # 10000000;
     end_learning_rate := 10; iterations := 100; flr_mini_batch_size := 1;
     stop_early := true; smoothing_factor := 49 # 50 |}.

Abbreviation demo_find_learning_rate :=
  (find_learning_rate demo_rand demo_state_dict demo_load_state_dict
     demo_device demo_to_device demo_sweep_step demo_anneal).

Abbreviation demo_events :=
  (events_of (demo_train demo_self demo_args demo_store)).

(** *** C1 on the concrete session *)

(** C1, as the spec words it, fails: with two batches of two examples and
    loss 1 each, the epoch reports 2/4, not the size-weighted mean 4/4. *)
Lemma train_epoch_loss_is_not_size_weighted :
  ∃ tl lr bad,
    EvEpochDone 0 tl lr bad ∈ demo_events ∧
    ¬ (tl == spec_weighted_mean_loss 0 demo_events)%Q.
Proof.
  exists (2 # 4), (1 # 10), O. split.
  - vm_compute. in_events.
  - vm_compute. discriminate.
Qed.

Lemma train_epoch_loss_is_plain_sum_witness :
  EvEpochDone 0 (2 # 4) (1 # 10) 0 ∈ demo_events ∧
  (2 # 4 = (batch_loss_total 0 0 demo_events
            / inject_Z (Z.of_nat (batch_size_total 0 demo_events)))%Q ∧
   batch_size_total 0 demo_events
   = (length (corpus_train (corpus demo_store))
      + if train_with_dev demo_args
        then length (corpus_dev (corpus demo_store)) else 0)%nat).
Proof.
  assert (Hin : EvEpochDone 0 (2 # 4) (1 # 10) 0 ∈ demo_events)
    by (vm_compute; in_events).
  split; [exact Hin|].
  exact (train_epoch_loss_is_plain_sum demo_step demo_evaluate demo_load
           demo_rand no_interrupt demo_self demo_args demo_store
           0 (2 # 4) (1 # 10) 0 Hin).
Defined.

(** *** C2 on the concrete session *)

Definition demo_loop_store : store :=
  store_of (train_setup demo_self demo_args demo_store).

Abbreviation demo_epoch :=
  (epoch_body demo_step demo_evaluate demo_rand no_interrupt demo_args
     0 (1 # 10) demo_loop_store).

Lemma epoch_saves_best_on_equality_witness :
  train_with_dev demo_args = false ∧ param_selection_mode demo_args = false ∧
  match result_of demo_epoch with
  | Ok (false, _) =>
      ∃ score,
        EvSchedulerStep score ∈ events_of demo_epoch ∧
        (EvSave best_model_pt ∈ events_of demo_epoch ↔
         ∃ b, best (scheduler (store_of demo_epoch)) = Some b
              ∧ (score == b)%Q) ∧
        (is_better (sch_mode (scheduler demo_loop_store)) score
           (best (scheduler demo_loop_store)) = true →
         EvSave best_model_pt ∈ events_of demo_epoch) ∧
        (∀ b0, best (scheduler demo_loop_store) = Some b0 → (score == b0)%Q →
         EvSave best_model_pt ∈ events_of demo_epoch)
  | _ => EvSave best_model_pt ∉ events_of demo_epoch
  end.
Proof.
  split; [reflexivity|]. split; [reflexivity|].
  apply (epoch_saves_best_on_equality demo_step demo_evaluate demo_rand
           no_interrupt demo_args 0 (1 # 10) demo_loop_store);
    reflexivity.
Defined.

(** *** C3 on a resumed session *)

(** A session restored from a checkpoint saved after two epochs. *)
Definition resumed_self : ModelTrainer :=
  {| optimizer := SGD; epoch := 2; loss := 2 # 4;
     optimizer_state := Some [1 # 10];
     scheduler_state :=
       Some {| sch_mode := ModeMin; sch_factor := 1 # 2; sch_patience := 3;
               sch_weight_decay_variant := false;
               best := Some (2 # 4); num_bad_epochs := 1 |} |}.

Abbreviation resumed_events :=
  (events_of (demo_train resumed_self demo_args demo_store)).

(** C3, as the spec words it, fails: resumed at epoch 2 with
    [max_epochs = 3], the loop does not stop at epoch 2 (the one epoch of
    [range(2, 3)]) but runs the epochs 2, 3 and 4, with no terminal
    condition in sight. *)
Lemma resumed_session_runs_max_epochs_more :
  (∃ d, result_of (demo_train resumed_self demo_args demo_store) = Ok d) ∧
  (EvInfo lr_too_small_msg ∉ resumed_events) ∧
  (EvInfo interrupted_msg ∉ resumed_events) ∧
  spec_epochs resumed_self demo_args = [2%Z] ∧
  epochs_started resumed_events = [2%Z; 3%Z; 4%Z] ∧
  epochs_started resumed_events ≠ spec_epochs resumed_self demo_args.
Proof.
  split_and!.
  - eexists. vm_compute. reflexivity.
  - vm_compute. not_in_events.
  - vm_compute. not_in_events.
  - reflexivity.
  - vm_compute. reflexivity.
  - vm_compute. discriminate.
Qed.

Lemma train_runs_max_epochs_from_session_epoch_witness :
  (∃ d, result_of (demo_train resumed_self demo_args demo_store) = Ok d) ∧
  (EvInfo lr_too_small_msg ∉ resumed_events) ∧
  (EvInfo interrupted_msg ∉ resumed_events) ∧
  epochs_started resumed_events = planned_epochs resumed_self demo_args.
Proof.
  assert (H1 : ∃ d, result_of (demo_train resumed_self demo_args demo_store)
                    = Ok d) by (eexists; vm_compute; reflexivity).
  assert (H2 : EvInfo lr_too_small_msg ∉ resumed_events)
    by (vm_compute; not_in_events).
  assert (H3 : EvInfo interrupted_msg ∉ resumed_events)
    by (vm_compute; not_in_events).
  split_and!; [exact H1|exact H2|exact H3|].
  exact (proj2 (train_runs_max_epochs_from_session_epoch demo_step
                  demo_evaluate demo_load demo_rand no_interrupt resumed_self
                  demo_args demo_store) H1 H2 H3).
Defined.

(** *** C4 on a session whose learning rate starts below the floor *)

Definition tiny_lr_args : train_args :=
  {| evaluation_metric := MICRO_F1_SCORE; learning_rate := 1 # 100000;
     mini_batch_size := 2; max_epochs := 3; anneal_factor := 1 # 2;
     patience := 3; anneal_against_train_loss := true;
     train_with_dev := false; monitor_train := false; checkpoint := false;
     save_final_model := true; anneal_with_restarts := false;
     test_mode := false; param_selection_mode := false |}.

Lemma train_stops_below_lr_floor_witness :
  events_of (demo_train demo_self tiny_lr_args demo_store)
  = [] ++ EvEpochStart 0 (1 # 100000)
          :: [EvInfo lr_too_small_msg; EvSave final_model_pt;
              EvInfo no_test_msg] ∧
  (1 # 100000 < lr_floor)%Q ∧
  Forall quiet_event
    [EvInfo lr_too_small_msg; EvSave final_model_pt; EvInfo no_test_msg].
Proof.
  assert (H1 : events_of (demo_train demo_self tiny_lr_args demo_store)
               = [] ++ EvEpochStart 0 (1 # 100000)
                       :: [EvInfo lr_too_small_msg; EvSave final_model_pt;
                           EvInfo no_test_msg])
    by (vm_compute; reflexivity).
  assert (H2 : (1 # 100000 < lr_floor)%Q) by reflexivity.
  split_and!; [exact H1|exact H2|].
  exact (train_stops_below_lr_floor demo_step demo_evaluate demo_load
           demo_rand no_interrupt demo_self tiny_lr_args demo_store
           [] 0 (1 # 100000) _ H1 H2).
Defined.

(** *** C5 on a sweep whose loss first falls and then climbs *)

(** C5 (the code departs from the claim): the raw losses of the sweep are
    10, 1, 8, 9.  At iteration 2 the smoothed loss is more than 4 times the
    smallest smoothed loss logged so far, so by the claim the sweep stops
    there; the code compares with the raw loss of iteration 1 instead, logs
    the row of iteration 2 and goes on to a fourth mini-batch. *)
Theorem find_learning_rate_compares_with_raw_loss :
  ∃ l1 l2,
    logged_losses
      (events_of (demo_find_learning_rate demo_find_lr_args demo_store))
    = [(0, Finite 10); (1, Finite l1); (2, Finite l2)]%nat ∧
    (l1 < 10)%Q ∧ (4 * l1 < l2)%Q ∧ (l2 < 4 * 1)%Q ∧
    sweep_batches
      (events_of (demo_find_learning_rate demo_find_lr_args demo_store))
    = 4%nat.
Proof.
  eexists _, _. split_and!.
  - vm_compute. reflexivity.
  - reflexivity.
  - reflexivity.
  - reflexivity.
  - vm_compute. reflexivity.
Qed.

(** *** C6 on the concrete model *)

(** C6 (the code departs from the claim): [model_state] (line 368) is the
    dictionary of the model's live parameters, so the optimizer's steps
    change what it holds, and [load_state_dict(model_state)] (line 400)
    writes the swept values back.  Here the parameter is 0 before the call
    and every step of the sweep adds 1: the call returns the path of its
    log after four batches, and the parameter is 4, not 0.  Only the
    device is as it was. *)
Theorem find_learning_rate_keeps_swept_parameters :
  result_of (demo_find_learning_rate demo_find_lr_args demo_store)
  = Ok (file_name demo_find_lr_args) ∧
  sweep_batches
    (events_of (demo_find_learning_rate demo_find_lr_args demo_store))
  = 4%nat ∧
  demo_state_dict (model demo_store) = 0%Z ∧
  demo_state_dict
    (model (store_of (demo_find_learning_rate demo_find_lr_args demo_store)))
  = 4%Z ∧
  demo_device
    (model (store_of (demo_find_learning_rate demo_find_lr_args demo_store)))
  = demo_device (model demo_store).
Proof.
  split_and!; vm_compute; reflexivity.
Qed.

(** *** C7 in parameter-selection mode *)




(** *** C8 on the corpus without a test split *)

Lemma train_without_test_split_witness :
  corpus_test (corpus demo_store) = [] ∧
  (EvFinalTest ∉ demo_events) ∧
  (∀ d, result_of (demo_train demo_self demo_args demo_store) = Ok d →
        dict_get d "test_score" = Some (VNum 0) ∧
        EvInfo no_test_msg ∈ demo_events) ∧
  (mini_batch_size demo_args ≠ O → corpus_train (corpus demo_store) ≠ [] →
   ∃ d, result_of (demo_train demo_self demo_args demo_store) = Ok d).
Proof.
  split; [reflexivity|].
  apply (train_without_test_split demo_step demo_evaluate demo_load
           demo_rand no_interrupt demo_self demo_args demo_store).
  reflexivity.
Defined.

(** *** C9 on the concrete corpus *)

Definition with_dev_args : train_args :=
  {| evaluation_metric := MICRO_F1_SCORE; learning_rate := 1 # 10;
     mini_batch_size := 2; max_epochs := 3; anneal_factor := 1 # 2;
     patience := 3; anneal_against_train_loss := true;
     train_with_dev := true; monitor_train := false; checkpoint := false;
     save_final_model := true; anneal_with_restarts := false;
     test_mode := true; param_selection_mode := false |}.

(** C9, as the spec words it, fails: after [train] the corpus's own
    training split is in another order, after [find_learning_rate] too, and
    with [train_with_dev] it has grown by the dev split. *)
Lemma train_reorders_and_extends_the_training_split :
  corpus_train (corpus demo_store) = [1; 2; 3; 4]%nat ∧
  corpus_train (corpus (store_of (demo_train demo_self demo_args demo_store)))
  = [4; 1; 2; 3]%nat ∧
  corpus_train
    (corpus (store_of (demo_find_learning_rate demo_find_lr_args demo_store)))
  = [2; 3; 4; 1]%nat ∧
  corpus_train
    (corpus (store_of (demo_train demo_self with_dev_args demo_store)))
  = [1; 2; 3; 4; 5; 6]%nat.
Proof.
  split_and!; [reflexivity| | |]; vm_compute; reflexivity.
Qed.

(** A [MultiCorpus] of two parts, with the same splits. *)
Definition multi_corpus : Corpus :=
  {| corpus_train := [1; 2; 3; 4]; corpus_dev := [5; 6]; corpus_test := [];
     corpora := Some [("part-a", []); ("part-b", [])] |}.

Definition multi_store : store :=
  {| model := (0%Z, false); corpus := multi_corpus; train_data := [];
     param_groups := [];
     scheduler := new_scheduler demo_self demo_args; files := ∅; rng := 0;
     dev_score_history := []; dev_loss_history := [];
     train_loss_history := [] |}.

(** The store of [demo_store] once [train_data] names the corpus's list. *)
Definition bound_store : store := bind_train_data demo_store.

Lemma training_split_is_shuffled_in_place_witness :
  (corpora (corpus bound_store) = None ∧
   train_data bound_store = corpus_train (corpus bound_store) ∧
   corpus_train
     (corpus (store_of (train_one_epoch demo_step demo_rand no_interrupt
                          demo_args 0 (1 # 10) 0 bound_store)))
   = (if test_mode demo_args then corpus_train (corpus bound_store)
      else shuffle demo_rand (rng bound_store)
             (corpus_train (corpus bound_store)))) ∧
  (corpora (corpus demo_store) = None ∧
   train_data (store_of (demo_train demo_self demo_args demo_store))
   = corpus_train
       (corpus (store_of (demo_train demo_self demo_args demo_store))) ∧
   corpus_train
     (corpus (store_of (demo_find_learning_rate demo_find_lr_args demo_store)))
   = shuffle demo_rand (rng demo_store) (corpus_train (corpus demo_store))) ∧
  (corpora (corpus multi_store) ≠ None ∧
   corpus (store_of (demo_train demo_self with_dev_args multi_store))
   = corpus multi_store ∧
   corpus (store_of (demo_find_learning_rate demo_find_lr_args multi_store))
   = corpus multi_store).
Proof.
  pose proof (training_split_is_shuffled_in_place demo_step demo_evaluate
                demo_load demo_rand no_interrupt demo_state_dict
                demo_load_state_dict demo_device demo_to_device
                demo_sweep_step demo_anneal) as (Ha & Hb & Hc & Hd & He).
  assert (Hbound : corpora (corpus bound_store) = None) by reflexivity.
  assert (Hal : train_data bound_store = corpus_train (corpus bound_store))
    by reflexivity.
  assert (Hplain : corpora (corpus demo_store) = None) by reflexivity.
  assert (Hmulti : corpora (corpus multi_store) ≠ None) by discriminate.
  split_and!.
  - exact Hbound.
  - exact Hal.
  - exact (proj1 (Ha demo_args 0%Z (1 # 10)%Q 0%nat bound_store Hbound Hal)).
  - exact Hplain.
  - exact (proj1 (proj2 (Hb demo_self demo_args demo_store Hplain))).
  - exact (proj1 (Hc demo_find_lr_args demo_store Hplain)).
  - exact Hmulti.
  - exact (Hd demo_self with_dev_args multi_store Hmulti).
  - exact (He demo_find_lr_args multi_store Hmulti).
Defined.

(** ** The further properties on concrete sessions *)

(** What the concrete session returns. *)
Definition demo_result : list (string * pyvalue) :=
  [("test_score", VNum 0);
   ("dev_score_history", VList [1 # 2; 1 # 2; 1 # 2]);
   ("train_loss_history", VList [2 # 4; 2 # 4; 2 # 4]);
   ("dev_loss_history", VList [3%Q; 3%Q; 3%Q])].

Lemma demo_returns :
  result_of (demo_train demo_self demo_args demo_store) = Ok demo_result.
Proof. vm_compute. reflexivity. Qed.

Lemma train_histories_count_epochs_witness :
  result_of (demo_train demo_self demo_args demo_store) = Ok demo_result ∧
  ∃ tl ds dl,
    dict_get demo_result "train_loss_history" = Some (VList tl) ∧
    dict_get demo_result "dev_score_history" = Some (VList ds) ∧
    dict_get demo_result "dev_loss_history" = Some (VList dl) ∧
    length tl = epochs_done demo_events ∧
    length ds = (if train_with_dev demo_args then O
                 else epochs_done demo_events) ∧
    length dl = length ds ∧
    length (scheduler_scores demo_events) = epochs_done demo_events ∧
    length (loss_rows demo_events)
    = (if param_selection_mode demo_args then O
       else epochs_done demo_events).
Proof.
  split; [exact demo_returns|].
  exact (train_histories_count_epochs demo_step demo_evaluate demo_load
           demo_rand no_interrupt demo_self demo_args demo_store demo_result
           demo_returns).
Defined.

Lemma scheduler_is_stepped_with_history_witness :
  result_of (demo_train demo_self demo_args demo_store) = Ok demo_result ∧
  dict_get demo_result "train_loss_history"
  = Some (VList (scheduler_scores demo_events)).
Proof.
  split; [exact demo_returns|].
  exact (scheduler_is_stepped_with_history demo_step demo_evaluate demo_load
           demo_rand no_interrupt demo_self demo_args demo_store demo_result
           demo_returns).
Defined.



(** *** Checkpoints *)


(** *** An interrupted session *)

(** Ctrl-C arrives when the second epoch is about to process its first
    batch; the caller did not ask for the final model. *)
Definition interrupt_second_epoch (e : Z) (b : nat) : bool :=
  (e =? 1)%Z && (b =? 0)%nat.

Definition no_final_args : train_args :=
  {| evaluation_metric := MICRO_F1_SCORE; learning_rate := 1 # 10;
     mini_batch_size := 2; max_epochs := 3; anneal_factor := 1 # 2;
     patience := 3; anneal_against_train_loss := true;
     train_with_dev := false; monitor_train := false; checkpoint := false;
     save_final_model := false; anneal_with_restarts := false;
     test_mode := false; param_selection_mode := false |}.

Abbreviation interrupted_train :=
  (train demo_step demo_evaluate demo_load demo_rand interrupt_second_epoch).

(** *** Sessions that cannot train *)

Definition empty_corpus : Corpus :=
  {| corpus_train := []; corpus_dev := [5; 6]; corpus_test := [];
     corpora := None |}.

Definition empty_store : store :=
  {| model := (0%Z, false); corpus := empty_corpus; train_data := [];
     param_groups := [];
     scheduler := new_scheduler demo_self demo_args; files := ∅; rng := 0;
     dev_score_history := []; dev_loss_history := [];
     train_loss_history := [] |}.

Definition zero_batch_args : train_args :=
  {| evaluation_metric := MICRO_F1_SCORE; learning_rate := 1 # 10;
     mini_batch_size := 0; max_epochs := 3; anneal_factor := 1 # 2;
     patience := 3; anneal_against_train_loss := true;
     train_with_dev := false; monitor_train := false; checkpoint := false;
     save_final_model := true; anneal_with_restarts := false;
     test_mode := false; param_selection_mode := false |}.

(** *** A corpus with a test split and a stale best model *)

Definition tested_corpus : Corpus :=
  {| corpus_train := [1; 2; 3; 4]; corpus_dev := [5; 6];
     corpus_test := [7; 8];
     corpora := Some [("part-a", [7]); ("part-b", [8])] |}.

(** The score of a model is its parameter, over 100. *)
Definition scoring_evaluate (w : Z * bool) (dataset : list nat) : Metric * Q :=
  ({| macro_avg_accuracy := inject_Z w.1 / 100;
      micro_avg_accuracy := inject_Z w.1 / 100;
      macro_avg_f_score := inject_Z w.1 / 100;
      micro_avg_f_score := inject_Z w.1 / 100 |}, 3%Q).

(** Loading a saved model gives the parameter 50. *)
Definition stale_load (w : Z * bool) : Z * bool := (50%Z, w.2).

Definition tested_store : store :=
  {| model := (0%Z, false); corpus := tested_corpus; train_data := [];
     param_groups := [];
     scheduler := new_scheduler demo_self demo_args;
     files := {[best_model_pt]}; rng := 0;
     dev_score_history := []; dev_loss_history := [];
     train_loss_history := [] |}.

Abbreviation tested_train :=
  (train demo_step scoring_evaluate stale_load demo_rand no_interrupt).



Definition interrupted_result : list (string * pyvalue) :=
  [("test_score", VNum 0); ("dev_score_history", VList [1 # 2]);
   ("train_loss_history", VList [2 # 4]); ("dev_loss_history", VList [3%Q])].

Lemma interrupted_session_returns :
  result_of (interrupted_train demo_self no_final_args demo_store)
  = Ok interrupted_result.
Proof. vm_compute. reflexivity. Qed.

Lemma final_model_saved_iff_witness :
  result_of (interrupted_train demo_self no_final_args demo_store)
  = Ok interrupted_result ∧
  (EvSave final_model_pt
   ∈ events_of (interrupted_train demo_self no_final_args demo_store) ↔
   param_selection_mode no_final_args = false ∧
   (save_final_model no_final_args = true
    ∨ EvInfo interrupted_msg
      ∈ events_of (interrupted_train demo_self no_final_args demo_store))) ∧
  (EvSave final_model_pt
   ∈ events_of (interrupted_train demo_self no_final_args demo_store) →
   final_model_pt
   ∈ files (store_of (interrupted_train demo_self no_final_args demo_store))).
Proof.
  split; [exact interrupted_session_returns|].
  exact (final_model_saved_iff demo_step demo_evaluate demo_load demo_rand
           interrupt_second_epoch demo_self no_final_args demo_store
           interrupted_result interrupted_session_returns).
Defined.

Lemma demo_rate_not_below_floor :
  ¬ (initial_learning_rate demo_self demo_args < lr_floor)%Q.
Proof. intros H. vm_compute in H. discriminate H. Qed.

Lemma train_on_empty_training_data_witness :
  (0 < max_epochs demo_args)%Z ∧
  mini_batch_size demo_args ≠ O ∧
  corpus_train (corpus empty_store) = [] ∧
  no_interrupt (epoch demo_self) 0 = false ∧
  result_of (demo_train demo_self demo_args empty_store)
  = Raise ZeroDivisionError ∧
  epochs_started (events_of (demo_train demo_self demo_args empty_store))
  = [epoch demo_self] ∧
  saved_files (events_of (demo_train demo_self demo_args empty_store)) = [] ∧
  (EvFinalTest ∉ events_of (demo_train demo_self demo_args empty_store)).
Proof.
  assert (H1 : (0 < max_epochs demo_args)%Z) by reflexivity.
  assert (H2 : mini_batch_size demo_args ≠ O) by discriminate.
  assert (H3 : train_with_dev demo_args = true →
               corpus_dev (corpus empty_store) = []) by discriminate.
  split_and!; [exact H1|exact H2|reflexivity|reflexivity|..];
    apply (train_on_empty_training_data demo_step demo_evaluate demo_load
             demo_rand no_interrupt demo_self demo_args empty_store
             H1 demo_rate_not_below_floor H2 eq_refl H3 eq_refl).
Defined.

Lemma zero_batch_rate_not_below_floor :
  ¬ (initial_learning_rate demo_self zero_batch_args < lr_floor)%Q.
Proof. intros H. vm_compute in H. discriminate H. Qed.

Lemma train_with_zero_batch_size_witness :
  (0 < max_epochs zero_batch_args)%Z ∧
  mini_batch_size zero_batch_args = O ∧
  result_of (demo_train demo_self zero_batch_args demo_store)
  = Raise ValueError ∧
  epochs_started (events_of (demo_train demo_self zero_batch_args demo_store))
  = [epoch demo_self] ∧
  batches_run (events_of (demo_train demo_self zero_batch_args demo_store))
  = [] ∧
  saved_files (events_of (demo_train demo_self zero_batch_args demo_store))
  = [] ∧
  (EvFinalTest ∉ events_of (demo_train demo_self zero_batch_args demo_store)).
Proof.
  assert (H1 : (0 < max_epochs zero_batch_args)%Z) by reflexivity.
  split_and!; [exact H1|reflexivity|..];
    apply (train_with_zero_batch_size demo_step demo_evaluate demo_load
             demo_rand no_interrupt demo_self zero_batch_args demo_store
             H1 zero_batch_rate_not_below_floor eq_refl).
Defined.

Lemma train_without_training_witness :
  (initial_learning_rate demo_self tiny_lr_args < lr_floor)%Q ∧
  (∃ score,
     result_of (demo_train demo_self tiny_lr_args demo_store)
     = Ok [("test_score", VNum score); ("dev_score_history", VList []);
           ("train_loss_history", VList []); ("dev_loss_history", VList [])]) ∧
  batches_run (events_of (demo_train demo_self tiny_lr_args demo_store)) = [] ∧
  scheduler_scores (events_of (demo_train demo_self tiny_lr_args demo_store))
  = [] ∧
  saved_files (events_of (demo_train demo_self tiny_lr_args demo_store))
  = (if save_final_model tiny_lr_args
        && negb (param_selection_mode tiny_lr_args)
     then [final_model_pt] else []).
Proof.
  assert (H : (initial_learning_rate demo_self tiny_lr_args < lr_floor)%Q)
    by reflexivity.
  split; [exact H|].
  exact (train_without_training demo_step demo_evaluate demo_load demo_rand
           no_interrupt demo_self tiny_lr_args demo_store (or_intror H)).
Defined.

(** *** The final test on a stale best model *)

Definition tested_result : list (string * pyvalue) :=
  [("test_score", VNum (50 # 100)); ("dev_score_history", VList []);
   ("train_loss_history", VList [3 # 6; 3 # 6; 3 # 6]);
   ("dev_loss_history", VList [])].

Lemma tested_session_returns :
  result_of (tested_train demo_self with_dev_args tested_store)
  = Ok tested_result.
Proof. vm_compute. reflexivity. Qed.

Lemma train_test_score_is_final_test_witness :
  result_of (tested_train demo_self with_dev_args tested_store)
  = Ok tested_result ∧
  corpus_test (corpus tested_store) = [7; 8]%nat ∧
  EvFinalTest ∈ events_of (tested_train demo_self with_dev_args tested_store) ∧
  dict_get tested_result "test_score"
  = Some (VNum (metric_score (evaluation_metric with_dev_args)
                  (scoring_evaluate
                     (model (store_of (tested_train demo_self with_dev_args
                                         tested_store)))
                     (corpus_test (corpus tested_store))).1)).
Proof.
  assert (H : corpus_test (corpus tested_store) ≠ []) by discriminate.
  split; [exact tested_session_returns|]. split; [reflexivity|].
  exact (train_test_score_is_final_test demo_step scoring_evaluate stale_load
           demo_rand no_interrupt demo_self with_dev_args tested_store
           tested_result tested_session_returns H).
Defined.

Lemma best_model_needs_dev_selection_witness :
  train_with_dev with_dev_args = true ∧
  best_model_pt ∈ files tested_store ∧
  (best_model_pt
   ∈ files (store_of (tested_train demo_self with_dev_args tested_store))
   ↔ best_model_pt ∈ files tested_store).
Proof.
  split; [reflexivity|]. split.
  - apply (bool_decide_unpack (best_model_pt ∈ files tested_store)).
    vm_compute. exact I.
  - exact (proj2 (best_model_needs_dev_selection demo_step scoring_evaluate
                    stale_load demo_rand no_interrupt demo_self with_dev_args
                    tested_store) (or_introl eq_refl)).
Defined.

(** *** The training data *)

Lemma make_batches_partitions_witness :
  2%nat ≠ O ∧
  concat (make_batches [1; 2; 3; 4; 5]%nat 2) = [1; 2; 3; 4; 5]%nat ∧
  length (make_batches [1; 2; 3; 4; 5]%nat 2)
  = ((length [1; 2; 3; 4; 5]%nat + 2 - 1) / 2)%nat ∧
  Forall (λ b, 1 ≤ length b ≤ 2)%nat (make_batches [1; 2; 3; 4; 5]%nat 2) ∧
  (∀ i, (S i < length (make_batches [1; 2; 3; 4; 5]%nat 2))%nat →
        ∃ b, make_batches [1; 2; 3; 4; 5]%nat 2 !! i = Some b ∧
             length b = 2%nat).
Proof.
  assert (H : 2%nat ≠ O) by discriminate.
  split; [exact H|].
  exact (make_batches_partitions [1; 2; 3; 4; 5]%nat 2 H).
Defined.

Lemma train_with_dev_extends_training_split_witness :
  corpora (corpus demo_store) = None ∧
  train_with_dev with_dev_args = true ∧
  corpus_train (corpus (store_of (demo_train demo_self with_dev_args demo_store)))
  ≡ₚ corpus_train (corpus demo_store) ++ corpus_dev (corpus demo_store) ∧
  corpus_dev (corpus (store_of (demo_train demo_self with_dev_args demo_store)))
  = corpus_dev (corpus demo_store) ∧
  ∀ self' a', train_with_dev a' = true →
    corpus_train
      (corpus (store_of (demo_train self' a'
                           (store_of (demo_train demo_self with_dev_args
                                        demo_store)))))
    ≡ₚ corpus_train (corpus demo_store) ++ corpus_dev (corpus demo_store)
       ++ corpus_dev (corpus demo_store).
Proof.
  split; [reflexivity|]. split; [reflexivity|].
  exact (train_with_dev_extends_training_split demo_step demo_evaluate
           demo_load demo_rand no_interrupt demo_self with_dev_args demo_store
           eq_refl eq_refl).
Defined.

(** *** The learning-rate finder *)

Definition no_stop_args : find_lr_args :=
  {| file_name := "learning_rate.tsv"; start_learning_rate := 1 # 10000000;
     end_learning_rate := 10; iterations := 3; flr_mini_batch_size := 1;
     stop_early := false; smoothing_factor := 49 # 50 |}.

Lemma find_learning_rate_without_stop_early_witness :
  stop_early no_stop_args = false ∧
  flr_mini_batch_size no_stop_args ≠ O ∧
  (smoothing_factor no_stop_args < 1)%Q ∧
  result_of (demo_find_learning_rate no_stop_args demo_store)
  = Ok (file_name no_stop_args) ∧
  sweep_batches (events_of (demo_find_learning_rate no_stop_args demo_store))
  = iterations no_stop_args
    `min` ((length (corpus_train (corpus demo_store))
            + flr_mini_batch_size no_stop_args - 1)
           / flr_mini_batch_size no_stop_args)%nat ∧
  length (logged_losses
            (events_of (demo_find_learning_rate no_stop_args demo_store)))
  = sweep_batches (events_of (demo_find_learning_rate no_stop_args demo_store)).
Proof.
  assert (H1 : flr_mini_batch_size no_stop_args ≠ O) by discriminate.
  assert (H2 : (smoothing_factor no_stop_args < 1)%Q) by reflexivity.
  split; [reflexivity|]. split; [exact H1|]. split; [exact H2|].
  exact (find_learning_rate_without_stop_early demo_rand demo_state_dict
           demo_load_state_dict demo_device demo_to_device demo_sweep_step
           demo_anneal no_stop_args demo_store eq_refl H1 H2).
Defined.

Lemma find_learning_rate_on_empty_training_data_witness :
  corpus_train (corpus empty_store) = [] ∧
  flr_mini_batch_size demo_find_lr_args ≠ O ∧
  result_of (demo_find_learning_rate demo_find_lr_args empty_store)
  = Ok (file_name demo_find_lr_args) ∧
  events_of (demo_find_learning_rate demo_find_lr_args empty_store)
  = [EvInfo finder_done_msg] ∧
  sweep_batches
    (events_of (demo_find_learning_rate demo_find_lr_args empty_store))
  = 0%nat ∧
  logged_losses
    (events_of (demo_find_learning_rate demo_find_lr_args empty_store))
  = [].
Proof.
  assert (H : flr_mini_batch_size demo_find_lr_args ≠ O) by discriminate.
  split; [reflexivity|]. split; [exact H|].
  exact (find_learning_rate_on_empty_training_data demo_rand demo_state_dict
           demo_load_state_dict demo_device demo_to_device demo_sweep_step
           demo_anneal demo_find_lr_args empty_store eq_refl H).
Defined.

Lemma demo_sweep_losses :
  sweep_losses (events_of (demo_find_learning_rate demo_find_lr_args demo_store))
  = Finite 10 :: [Finite 1; Finite 8; Finite 9].
Proof. vm_compute. reflexivity. Qed.

Lemma find_learning_rate_first_batch_witness :
  sweep_losses (events_of (demo_find_learning_rate demo_find_lr_args demo_store))
  = Finite 10 :: [Finite 1; Finite 8; Finite 9] ∧
  (logged_losses
     (events_of (demo_find_learning_rate demo_find_lr_args demo_store)) = []
   ↔ stop_early demo_find_lr_args = true
     ∧ (Finite 10 = NaN ∨ ∃ q, Finite 10 = Finite q ∧ (q < 0)%Q)) ∧
  (logged_losses
     (events_of (demo_find_learning_rate demo_find_lr_args demo_store)) = [] →
   [Finite 1; Finite 8; Finite 9] = []).
Proof.
  split; [exact demo_sweep_losses|].
  exact (find_learning_rate_first_batch demo_rand demo_state_dict
           demo_load_state_dict demo_device demo_to_device demo_sweep_step
           demo_anneal demo_find_lr_args demo_store (Finite 10)
           [Finite 1; Finite 8; Finite 9] demo_sweep_losses).
Defined.

(** A smoothing factor of 1 with the early stop off. *)
Definition unit_smoothing_args : find_lr_args :=
  {| file_name := "learning_rate.tsv"; start_learning_rate := 1 # 10000000;
     end_learning_rate := 10; iterations := 100; flr_mini_batch_size := 1;
     stop_early := false; smoothing_factor := 1 |}.

Lemma find_learning_rate_failures_witness :
  (smoothing_factor unit_smoothing_args == 1)%Q ∧
  stop_early unit_smoothing_args = false ∧
  flr_mini_batch_size unit_smoothing_args ≠ O ∧
  (2 ≤ iterations unit_smoothing_args)%nat ∧
  (flr_mini_batch_size unit_smoothing_args
   < length (corpus_train (corpus demo_store)))%nat ∧
  result_of (demo_find_learning_rate unit_smoothing_args demo_store)
  = Raise ZeroDivisionError ∧
  sweep_batches
    (events_of (demo_find_learning_rate unit_smoothing_args demo_store))
  = 2%nat ∧
  length (logged_losses
            (events_of (demo_find_learning_rate unit_smoothing_args demo_store)))
  = 1%nat ∧
  (smoothing_factor unit_smoothing_args <= 1)%Q ∧
  ((ZeroDivisionError = ValueError
    ∧ flr_mini_batch_size unit_smoothing_args = O)
   ∨ (ZeroDivisionError = ZeroDivisionError
      ∧ (smoothing_factor unit_smoothing_args == 1)%Q)).
Proof.
  assert (H0 : (smoothing_factor unit_smoothing_args <= 1)%Q)
    by (vm_compute; discriminate).
  assert (H1 : (smoothing_factor unit_smoothing_args == 1)%Q) by reflexivity.
  assert (H2 : flr_mini_batch_size unit_smoothing_args ≠ O) by discriminate.
  assert (H3 : (2 ≤ iterations unit_smoothing_args)%nat)
    by (vm_compute; lia).
  assert (H4 : (flr_mini_batch_size unit_smoothing_args
                < length (corpus_train (corpus demo_store)))%nat)
    by (vm_compute; lia).
  split; [exact H1|]. split; [reflexivity|]. split; [exact H2|].
  split; [exact H3|]. split; [exact H4|].
  pose proof (find_learning_rate_failures demo_rand demo_state_dict
                demo_load_state_dict demo_device demo_to_device
                demo_sweep_step demo_anneal unit_smoothing_args demo_store)
    as (_ & Honly & Hraises).
  destruct (Hraises H1 eq_refl H2 H3 H4) as (Hr & Hn & Hrows).
  split; [exact Hr|]. split; [exact Hn|]. split; [exact Hrows|].
  split; [exact H0|].
  exact (Honly H0 ZeroDivisionError Hr).
Defined.

(** *** A session restored from a checkpoint *)

(** The checkpoint on disk: written after two epochs, with the rate
    annealed to 0.05. *)
Definition demo_load_checkpoint (w : Z * bool) (file : string)
  : Checkpoint (W := Z * bool) :=
  {| ck_model := (4%Z, false); ck_epoch := 2; ck_loss := 2 # 4;
     ck_optimizer_state_dict := [1 # 20];
     ck_scheduler_state_dict :=
       {| sch_mode := ModeMin; sch_factor := 1 # 2; sch_patience := 3;
          sch_weight_decay_variant := false;
          best := Some (2 # 4); num_bad_epochs := 0 |} |}.

Abbreviation demo_resumed :=
  (load_from_checkpoint demo_load_checkpoint "checkpoint.pt" "SequenceTagger"
     demo_corpus SGD demo_store).

Lemma resumed_training_starts_at_checkpoint_witness :
  (0 < max_epochs demo_args)%Z ∧
  ∃ rest, events_of (demo_train demo_resumed.1 demo_args demo_resumed.2)
          = EvEpochStart
              (ck_epoch (demo_load_checkpoint (model demo_store) "checkpoint.pt"))
              (List.last
                 (ck_optimizer_state_dict
                    (demo_load_checkpoint (model demo_store) "checkpoint.pt"))
                 (learning_rate demo_args)) :: rest.
Proof.
  assert (H : (0 < max_epochs demo_args)%Z) by reflexivity.
  split; [exact H|].
  exact (proj1 (resumed_training_starts_at_checkpoint demo_step demo_evaluate
                  demo_load demo_rand no_interrupt demo_load_checkpoint
                  "checkpoint.pt" "SequenceTagger" demo_corpus SGD demo_store
                  demo_args) H).
Defined.
